(** * The Istio performer of the reconciler: a shallow embedding

    The development follows [pkg/reconciler/instances/istio/actions]
    (package [actions]): the [DefaultIstioPerformer] with its operations
    [Install], [Update], [Uninstall], [PatchMutatingWebhook], [ResetProxy]
    and [Version], and the helpers that resolve the target version of a chart
    and map the output of the version command.

    Conventions.
    - A Go [error] value is [option failure]: [None] is [nil].
    - A Go pointer that the code dereferences is an [option]; dereferencing
      [None] is the run-time panic [NilDereference].
    - A function that can panic returns an [outcome].
    - Calls into the cluster are state passing over an abstract [cluster]
      state and are recorded, in order, in a trace of [call]s.
    - Logging is not modelled. *)

From Stdlib Require Import ZArith List Bool Lia.
From Stdlib Require Import Strings.String Strings.Ascii Strings.Byte.
From stdpp Require Import base list strings gmap.

Local Open Scope string_scope.
Local Open Scope Z_scope.
Local Open Scope list_scope.

(** ** Go values *)

(** A non-nil error.  [New] is what [errors.New] and [fmt.Errorf] build,
    [Wrapped] what [errors.Wrap] builds around a cause, and [APIStatus] stands
    for an error that comes back from a collaborator (an API status error with
    its reason, or any other failure of theirs). *)
Inductive failure : Type :=
| New (msg : string)
| Wrapped (cause : failure) (msg : string)
| APIStatus (reason : string) (msg : string).

(** The Go interface type [error]; [None] is [nil]. *)
Definition error : Type := option failure.

(** [errors.Wrap] of github.com/pkg/errors: "If err is nil, Wrap returns
    nil." *)
Definition errors_Wrap (err : error) (message : string) : error :=
  match err with
  | None => None
  | Some f => Some (Wrapped f message)
  end.

(** The result [(T, error)] of a collaborator whose value is only read when
    the error is nil. *)
Inductive result (A : Type) : Type :=
| Ok (a : A)
| Failed (f : failure).
Arguments Ok {A} a.
Arguments Failed {A} f.

(** Run-time panics of the Go runtime. *)
Inductive panic : Type :=
| NilDereference
| SliceBoundsOutOfRange (low : Z).

(** A Go call either returns or panics. *)
Inductive outcome (A : Type) : Type :=
| Returns (a : A)
| Panics (p : panic).
Arguments Returns {A} a.
Arguments Panics {A} p.

Definition outcome_bind {A B} (o : outcome A) (k : A -> outcome B) : outcome B :=
  match o with
  | Returns a => k a
  | Panics p => Panics p
  end.

(** A Go slice whose nil-ness is observable ([reflect.DeepEqual] tells a nil
    slice from an empty one): [None] is the nil slice. *)
Definition slice (A : Type) : Type := option (list A).

(** [len] of a slice or byte sequence, as a Go [int]. *)
Definition len {A} (s : list A) : Z := Z.of_nat (length s).

(** The slice expression [s[low:]]: the runtime panics unless
    [0 <= low <= len(s)]. *)
Definition slice_from {A} (s : list A) (low : Z) : outcome (list A) :=
  if (low <? 0) || (len s <? low)
  then Panics (SliceBoundsOutOfRange low)
  else Returns (drop (Z.to_nat low) s).

(** [bytes.IndexRune(s, r)] for a rune below [utf8.RuneSelf], where it is
    [bytes.IndexByte]: the index of the first occurrence, or [-1]. *)
Fixpoint indexByteFrom (i : Z) (s : list byte) (c : byte) : Z :=
  match s with
  | [] => -1
  | b :: s' => if Byte.eqb b c then i else indexByteFrom (i + 1) s' c
  end.

Definition bytes_IndexRune (s : list byte) (r : byte) : Z :=
  indexByteFrom 0 s r.

(** ** The Kubernetes API types the performer reads and writes

    Only the fields that the code touches and a few neighbours are kept. *)

(** [metav1.LabelSelectorRequirement]. *)
Record LabelSelectorRequirement : Type := {
  Key : string;
  Operator : string;
  Values : slice string
}.

(** [metav1.LabelSelector].  [MatchExpressions] is only ranged over and
    appended to, which treats the nil and the empty slice alike, so it is a
    list. *)
Record LabelSelector : Type := {
  MatchLabels : gmap string string;
  MatchExpressions : list LabelSelectorRequirement
}.

(** [v1.MutatingWebhook]. *)
Record MutatingWebhook : Type := {
  Name : string;
  NamespaceSelector : option LabelSelector;
  ObjectSelector : option LabelSelector;
  AdmissionReviewVersions : list string;
  TimeoutSeconds : option Z
}.

(** [metav1.ObjectMeta]. *)
Record ObjectMeta : Type := {
  ObjectName : string;
  ResourceVersion : string;
  Labels : gmap string string
}.

(** [v1.MutatingWebhookConfiguration]. *)
Record MutatingWebhookConfiguration : Type := {
  Meta : ObjectMeta;
  Webhooks : list MutatingWebhook
}.

(** [reflect.DeepEqual] on two [[]string]: both nil, or both non-nil with
    equal elements. *)
Definition DeepEqual_strings (a b : slice string) : bool :=
  match a, b with
  | None, None => true
  | Some xs, Some ys => bool_decide (xs = ys)
  | _, _ => false
  end.

(** [reflect.DeepEqual] on two [metav1.LabelSelectorRequirement]: field by
    field. *)
Definition DeepEqual (a b : LabelSelectorRequirement) : bool :=
  String.eqb (Key a) (Key b)
  && String.eqb (Operator a) (Operator b)
  && DeepEqual_strings (Values a) (Values b).

(** Assignments to a field through a pointer. *)
Definition set_MatchExpressions (sel : LabelSelector)
    (mes : list LabelSelectorRequirement) : LabelSelector :=
  {| MatchLabels := MatchLabels sel; MatchExpressions := mes |}.

Definition set_NamespaceSelector (wh : MutatingWebhook)
    (sel : option LabelSelector) : MutatingWebhook :=
  {| Name := Name wh;
     NamespaceSelector := sel;
     ObjectSelector := ObjectSelector wh;
     AdmissionReviewVersions := AdmissionReviewVersions wh;
     TimeoutSeconds := TimeoutSeconds wh |}.

Definition set_Webhooks (whConf : MutatingWebhookConfiguration)
    (whs : list MutatingWebhook) : MutatingWebhookConfiguration :=
  {| Meta := Meta whConf; Webhooks := whs |}.

(** ** The mutation step of the webhook patch *)

(** The inner loop: [hasRequiredLabel] after ranging over
    [matchExpressions], leaving at the first deeply equal entry. *)
Fixpoint hasRequiredLabel (matchExpressions : list LabelSelectorRequirement)
    (requiredLabelSelector : LabelSelectorRequirement) : bool :=
  match matchExpressions with
  | [] => false
  | e :: rest =>
      if DeepEqual e requiredLabelSelector then true
      else hasRequiredLabel rest requiredLabelSelector
  end.

(** The body run for [whConf.Webhooks[i]] once its name matched; [wh] is that
    entry.  It returns the configuration as the pointer leaves it, selectors
    and match expressions taken as values: this is the step on a
    configuration in which no selector and no backing array is held twice,
    as in one decoded from a reply of the API server.  [Heap.patchWebhookAt]
    below is the step when they may be shared, and [heap_step_refines]
    relates the two. *)
Definition patchWebhookAt (whConf : MutatingWebhookConfiguration) (i : nat)
    (wh : MutatingWebhook) (requiredLabelSelector : LabelSelectorRequirement)
    : outcome (MutatingWebhookConfiguration * error) :=
  match NamespaceSelector wh with
  | None => Panics NilDereference
  | Some sel =>
      let matchExpressions := MatchExpressions sel in
      if hasRequiredLabel matchExpressions requiredLabelSelector
      then Returns (whConf, None)
      else
        let matchExpressions := matchExpressions ++ [requiredLabelSelector] in
        let wh' :=
          set_NamespaceSelector wh
            (Some (set_MatchExpressions sel matchExpressions)) in
        Returns (set_Webhooks whConf (<[i := wh']> (Webhooks whConf)), None)
  end.

(** The outer loop [for i := range whConf.Webhooks], at index [i] with
    [rest] the entries from [i] on. *)
Fixpoint scanWebhooks (whConf : MutatingWebhookConfiguration) (i : nat)
    (rest : list MutatingWebhook) (webhookNameToChange : string)
    (requiredLabelSelector : LabelSelectorRequirement)
    : outcome (MutatingWebhookConfiguration * error) :=
  match rest with
  | [] =>
      Returns (whConf,
               Some (New ("could not find webhook " +:+ webhookNameToChange
                          +:+ " in WebhookConfiguration "
                          +:+ ObjectName (Meta whConf))))
  | wh :: rest' =>
      if String.eqb (Name wh) webhookNameToChange
      then patchWebhookAt whConf i wh requiredLabelSelector
      else scanWebhooks whConf (S i) rest' webhookNameToChange
             requiredLabelSelector
  end.

(** [addNamespaceSelectorIfNotPresent] on the configuration [whConf] points
    to.  The result pairs the configuration after the call with the returned
    error. *)
Definition addNamespaceSelectorIfNotPresent
    (whConf : MutatingWebhookConfiguration) (webhookNameToChange : string)
    (requiredLabelSelector : LabelSelectorRequirement)
    : outcome (MutatingWebhookConfiguration * error) :=
  scanWebhooks whConf 0 (Webhooks whConf) webhookNameToChange
    requiredLabelSelector.

(** ** The output of the version command *)

Definition VersionType : Type := string.

Record IstioStatus : Type := {
  Status_ClientVersion : string;
  Status_TargetVersion : string;
  Status_PilotVersion : string;
  Status_DataPlaneVersion : string
}.

Record ClientVersion : Type := { ClientVersion_Version : string }.

Record MeshInfo : Type := { MeshInfo_Version : string }.

Record MeshComponent : Type := {
  Component : string;
  Info : option MeshInfo
}.

Record DataPlaneVersion : Type := { IstioVersion : string }.

(** [IstioVersionOutput]: a pointer and two slices of pointers. *)
Record IstioVersionOutput : Type := {
  Output_ClientVersion : option ClientVersion;
  Output_MeshVersion : list (option MeshComponent);
  Output_DataPlaneVersion : list (option DataPlaneVersion)
}.

(** [chartValues]: nested struct values, so the path
    [global.images.istio_pilot.version] is one field. *)
Record chartValues : Type := { Global_Images_IstioPilot_Version : string }.

(** The zero value [IstioStatus{}]. *)
Definition IstioStatus_zero : IstioStatus :=
  {| Status_ClientVersion := "";
     Status_TargetVersion := "";
     Status_PilotVersion := "";
     Status_DataPlaneVersion := "" |}.

(** Dereference of a pointer. *)
Definition deref {A} (p : option A) : outcome A :=
  match p with
  | Some a => Returns a
  | None => Panics NilDereference
  end.

Definition getVersionFromJSON (versionType : VersionType)
    (json : IstioVersionOutput) : outcome string :=
  if String.eqb versionType "client" then
    outcome_bind (deref (Output_ClientVersion json)) (fun cv =>
    Returns (ClientVersion_Version cv))
  else if String.eqb versionType "pilot" then
    match Output_MeshVersion json with
    | first :: _ =>
        outcome_bind (deref first) (fun mc =>
        outcome_bind (deref (Info mc)) (fun info =>
        Returns (MeshInfo_Version info)))
    | [] => Returns ""
    end
  else if String.eqb versionType "dataPlane" then
    match Output_DataPlaneVersion json with
    | first :: _ =>
        outcome_bind (deref first) (fun dp =>
        Returns (IstioVersion dp))
    | [] => Returns ""
    end
  else Returns "".

(** ** The world outside the package

    [Universe] holds the types the package only passes around;
    [Packages] the package-level functions of other packages that the code
    calls, taken as they are. *)

Class Universe : Type := {
  (** the state of the cluster and of everything the collaborators act on *)
  cluster : Type;
  (** [istioctl.Version] *)
  istioctl_Version : Type;
  (** the [Values] of a helm chart, a [map[string]interface{}] *)
  HelmValues : Type
}.

Section Model.
Context `{U : Universe}.

(** [helmChart.Metadata] and [helmChart.Chart]. *)
Record ChartMetadata : Type := { AppVersion : string }.

Record Chart : Type := {
  Metadata : option ChartMetadata;
  ChartValues : HelmValues
}.

(** [chart.Factory], reduced to [Get], and the [ResourceDir] of the workspace
    it returns. *)
Record Factory : Type := { Factory_Get : string -> result string }.

Class Packages : Type := {
  (** [istioctl.VersionFromString] *)
  VersionFromString : string -> result istioctl_Version;
  (** [manifest.ExtractIstioOperatorContextFrom] *)
  ExtractIstioOperatorContextFrom : string -> result string;
  (** [filepath.Join] and [loader.Load] *)
  filepath_Join : string -> string -> string;
  loader_Load : string -> result Chart;
  (** [json.Marshal] of chart values; [json.Unmarshal] into a [chartValues]
      and into an [IstioVersionOutput] *)
  json_Marshal : HelmValues -> result (list byte);
  json_Unmarshal_chartValues : list byte -> result chartValues;
  json_Unmarshal_IstioVersionOutput : list byte -> result IstioVersionOutput;
  (** [errors.IsConflict] of k8s.io/apimachinery and the [Steps] of
      [retry.DefaultRetry] of k8s.io/client-go, which [retry.RetryOnConflict]
      is called with *)
  IsConflict : failure -> bool;
  DefaultRetry_Steps : nat
}.
Context `{P : Packages}.

Definition mapVersionToStruct (versionOutput : list byte)
    (targetVersion : string) : outcome (IstioStatus * error) :=
  if len versionOutput =? 0 then
    Returns (IstioStatus_zero,
             Some (New "the result of the version command is empty"))
  else
    outcome_bind
      (if negb (bytes_IndexRune versionOutput "{"%byte =? 0)
       then slice_from versionOutput (bytes_IndexRune versionOutput "{"%byte)
       else Returns versionOutput)
      (fun versionOutput =>
    match json_Unmarshal_IstioVersionOutput versionOutput with
    | Failed err => Returns (IstioStatus_zero, Some err)
    | Ok version =>
        outcome_bind (getVersionFromJSON "client" version) (fun client =>
        outcome_bind (getVersionFromJSON "pilot" version) (fun pilot =>
        outcome_bind (getVersionFromJSON "dataPlane" version) (fun dataPlane =>
        Returns ({| Status_ClientVersion := client;
                    Status_TargetVersion := targetVersion;
                    Status_PilotVersion := pilot;
                    Status_DataPlaneVersion := dataPlane |}, None))))
    end).

(** ** The target version of a chart *)

Definition getTargetVersionFromAppVersionInChartDefinition
    (helmChart : Chart) : outcome string :=
  outcome_bind (deref (Metadata helmChart)) (fun md => Returns (AppVersion md)).

Definition getTargetVersionFromPilotInChartValues (helmChart : Chart)
    : string * error :=
  match json_Marshal (ChartValues helmChart) with
  | Failed err => ("", Some err)
  | Ok mapAsJSON =>
      match json_Unmarshal_chartValues mapAsJSON with
      | Failed err => ("", Some err)
      | Ok chartValues => (Global_Images_IstioPilot_Version chartValues, None)
      end
  end.

Definition getTargetVersionFromIstioChart (workspace : Factory)
    (branch : string) (istioChart : string) : outcome (string * error) :=
  match Factory_Get workspace branch with
  | Failed err => Returns ("", Some err)
  | Ok resourceDir =>
      match loader_Load (filepath_Join resourceDir istioChart) with
      | Failed err => Returns ("", Some err)
      | Ok istioHelmChart =>
          match getTargetVersionFromPilotInChartValues istioHelmChart with
          | (_, Some err) => Returns ("", Some err)
          | (pilotVersion, None) =>
              if negb (String.eqb pilotVersion "") then
                Returns (pilotVersion, None)
              else
                outcome_bind
                  (getTargetVersionFromAppVersionInChartDefinition
                     istioHelmChart)
                  (fun appVersion =>
                if negb (String.eqb appVersion "") then
                  Returns (appVersion, None)
                else
                  Returns ("",
                           Some (New "Target Istio version could not be found neither in Chart.yaml nor in helm values")))
          end
      end
  end.

(** ** Collaborators acting on the cluster *)

(** [istioctl.Commander], bound to one version. *)
Record Commander : Type := {
  Commander_Install : string -> string -> cluster -> error * cluster;
  Commander_Upgrade : string -> string -> cluster -> error * cluster;
  Commander_Uninstall : string -> cluster -> error * cluster;
  Commander_Version : string -> cluster -> result (list byte) * cluster
}.

(** [CommanderResolver]. *)
Record CommanderResolver : Type := {
  GetCommander : istioctl_Version -> result Commander
}.

(** [metav1.DeleteOptions], reduced to the propagation policy. *)
Record DeleteOptions : Type := { PropagationPolicy : option string }.

Definition DeletePropagationForeground : string := "Foreground".

(** [clientgo.Interface], reduced to the three calls made through it:
    [AdmissionregistrationV1().MutatingWebhookConfigurations().Get] and
    [.Update] (whose returned object the code drops) and
    [CoreV1().Namespaces().Delete]. *)
Record Clientset : Type := {
  MutatingWebhookConfigurations_Get :
    string -> cluster -> result (option MutatingWebhookConfiguration) * cluster;
  MutatingWebhookConfigurations_Update :
    MutatingWebhookConfiguration -> cluster -> error * cluster;
  Namespaces_Delete : string -> DeleteOptions -> cluster -> error * cluster
}.

(** [kubernetes.Client]: [Kubeconfig()] and [Clientset()]. *)
Record KubernetesClient : Type := {
  Kubeconfig : string;
  GetClientset : result Clientset
}.

(** [istioConfig.IstioProxyConfig]; [Context] and [Log] are handed through
    and left out.  Durations are nanoseconds, as [time.Duration] is. *)
Record IstioProxyConfig : Type := {
  ImagePrefix : string;
  ImageVersion : string;
  RetriesCount : Z;
  DelayBetweenRetries : Z;
  Timeout : Z;
  Interval : Z;
  Kubeclient : Clientset;
  Debug : bool
}.

(** [proxy.IstioProxyReset] and [clientset.Provider]. *)
Record IstioProxyReset : Type := {
  Run : IstioProxyConfig -> cluster -> error * cluster
}.

Record Provider : Type := { RetrieveFrom : string -> result Clientset }.

Record DefaultIstioPerformer : Type := {
  resolver : CommanderResolver;
  istioProxyReset : IstioProxyReset;
  provider : Provider
}.

(** ** Calls, worlds and the monad of the operations *)

(** The calls that act on the cluster, with their arguments. *)
Inductive call : Type :=
| Call_Install (istioOperatorManifest kubeConfig : string)
| Call_Upgrade (istioOperatorManifest kubeConfig : string)
| Call_Uninstall (kubeConfig : string)
| Call_Version (kubeConfig : string)
| Call_Namespaces_Delete (name : string) (opts : DeleteOptions)
| Call_Webhook_Get (name : string)
| Call_Webhook_Update (whConf : MutatingWebhookConfiguration)
| Call_ProxyReset_Run (cfg : IstioProxyConfig).

Record world : Type := {
  state : cluster;
  calls : list call
}.

Definition M (A : Type) : Type := world -> outcome A * world.

Definition ret {A} (a : A) : M A := fun w => (Returns a, w).

Definition bind {A B} (m : M A) (k : A -> M B) : M B :=
  fun w =>
    match m w with
    | (Returns a, w') => k a w'
    | (Panics p, w') => (Panics p, w')
    end.

Definition lift {A} (o : outcome A) : M A := fun w => (o, w).

(** A call [c] of a collaborator [f]: it acts on the cluster and is
    recorded. *)
Definition invoke {A} (c : call) (f : cluster -> A * cluster) : M A :=
  fun w =>
    let '(a, s) := f (state w) in
    (Returns a, {| state := s; calls := calls w ++ [c] |}).

#[local] Notation "x <- m ;; k" := (bind m (fun x => k))
  (at level 60, m at next level, right associativity).

(** ** Constants of the package *)

Definition istioImagePrefix : string := "istio/proxyv2".
Definition retriesCount : Z := 5.
Definition time_Second : Z := 1000000000.
Definition time_Minute : Z := 60 * time_Second.
Definition delayBetweenRetries : Z := 5 * time_Second.
Definition timeout : Z := 5 * time_Minute.
Definition interval : Z := 12 * time_Second.

(** ** Uninstall and Install *)

Definition Uninstall (c : DefaultIstioPerformer)
    (kubeClientSet : KubernetesClient) (version : string) : M error :=
  match VersionFromString version with
  | Failed err => ret (errors_Wrap (Some err) "Error parsing version")
  | Ok execVersion =>
  match GetCommander (resolver c) execVersion with
  | Failed err => ret (Some err)
  | Ok commander =>
      err <- invoke (Call_Uninstall (Kubeconfig kubeClientSet))
               (Commander_Uninstall commander (Kubeconfig kubeClientSet)) ;;
      match err with
      | Some _ => ret (errors_Wrap err "Error occurred when calling istioctl")
      | None =>
      match GetClientset kubeClientSet with
      | Failed err => ret (Some err)
      | Ok kubeClient =>
          let policy := DeletePropagationForeground in
          let opts := {| PropagationPolicy := Some policy |} in
          err <- invoke (Call_Namespaces_Delete "istio-system" opts)
                   (Namespaces_Delete kubeClient "istio-system" opts) ;;
          match err with
          | Some _ => ret err
          | None => ret None
          end
      end
      end
  end
  end.

Definition Install (c : DefaultIstioPerformer)
    (kubeConfig istioChart version : string) : M error :=
  match VersionFromString version with
  | Failed err => ret (errors_Wrap (Some err) "Error parsing version")
  | Ok execVersion =>
  match ExtractIstioOperatorContextFrom istioChart with
  | Failed err => ret (Some err)
  | Ok istioOperatorManifest =>
  match GetCommander (resolver c) execVersion with
  | Failed err => ret (Some err)
  | Ok commander =>
      err <- invoke (Call_Install istioOperatorManifest kubeConfig)
               (Commander_Install commander istioOperatorManifest kubeConfig) ;;
      match err with
      | Some _ => ret (errors_Wrap err "Error occurred when calling istioctl")
      | None => ret None
      end
  end
  end
  end.

Definition Update (c : DefaultIstioPerformer)
    (kubeConfig istioChart targetVersion : string) : M error :=
  match VersionFromString targetVersion with
  | Failed err => ret (errors_Wrap (Some err) "Error parsing version")
  | Ok version =>
  match ExtractIstioOperatorContextFrom istioChart with
  | Failed err => ret (Some err)
  | Ok istioOperatorManifest =>
  match GetCommander (resolver c) version with
  | Failed err => ret (Some err)
  | Ok commander =>
      err <- invoke (Call_Upgrade istioOperatorManifest kubeConfig)
               (Commander_Upgrade commander istioOperatorManifest kubeConfig) ;;
      match err with
      | Some _ => ret (errors_Wrap err "Error occurred when calling istioctl")
      | None => ret None
      end
  end
  end
  end.

(** ** The webhook patch *)

(** The loop of [selectWebhookConfFormCandidates]; [err] is the named result,
    which keeps the error of the last [Get]. *)
Fixpoint selectLoop (candidatesNames : list string) (clientSet : Clientset)
    (err : error) : M (option MutatingWebhookConfiguration * error) :=
  match candidatesNames with
  | [] =>
      ret (None,
           errors_Wrap err
             "MutatingWebhookConfigurations could not be selected from candidates")
  | webhookName :: rest =>
      r <- invoke (Call_Webhook_Get webhookName)
             (MutatingWebhookConfigurations_Get clientSet webhookName) ;;
      match r with
      | Failed e => selectLoop rest clientSet (Some e)
      | Ok wh => ret (wh, None)
      end
  end.

Definition selectWebhookConfFormCandidates (candidatesNames : list string)
    (clientSet : Clientset) : M (option MutatingWebhookConfiguration * error) :=
  selectLoop candidatesNames clientSet None.

Definition primary : string := "istio-revision-tag-default".
Definition secondary : string := "istio-sidecar-injector".
Definition candidatesNames : list string := [primary; secondary].
Definition webhookNameToChange : string := "auto.sidecar-injector.istio.io".

Definition requiredLabelSelector : LabelSelectorRequirement :=
  {| Key := "gardener.cloud/purpose";
     Operator := "NotIn";
     Values := Some ["kube-system"] |}.

(** The function literal handed to [retry.RetryOnConflict]: one
    selection, mutation and write. *)
Definition patchAttempt (clientSet : Clientset) : M error :=
  r <- selectWebhookConfFormCandidates candidatesNames clientSet ;;
  let '(whConf, err) := r in
  match err with
  | Some _ => ret err
  | None =>
      whConf <- lift (deref whConf) ;;
      r <- lift (addNamespaceSelectorIfNotPresent whConf webhookNameToChange
                   requiredLabelSelector) ;;
      let '(whConf, err) := r in
      match err with
      | Some _ => ret err
      | None =>
          invoke (Call_Webhook_Update whConf)
            (MutatingWebhookConfigurations_Update clientSet whConf)
      end
  end.

(** Modelled from the spec: [retry.RetryOnConflict] of
    k8s.io/client-go/util/retry is not part of the sources.  The cycle [fn]
    is run again after every conflict, up to a bounded number [steps] of
    attempts; when they are used up the last conflict is the result; any
    other error, and success, end the loop at once.  [lastErr] is the
    conflict of the attempt before; the waiting between attempts is left
    out. *)
Fixpoint retryLoop (steps : nat) (lastErr : error) (fn : M error) : M error :=
  match steps with
  | O => ret lastErr
  | S steps' =>
      err <- fn ;;
      match err with
      | None => ret None
      | Some f =>
          if IsConflict f then retryLoop steps' err fn else ret err
      end
  end.

Definition RetryOnConflict (steps : nat) (fn : M error) : M error :=
  retryLoop steps None fn.

Definition PatchMutatingWebhook (kubeClient : KubernetesClient) : M error :=
  match GetClientset kubeClient with
  | Failed err => ret (Some err)
  | Ok clientSet =>
      err <- RetryOnConflict DefaultRetry_Steps (patchAttempt clientSet) ;;
      match err with
      | Some _ => ret err
      | None => ret None
      end
  end.

(** ** ResetProxy *)

Definition ResetProxy (c : DefaultIstioPerformer)
    (kubeConfig proxyImageVersion : string) : M error :=
  match RetrieveFrom (provider c) kubeConfig with
  | Failed err => ret (Some err)
  | Ok kubeClient =>
      let cfg :=
        {| ImagePrefix := istioImagePrefix;
           ImageVersion := proxyImageVersion +:+ "-distroless";
           RetriesCount := retriesCount;
           DelayBetweenRetries := delayBetweenRetries;
           Timeout := timeout;
           Interval := interval;
           Kubeclient := kubeClient;
           Debug := false |} in
      err <- invoke (Call_ProxyReset_Run cfg) (Run (istioProxyReset c) cfg) ;;
      match err with
      | Some _ => ret (errors_Wrap err "Istio proxy reset error")
      | None => ret None
      end
  end.

(** ** Version *)

Definition Version (c : DefaultIstioPerformer) (workspace : Factory)
    (branchVersion istioChart kubeConfig : string) : M (IstioStatus * error) :=
  r <- lift (getTargetVersionFromIstioChart workspace branchVersion
               istioChart) ;;
  let '(targetVersion, err) := r in
  match err with
  | Some _ =>
      ret (IstioStatus_zero, errors_Wrap err "Target Version could not be found")
  | None =>
  match VersionFromString targetVersion with
  | Failed err =>
      ret (IstioStatus_zero, errors_Wrap (Some err) "Error parsing version")
  | Ok version =>
  match GetCommander (resolver c) version with
  | Failed err => ret (IstioStatus_zero, Some err)
  | Ok commander =>
      r <- invoke (Call_Version kubeConfig)
             (Commander_Version commander kubeConfig) ;;
      match r with
      | Failed err => ret (IstioStatus_zero, Some err)
      | Ok versionOutput =>
          lift (mapVersionToStruct versionOutput targetVersion)
      end
  end
  end
  end.

End Model.

Notation "x <- m ;; k" := (bind m (fun x => k))
  (at level 60, m at next level, right associativity).

(** ** Vocabulary of the statements *)

(** The entry the mutation step leaves at the place of the entry [wh] whose
    selector is [sel]. *)
Definition patched_entry (wh : MutatingWebhook) (sel : LabelSelector)
    (req : LabelSelectorRequirement) : MutatingWebhook :=
  {| Name := Name wh;
     NamespaceSelector :=
       Some {| MatchLabels := MatchLabels sel;
               MatchExpressions :=
                 if hasRequiredLabel (MatchExpressions sel) req
                 then MatchExpressions sel
                 else MatchExpressions sel ++ [req] |};
     ObjectSelector := ObjectSelector wh;
     AdmissionReviewVersions := AdmissionReviewVersions wh;
     TimeoutSeconds := TimeoutSeconds wh |}.

(** The error of the mutation step when no entry carries the name. *)
Definition webhook_not_found (name : string)
    (whConf : MutatingWebhookConfiguration) : failure :=
  New ("could not find webhook " +:+ name +:+ " in WebhookConfiguration "
       +:+ ObjectName (Meta whConf)).

(** The message [selectWebhookConfFormCandidates] wraps the last failure
    in. *)
Definition not_selected : string :=
  "MutatingWebhookConfigurations could not be selected from candidates".

Section Vocabulary.
Context {U : Universe} {P : Packages}.

(** [fetches_fail clientSet names s errs s']: fetching [names] one after the
    other, from the cluster state [s], fails every time, with the failures
    [errs] in this order, and leaves the cluster in [s']. *)
Inductive fetches_fail (clientSet : Clientset)
    : list string -> cluster -> list failure -> cluster -> Prop :=
| fetches_fail_nil (s : cluster) : fetches_fail clientSet [] s [] s
| fetches_fail_cons (name : string) (names : list string) (s s1 s2 : cluster)
    (e : failure) (errs : list failure) :
    MutatingWebhookConfigurations_Get clientSet name s = (Failed e, s1) ->
    fetches_fail clientSet names s1 errs s2 ->
    fetches_fail clientSet (name :: names) s (e :: errs) s2.

(** [conflicts fn k w w']: [k] runs of [fn] in a row, from the world [w],
    each returned a conflict, and left the world [w']. *)
Inductive conflicts (fn : M error) : nat -> world -> world -> Prop :=
| conflicts_O (w : world) : conflicts fn O w w
| conflicts_S (k : nat) (w w1 w2 : world) (f : failure) :
    fn w = (Returns (Some f), w1) ->
    IsConflict f = true ->
    conflicts fn k w1 w2 ->
    conflicts fn (S k) w w2.

(** [selects clientSet s gets c s']: from the cluster state [s] the fetches
    of the candidates go down the list, [gets] are the names fetched, all of
    them fail but the last, and that one delivers the configuration [c] and
    leaves the cluster in [s']. *)
Definition selects (clientSet : Clientset) (s : cluster)
    (gets : list string) (c : MutatingWebhookConfiguration) (s' : cluster)
    : Prop :=
  exists (pre : list string) (name : string) (post : list string)
         (errs : list failure) (s1 : cluster),
    candidatesNames = pre ++ name :: post
    /\ gets = pre ++ [name]
    /\ fetches_fail clientSet pre s errs s1
    /\ MutatingWebhookConfigurations_Get clientSet name s1 = (Ok (Some c), s').

(** The configuration [ResetProxy] hands over for a tag and a client. *)
Definition expected_proxy_config (proxyImageVersion : string)
    (kubeClient : Clientset) : IstioProxyConfig :=
  {| ImagePrefix := "istio/proxyv2";
     ImageVersion := proxyImageVersion +:+ "-distroless";
     RetriesCount := 5;
     DelayBetweenRetries := 5000000000;
     Timeout := 300000000000;
     Interval := 12000000000;
     Kubeclient := kubeClient;
     Debug := false |}.

(** The options [Uninstall] deletes the namespace with. *)
Definition foreground_deletion : DeleteOptions :=
  {| PropagationPolicy := Some "Foreground" |}.

End Vocabulary.

(** ** An in-memory cluster

    A cluster that stores webhook configurations and namespaces, rejects the
    next [mem_conflicts] updates with a conflict, and remembers the manifest
    installed last.  It serves as the concrete instance in the examples. *)

Record memCluster : Type := {
  mem_webhooks : list MutatingWebhookConfiguration;
  mem_namespaces : list string;
  mem_conflicts : nat;
  mem_installed : option string
}.

Definition demoUniverse : Universe :=
  {| cluster := memCluster; istioctl_Version := string; HelmValues := string |}.

Section Demo.
Existing Instance demoUniverse.

Fixpoint mem_find (name : string) (l : list MutatingWebhookConfiguration)
    : option MutatingWebhookConfiguration :=
  match l with
  | [] => None
  | c :: l' =>
      if String.eqb (ObjectName (Meta c)) name then Some c
      else mem_find name l'
  end.

Fixpoint mem_replace (c : MutatingWebhookConfiguration)
    (l : list MutatingWebhookConfiguration)
    : list MutatingWebhookConfiguration :=
  match l with
  | [] => []
  | d :: l' =>
      if String.eqb (ObjectName (Meta d)) (ObjectName (Meta c)) then c :: l'
      else d :: mem_replace c l'
  end.

Definition mem_Get (name : string) (s : memCluster)
    : result (option MutatingWebhookConfiguration) * memCluster :=
  match mem_find name (mem_webhooks s) with
  | Some c => (Ok (Some c), s)
  | None => (Failed (APIStatus "NotFound" name), s)
  end.

Definition mem_Update (c : MutatingWebhookConfiguration) (s : memCluster)
    : error * memCluster :=
  match mem_conflicts s with
  | S n =>
      (Some (APIStatus "Conflict" (ObjectName (Meta c))),
       {| mem_webhooks := mem_webhooks s;
          mem_namespaces := mem_namespaces s;
          mem_conflicts := n;
          mem_installed := mem_installed s |})
  | O =>
      (None,
       {| mem_webhooks := mem_replace c (mem_webhooks s);
          mem_namespaces := mem_namespaces s;
          mem_conflicts := O;
          mem_installed := mem_installed s |})
  end.

Definition mem_Delete (name : string) (opts : @DeleteOptions)
    (s : memCluster) : error * memCluster :=
  if existsb (String.eqb name) (mem_namespaces s) then
    (None,
     {| mem_webhooks := mem_webhooks s;
        mem_namespaces :=
          List.filter (fun n => negb (String.eqb name n)) (mem_namespaces s);
        mem_conflicts := mem_conflicts s;
        mem_installed := mem_installed s |})
  else (Some (APIStatus "NotFound" name), s).

Definition mem_set_installed (m : option string) (s : memCluster)
    : memCluster :=
  {| mem_webhooks := mem_webhooks s;
     mem_namespaces := mem_namespaces s;
     mem_conflicts := mem_conflicts s;
     mem_installed := m |}.

Definition demoClientset : @Clientset demoUniverse :=
  @Build_Clientset demoUniverse mem_Get mem_Update mem_Delete.

Definition demoCommander : @Commander demoUniverse :=
  @Build_Commander demoUniverse
    (fun manifest _ s => (None, mem_set_installed (Some manifest) s))
    (fun manifest _ s => (None, mem_set_installed (Some manifest) s))
    (fun _ s => (None, mem_set_installed None s))
    (fun _ s => (Ok (list_byte_of_string "{}"), s)).

Definition demoResolver : @CommanderResolver demoUniverse :=
  @Build_CommanderResolver demoUniverse
    (fun v => if String.eqb v "1.11.4" then Ok demoCommander
              else Failed (New ("unsupported version " +:+ v))).

Definition demoPackages : @Packages demoUniverse :=
  {| VersionFromString := fun v =>
       if String.eqb v "" then Failed (New "empty version") else Ok v;
     ExtractIstioOperatorContextFrom := fun chart =>
       if String.eqb chart "" then Failed (New "no chart")
       else Ok ("operator of " +:+ chart);
     filepath_Join := fun dir file => dir +:+ "/" +:+ file;
     loader_Load := fun path =>
       if String.eqb path "resources/istio" then
         Ok {| Metadata := Some {| AppVersion := "9.9.9" |};
               ChartValues := "1.2.3" |}
       else if String.eqb path "resources/istio-plain" then
         Ok {| Metadata := Some {| AppVersion := "1.0.0" |};
               ChartValues := "" |}
       else if String.eqb path "resources/istio-bare" then
         Ok {| Metadata := Some {| AppVersion := "" |}; ChartValues := "" |}
       else Failed (New "no such chart");
     json_Marshal := fun v => Ok (list_byte_of_string v);
     json_Unmarshal_chartValues := fun bs =>
       Ok {| Global_Images_IstioPilot_Version := string_of_list_byte bs |};
     json_Unmarshal_IstioVersionOutput := fun bs =>
       match bs with
       | [x7b; x7d] =>
           Ok {| Output_ClientVersion := None;
                 Output_MeshVersion := [];
                 Output_DataPlaneVersion := [] |}
       | _ => Failed (New "invalid character")
       end;
     IsConflict := fun f =>
       match f with
       | APIStatus reason _ => String.eqb reason "Conflict"
       | _ => false
       end;
     DefaultRetry_Steps := 5 |}.

Definition demoFactory : @Factory :=
  {| Factory_Get := fun branch =>
       if String.eqb branch "main" then Ok "resources"
       else Failed (New "no such branch") |}.

Definition demoKubeClient : @KubernetesClient demoUniverse :=
  {| Kubeconfig := "kubeconfig"; GetClientset := Ok demoClientset |}.

Definition demoPerformer : @DefaultIstioPerformer demoUniverse :=
  {| resolver := demoResolver;
     istioProxyReset := {| Run := fun _ s => (None, s) |};
     provider := {| RetrieveFrom := fun kubeConfig =>
                      if String.eqb kubeConfig "" then
                        Failed (New "no kubeconfig")
                      else Ok demoClientset |} |}.

(** A sidecar-injector configuration whose target entry has an empty
    namespace selector, and a second entry of the same name after it. *)
Definition demoEntry (name : string) (mes : list LabelSelectorRequirement)
    : MutatingWebhook :=
  {| Name := name;
     NamespaceSelector := Some {| MatchLabels := ∅; MatchExpressions := mes |};
     ObjectSelector := None;
     AdmissionReviewVersions := ["v1"];
     TimeoutSeconds := Some 10 |}.

Definition demoConf : MutatingWebhookConfiguration :=
  {| Meta := {| ObjectName := secondary; ResourceVersion := "1"; Labels := ∅ |};
     Webhooks := [ demoEntry "namespace.sidecar-injector.istio.io" [];
                   demoEntry webhookNameToChange [];
                   demoEntry webhookNameToChange [] ] |}.

Definition demoCluster (conflicts : nat) : memCluster :=
  {| mem_webhooks := [demoConf];
     mem_namespaces := ["istio-system"];
     mem_conflicts := conflicts;
     mem_installed := Some "operator" |}.

(** A world of the in-memory cluster. *)
Definition memWorld (s : memCluster) (cs : list (@call demoUniverse))
    : @world demoUniverse :=
  @Build_world demoUniverse s cs.

Definition demoWorld (conflicts : nat) : @world demoUniverse :=
  memWorld (demoCluster conflicts) [].

(** [demoConf] after the patch. *)
Definition demoConfPatched : MutatingWebhookConfiguration :=
  {| Meta := Meta demoConf;
     Webhooks := [ demoEntry "namespace.sidecar-injector.istio.io" [];
                   demoEntry webhookNameToChange [requiredLabelSelector];
                   demoEntry webhookNameToChange [] ] |}.

Definition demoClusterPatched : memCluster :=
  {| mem_webhooks := [demoConfPatched];
     mem_namespaces := ["istio-system"];
     mem_conflicts := O;
     mem_installed := Some "operator" |}.

(** A cluster without the namespace of the mesh. *)
Definition demoClusterBare : memCluster :=
  {| mem_webhooks := [demoConf];
     mem_namespaces := [];
     mem_conflicts := O;
     mem_installed := Some "operator" |}.

End Demo.

(** * The audit log middleware

    [cmd/mothership/mothership/start/auditlog.go]: the middleware that
    writes one audit record per request.  The response writer and the logger
    are the two lists of an [httpWorld]; the clock and the source of
    identifiers are its [environment]. *)

Definition XJWTHeaderName : string := "X-Jwt".

Definition StatusBadRequest : Z := 400.
Definition StatusInternalServerError : Z := 500.

(** The text of an error, [err.Error()]: a wrapped error prints its message,
    a colon and the text of its cause. *)
Fixpoint Error (f : failure) : string :=
  match f with
  | New msg => msg
  | Wrapped cause msg => msg +:+ ": " +:+ Error cause
  | APIStatus _ msg => msg
  end.

(** [data], the record that is logged. *)
Record data : Type := {
  ContractVersion : Z;
  Method : string;
  URI : string;
  RequestBody : string;
  User : string;
  JWTPayload : string
}.

Record jwtSub : Type := { Sub : string }.

(** What the logger receives: the four fields added with [With] and the
    message of [Info]. *)
Record logEntry : Type := {
  log_time : string;
  log_uuid : string;
  log_user : string;
  log_data : string;
  log_message : string
}.

Class HttpUniverse : Type := {
  (** the body of a request, an [io.ReadCloser] *)
  reader : Type;
  (** the clock and the source of identifiers *)
  env : Type
}.

Section HttpModel.
Context `{H : HttpUniverse}.

(** [http.Request], reduced to what the middleware reads; [Req_Vars] stands
    for what [server.NewParams] finds in the request.  The header is keyed by
    canonical names, which "X-Jwt" is. *)
Record Request : Type := {
  Req_Method : string;
  Req_RequestURI : string;
  Req_Header : gmap string (list string);
  Req_Vars : gmap string string;
  Req_Body : reader
}.

Record httpWorld : Type := {
  responses : list (Z * string);
  entries : list logEntry;
  environment : env
}.

Class HttpPackages : Type := {
  (** the constant [paramContractVersion] of the package, declared in
      another file *)
  paramContractVersion : string;
  (** [server.NewParams(r).Int64] *)
  Params_Int64 : Request -> string -> result Z;
  (** [base64.RawURLEncoding.DecodeString]: the bytes decoded and the error *)
  base64_RawURLEncoding_DecodeString : string -> list byte * error;
  (** [json.Unmarshal] into a fresh [jwtSub]: the value left and the error *)
  json_Unmarshal_jwtSub : list byte -> jwtSub * error;
  (** [ioutil.ReadAll] of a body, with the body as the read leaves it, and
      [ioutil.NopCloser(bytes.NewBuffer(b))] *)
  ioutil_ReadAll : reader -> (list byte * error) * reader;
  NopCloser_NewBuffer : list byte -> reader;
  (** [json.Marshal] of a [data] *)
  json_Marshal_data : data -> result (list byte);
  (** [time.Now().Format(time.RFC3339)] and [uuid.New().String()] *)
  time_Now_RFC3339 : env -> string * env;
  uuid_New : env -> string * env
}.
Context `{HP : HttpPackages}.

(** [http.Header.Get]: the first value under the key, or "". *)
Definition Header_Get (h : gmap string (list string)) (key : string)
    : string :=
  match h !! key with
  | Some (v :: _) => v
  | _ => ""
  end.

Definition getJWTPayload (r : Request) : string * error :=
  let jwtHeader := Header_Get (Req_Header r) XJWTHeaderName in
  if (String.length jwtHeader =? 0)%nat then ("", None)
  else
    let '(decodedSeg, err) := base64_RawURLEncoding_DecodeString jwtHeader in
    (string_of_list_byte decodedSeg, err).

Definition getJWTPayloadSub (payload : string) : string * error :=
  if String.eqb payload "" then ("", None)
  else
    let '(s, err) := json_Unmarshal_jwtSub (list_byte_of_string payload) in
    (Sub s, err).

(** [server.SendHTTPError(w, status, &keb.HTTPErrorResponse{Error: msg})]. *)
Definition SendHTTPError (status : Z) (msg : string) (w : httpWorld)
    : httpWorld :=
  {| responses := responses w ++ [(status, msg)];
     entries := entries w;
     environment := environment w |}.

Definition set_Body (r : Request) (b : reader) : Request :=
  {| Req_Method := Req_Method r;
     Req_RequestURI := Req_RequestURI r;
     Req_Header := Req_Header r;
     Req_Vars := Req_Vars r;
     Req_Body := b |}.

Definition set_JWTPayload (d : data) (p : string) : data :=
  {| ContractVersion := ContractVersion d; Method := Method d; URI := URI d;
     RequestBody := RequestBody d; User := User d; JWTPayload := p |}.

Definition set_User (d : data) (u : string) : data :=
  {| ContractVersion := ContractVersion d; Method := Method d; URI := URI d;
     RequestBody := RequestBody d; User := u; JWTPayload := JWTPayload d |}.

Definition set_RequestBody (d : data) (b : string) : data :=
  {| ContractVersion := ContractVersion d; Method := Method d; URI := URI d;
     RequestBody := b; User := User d; JWTPayload := JWTPayload d |}.

(** The end of [auditLogRequest], from [json.Marshal] on: the record is
    marshalled and logged with the time, a fresh identifier and the user. *)
Definition writeAuditLog (logData : data) (w : httpWorld) : httpWorld :=
  match json_Marshal_data logData with
  | Failed err =>
      SendHTTPError StatusInternalServerError
        (Error (Wrapped err "Failed to marshal auditlog JSON payload")) w
  | Ok data =>
      let '(now, e1) := time_Now_RFC3339 (environment w) in
      let '(id, e2) := uuid_New e1 in
      {| responses := responses w;
         entries := entries w
                    ++ [{| log_time := now;
                           log_uuid := id;
                           log_user := User logData;
                           log_data := string_of_list_byte data;
                           log_message := "" |}];
         environment := e2 |}
  end.

(** [auditLogRequest]: the request as the call leaves it (its body may have
    been read and replaced) and the world after it. *)
Definition auditLogRequest (r : Request) (w : httpWorld)
    : Request * httpWorld :=
  match Params_Int64 r paramContractVersion with
  | Failed err =>
      (r, SendHTTPError StatusBadRequest
            (Error (Wrapped err "Contract version undefined")) w)
  | Ok contractV =>
      let logData :=
        {| ContractVersion := contractV;
           Method := Req_Method r;
           URI := Req_RequestURI r;
           RequestBody := "";
           User := "UNKOWEN_USER";
           JWTPayload := "" |} in
      match getJWTPayload r with
      | (_, Some err) =>
          (r, SendHTTPError StatusInternalServerError
                (Error (Wrapped err
                          ("Failed to parse " +:+ XJWTHeaderName
                           +:+ " header content "))) w)
      | (jwtPayload, None) =>
          let logData := set_JWTPayload logData jwtPayload in
          match getJWTPayloadSub (JWTPayload logData) with
          | (_, Some err) =>
              (r, SendHTTPError StatusInternalServerError
                    (Error (Wrapped err "failed to Unmarshal JWT payload")) w)
          | (user, None) =>
              let logData :=
                if negb (String.eqb user "") then set_User logData user
                else logData in
              if String.eqb (Req_Method r) "POST"
                 || String.eqb (Req_Method r) "PUT"
              then
                let '((reqBody, err), body) := ioutil_ReadAll (Req_Body r) in
                match err with
                | Some err =>
                    (set_Body r body,
                     SendHTTPError StatusInternalServerError
                       (Error (Wrapped err
                                 "Failed to read received JSON payload")) w)
                | None =>
                    let r := set_Body r (NopCloser_NewBuffer reqBody) in
                    let logData :=
                      set_RequestBody logData (string_of_list_byte reqBody) in
                    (r, writeAuditLog logData w)
                end
              else (r, writeAuditLog logData w)
          end
      end
  end.

(** [http.Handler]: [ServeHTTP(w, r)] as a function of the request and the
    world. *)
Definition Handler : Type := Request -> httpWorld -> httpWorld.

(** [NewAuditLoggerMiddelware(l)(next)]. *)
Definition NewAuditLoggerMiddelware (next : Handler) : Handler :=
  fun r w =>
    let '(r, w) := auditLogRequest r w in
    next r w.

End HttpModel.

(** * The mutation step on the heap

    [addNamespaceSelectorIfNotPresent] writes through the pointer
    [NamespaceSelector] and appends to the slice [MatchExpressions].  Above,
    selectors and slices are values, which is what they are when no selector
    and no backing array is shared.  Here they live on a heap: a webhook holds
    the addresses of its selectors, a slice is a window on a backing array,
    and [append] writes into the array when the window has spare capacity. *)

Module Heap.

(** A slice: the cells [off] to [off + slen] of the array [base], of which
    [scap] cells from [off] on may be used. *)
Record sliceHeader : Type := {
  base : nat;
  off : nat;
  slen : nat;
  scap : nat
}.

(** [metav1.LabelSelector] on the heap; [None] is the nil slice. *)
Record LabelSelector : Type := {
  MatchLabels : gmap string string;
  MatchExpressions : option sliceHeader
}.

(** [v1.MutatingWebhook] with the addresses of its selectors. *)
Record MutatingWebhook : Type := {
  Name : string;
  NamespaceSelector : option nat;
  ObjectSelector : option nat;
  AdmissionReviewVersions : list string;
  TimeoutSeconds : option Z
}.

Record MutatingWebhookConfiguration : Type := {
  Meta : ObjectMeta;
  Webhooks : list MutatingWebhook
}.

(** The selectors by address, the backing arrays by their number, and the
    number of the array allocated next. *)
Record heap : Type := {
  selectors : nat -> LabelSelector;
  arrays : nat -> list LabelSelectorRequirement;
  next : nat
}.

(** The store [f] with [v] at [p]. *)
Definition update {A : Type} (f : nat -> A) (p : nat) (v : A) : nat -> A :=
  fun q => if Nat.eqb q p then v else f q.

(** The elements of a slice. *)
Definition elements (h : heap) (s : option sliceHeader)
    : list LabelSelectorRequirement :=
  match s with
  | None => []
  | Some hd => take (slen hd) (drop (off hd) (arrays h (base hd)))
  end.

(** The zero value of [metav1.LabelSelectorRequirement]. *)
Definition zero : LabelSelectorRequirement :=
  {| Key := ""; Operator := ""; Values := None |}.

Section Append.

(** The capacity the runtime picks when a slice of a given capacity has to
    grow to a given length. *)
Variable growslice : nat -> nat -> nat.

(** [append] without spare capacity: the elements move to a new array. *)
Definition grow (h : heap) (oldcap : nat)
    (old : list LabelSelectorRequirement) (x : LabelSelectorRequirement)
    : option sliceHeader * heap :=
  let n := S (length old) in
  let c := Nat.max n (growslice oldcap n) in
  (Some {| base := next h; off := 0; slen := n; scap := c |},
   {| selectors := selectors h;
      arrays :=
        update (arrays h) (next h) (old ++ [x] ++ replicate (c - n) zero);
      next := S (next h) |}).

(** [append(s, x)]: in place when [len(s) < cap(s)], else into a new
    array. *)
Definition append (h : heap) (s : option sliceHeader)
    (x : LabelSelectorRequirement) : option sliceHeader * heap :=
  match s with
  | Some hd =>
      if (slen hd <? scap hd)%nat then
        (Some {| base := base hd; off := off hd;
                 slen := S (slen hd); scap := scap hd |},
         {| selectors := selectors h;
            arrays :=
              update (arrays h) (base hd)
                (<[(off hd + slen hd)%nat := x]> (arrays h (base hd)));
            next := next h |})
      else grow h (scap hd) (elements h s) x
  | None => grow h 0 [] x
  end.

(** The assignment [p.MatchExpressions = s]. *)
Definition set_MatchExpressions (h : heap) (p : nat)
    (s : option sliceHeader) : heap :=
  {| selectors :=
       update (selectors h) p
         {| MatchLabels := MatchLabels (selectors h p);
            MatchExpressions := s |};
     arrays := arrays h;
     next := next h |}.

(** The body run for the entry [wh] whose name matched. *)
Definition patchWebhookAt (h : heap) (wh : MutatingWebhook)
    (requiredLabelSelector : LabelSelectorRequirement)
    : outcome (heap * error) :=
  match NamespaceSelector wh with
  | None => Panics NilDereference
  | Some p =>
      let matchExpressions := MatchExpressions (selectors h p) in
      if hasRequiredLabel (elements h matchExpressions) requiredLabelSelector
      then Returns (h, None)
      else
        let '(matchExpressions, h) :=
          append h matchExpressions requiredLabelSelector in
        Returns (set_MatchExpressions h p matchExpressions, None)
  end.

(** The loop over the entries; the entries themselves are only read. *)
Fixpoint scanWebhooks (h : heap) (whConf : MutatingWebhookConfiguration)
    (rest : list MutatingWebhook) (webhookNameToChange : string)
    (requiredLabelSelector : LabelSelectorRequirement)
    : outcome (heap * error) :=
  match rest with
  | [] =>
      Returns (h,
               Some (New ("could not find webhook " +:+ webhookNameToChange
                          +:+ " in WebhookConfiguration "
                          +:+ ObjectName (Meta whConf))))
  | wh :: rest' =>
      if String.eqb (Name wh) webhookNameToChange
      then patchWebhookAt h wh requiredLabelSelector
      else scanWebhooks h whConf rest' webhookNameToChange
             requiredLabelSelector
  end.

(** [addNamespaceSelectorIfNotPresent] on the heap: the heap after the call
    and the returned error. *)
Definition addNamespaceSelectorIfNotPresent (h : heap)
    (whConf : MutatingWebhookConfiguration) (webhookNameToChange : string)
    (requiredLabelSelector : LabelSelectorRequirement)
    : outcome (heap * error) :=
  scanWebhooks h whConf (Webhooks whConf) webhookNameToChange
    requiredLabelSelector.

End Append.

End Heap.

(** ** What a heap shows of a configuration *)

Definition view_selector (h : Heap.heap) (p : nat) : LabelSelector :=
  {| MatchLabels := Heap.MatchLabels (Heap.selectors h p);
     MatchExpressions :=
       Heap.elements h (Heap.MatchExpressions (Heap.selectors h p)) |}.

Definition view_webhook (h : Heap.heap) (wh : Heap.MutatingWebhook)
    : MutatingWebhook :=
  {| Name := Heap.Name wh;
     NamespaceSelector := view_selector h <$> Heap.NamespaceSelector wh;
     ObjectSelector := view_selector h <$> Heap.ObjectSelector wh;
     AdmissionReviewVersions := Heap.AdmissionReviewVersions wh;
     TimeoutSeconds := Heap.TimeoutSeconds wh |}.

Definition view (h : Heap.heap) (c : Heap.MutatingWebhookConfiguration)
    : MutatingWebhookConfiguration :=
  {| Meta := Heap.Meta c; Webhooks := view_webhook h <$> Heap.Webhooks c |}.

(** A slice lies within its array. *)
Definition slice_ok (h : Heap.heap) (s : option Heap.sliceHeader) : Prop :=
  match s with
  | None => True
  | Some hd =>
      (Heap.slen hd <= Heap.scap hd)%nat
      /\ (Heap.off hd + Heap.scap hd
          <= length (Heap.arrays h (Heap.base hd)))%nat
  end.

(** The selector at [q] shares nothing with the one at [p] that an append to
    the slice of [p] could touch: it is another selector, its slice is in an
    array allocated already, and, when the slice of [p] has spare capacity,
    the cell after it is not one of the elements of the slice of [q]. *)
Definition unshared (h : Heap.heap) (p q : nat) : Prop :=
  q <> p
  /\ match Heap.MatchExpressions (Heap.selectors h q) with
     | None => True
     | Some hq =>
         (Heap.base hq < Heap.next h)%nat
         /\ match Heap.MatchExpressions (Heap.selectors h p) with
            | None => True
            | Some hp =>
                (Heap.slen hp < Heap.scap hp)%nat ->
                Heap.base hq = Heap.base hp ->
                ~ (Heap.off hq <= Heap.off hp + Heap.slen hp
                   < Heap.off hq + Heap.slen hq)%nat
            end
     end.

(** The addresses of the selectors of a webhook. *)
Definition selector_pointers (wh : Heap.MutatingWebhook) : list nat :=
  option_list (Heap.NamespaceSelector wh)
  ++ option_list (Heap.ObjectSelector wh).

(** The entry [wh], whose namespace selector is at [p], shares nothing with
    its own object selector nor with the selectors of the entries [others]. *)
Definition separated (h : Heap.heap) (p : nat) (wh : Heap.MutatingWebhook)
    (others : list Heap.MutatingWebhook) : Prop :=
  (forall q, Heap.ObjectSelector wh = Some q -> unshared h p q)
  /\ (forall other q,
        other ∈ others -> q ∈ selector_pointers other -> unshared h p q).


(** ** Two heaps for the mutation step *)

Definition ruleA : LabelSelectorRequirement :=
  {| Key := "istio-injection"; Operator := "DoesNotExist"; Values := None |}.

Definition ruleB : LabelSelectorRequirement :=
  {| Key := "kubernetes.io/metadata.name"; Operator := "NotIn";
     Values := Some ["kube-system"] |}.

(** A growth of slices: twice the old capacity. *)
Definition doubling (oldcap n : nat) : nat := (2 * oldcap)%nat.

Definition heapEntry (name : string) (p : nat) : Heap.MutatingWebhook :=
  {| Heap.Name := name;
     Heap.NamespaceSelector := Some p;
     Heap.ObjectSelector := None;
     Heap.AdmissionReviewVersions := ["v1"];
     Heap.TimeoutSeconds := Some 10 |}.

Definition heapSelector (s : option Heap.sliceHeader) : Heap.LabelSelector :=
  {| Heap.MatchLabels := ∅; Heap.MatchExpressions := s |}.

(** One array, [ruleA; ruleB].  The selector 0 holds its first cell with
    room for a second, as [all[:1]] does; the selector 1 holds both cells. *)
Definition sharedHeap : Heap.heap :=
  {| Heap.selectors := fun p =>
       match p with
       | O => heapSelector (Some {| Heap.base := 0; Heap.off := 0;
                                    Heap.slen := 1; Heap.scap := 2 |})
       | S O => heapSelector (Some {| Heap.base := 0; Heap.off := 0;
                                      Heap.slen := 2; Heap.scap := 2 |})
       | _ => heapSelector None
       end;
     Heap.arrays := fun b =>
       match b with
       | O => [ruleA; ruleB]
       | _ => []
       end;
     Heap.next := 1 |}.

(** The target entry with the selector 0, then an entry of another name with
    the selector 1. *)
Definition sharedConf : Heap.MutatingWebhookConfiguration :=
  {| Heap.Meta :=
       {| ObjectName := secondary; ResourceVersion := "1"; Labels := ∅ |};
     Heap.Webhooks :=
       [ heapEntry webhookNameToChange 0;
         heapEntry "namespace.sidecar-injector.istio.io" 1 ] |}.

(** A heap without arrays, all of whose selectors hold the nil slice. *)
Definition emptyHeap : Heap.heap :=
  {| Heap.selectors := fun _ => heapSelector None;
     Heap.arrays := fun _ => [];
     Heap.next := 0 |}.

(** The same array, held by the selector 1 alone; the selectors 0 and 2 hold
    the nil slice. *)
Definition plainHeap : Heap.heap :=
  {| Heap.selectors := fun p =>
       match p with
       | S O => heapSelector (Some {| Heap.base := 0; Heap.off := 0;
                                      Heap.slen := 2; Heap.scap := 2 |})
       | _ => heapSelector None
       end;
     Heap.arrays := fun b =>
       match b with
       | O => [ruleA; ruleB]
       | _ => []
       end;
     Heap.next := 1 |}.

(** An entry of another name, the target entry, and a second entry of the
    target's name. *)
Definition plainConf : Heap.MutatingWebhookConfiguration :=
  {| Heap.Meta :=
       {| ObjectName := secondary; ResourceVersion := "1"; Labels := ∅ |};
     Heap.Webhooks :=
       [ heapEntry "namespace.sidecar-injector.istio.io" 1;
         heapEntry webhookNameToChange 0;
         heapEntry webhookNameToChange 2 ] |}.

(** ** Further vocabulary *)

(** How many of the expressions are deeply equal to [req]. *)
Definition occurrences (req : LabelSelectorRequirement)
    (mes : list LabelSelectorRequirement) : nat :=
  length (List.filter (fun e => DeepEqual e req) mes).

(** The first entry of [c] named [name] has a namespace selector that holds
    [req]. *)
Definition holds_rule (name : string) (req : LabelSelectorRequirement)
    (c : MutatingWebhookConfiguration) : Prop :=
  exists pre wh post sel,
    Webhooks c = pre ++ wh :: post
    /\ (forall w, w ∈ pre -> Name w <> name)
    /\ Name wh = name
    /\ NamespaceSelector wh = Some sel
    /\ req ∈ MatchExpressions sel.

(** The version of the first mesh component and of the first data plane
    entry, "" when the list is empty or a pointer on the way is nil. *)
Definition first_mesh_version (v : IstioVersionOutput) : string :=
  match Output_MeshVersion v with
  | Some mc :: _ =>
      match Info mc with
      | Some info => MeshInfo_Version info
      | None => ""
      end
  | _ => ""
  end.

Definition first_dataPlane_version (v : IstioVersionOutput) : string :=
  match Output_DataPlaneVersion v with
  | Some dp :: _ => IstioVersion dp
  | _ => ""
  end.

(** No pointer that [mapVersionToStruct] follows is nil. *)
Definition pointers_set (v : IstioVersionOutput) : Prop :=
  Output_ClientVersion v <> None
  /\ (forall first rest,
        Output_MeshVersion v = first :: rest ->
        exists mc, first = Some mc /\ Info mc <> None)
  /\ (forall first rest,
        Output_DataPlaneVersion v = first :: rest -> first <> None).

(** ** More of the in-memory cluster, and an in-memory request *)

(** The double quote, and byte sequences compared byte by byte. *)
Definition dq : string := String (ascii_of_byte x22) "".

Fixpoint bytes_eqb (a b : list byte) : bool :=
  match a, b with
  | [], [] => true
  | x :: a', y :: b' => Byte.eqb x y && bytes_eqb a' b'
  | _, _ => false
  end.

(** The output of a version query that reports the client only, and the
    payload of a token for the subject alice. *)
Definition clientOnlyJSON : string :=
  "{" +:+ dq +:+ "clientVersion" +:+ dq +:+ ":{" +:+ dq +:+ "version" +:+ dq
  +:+ ":" +:+ dq +:+ "1.11.0" +:+ dq +:+ "}}".

Definition alicePayload : string :=
  "{" +:+ dq +:+ "sub" +:+ dq +:+ ":" +:+ dq +:+ "alice" +:+ dq +:+ "}".

Section Demo2.
Existing Instance demoUniverse.

(** [demoPackages] with a parser that knows [clientOnlyJSON]. *)
Definition reportPackages : @Packages demoUniverse :=
  {| VersionFromString := @VersionFromString demoUniverse demoPackages;
     ExtractIstioOperatorContextFrom :=
       @ExtractIstioOperatorContextFrom demoUniverse demoPackages;
     filepath_Join := @filepath_Join demoUniverse demoPackages;
     loader_Load := @loader_Load demoUniverse demoPackages;
     json_Marshal := @json_Marshal demoUniverse demoPackages;
     json_Unmarshal_chartValues :=
       @json_Unmarshal_chartValues demoUniverse demoPackages;
     json_Unmarshal_IstioVersionOutput := fun bs =>
       if bytes_eqb bs (list_byte_of_string clientOnlyJSON) then
         Ok {| Output_ClientVersion :=
                 Some {| ClientVersion_Version := "1.11.0" |};
               Output_MeshVersion := [];
               Output_DataPlaneVersion := [] |}
       else Failed (New "invalid character");
     IsConflict := @IsConflict demoUniverse demoPackages;
     DefaultRetry_Steps := 5 |}.

(** The values of a chart that hold a number, not a string, under
    [global.images.istio_pilot.version], as JSON. *)
Definition numericValues : string :=
  "{" +:+ dq +:+ "global" +:+ dq +:+ ":{" +:+ dq +:+ "images" +:+ dq +:+ ":{"
  +:+ dq +:+ "istio_pilot" +:+ dq +:+ ":{" +:+ dq +:+ "version" +:+ dq
  +:+ ":1.11}}}}".

(** [demoPackages] with one more chart, "istio-numeric", whose values are
    [numericValues] and whose [AppVersion] is "1.11.4", and with a decoder
    that refuses these values as [json.Unmarshal] refuses a number for a
    field of type string. *)
Definition strictPackages : @Packages demoUniverse :=
  {| VersionFromString := @VersionFromString demoUniverse demoPackages;
     ExtractIstioOperatorContextFrom :=
       @ExtractIstioOperatorContextFrom demoUniverse demoPackages;
     filepath_Join := @filepath_Join demoUniverse demoPackages;
     loader_Load := fun path =>
       if String.eqb path "resources/istio-numeric" then
         Ok {| Metadata := Some {| AppVersion := "1.11.4" |};
               ChartValues := numericValues |}
       else @loader_Load demoUniverse demoPackages path;
     json_Marshal := @json_Marshal demoUniverse demoPackages;
     json_Unmarshal_chartValues := fun bs =>
       if bytes_eqb bs (list_byte_of_string numericValues) then
         Failed (New "json: cannot unmarshal number into Go struct field chartValues.global.images.istio_pilot.version of type string")
       else @json_Unmarshal_chartValues demoUniverse demoPackages bs;
     json_Unmarshal_IstioVersionOutput :=
       @json_Unmarshal_IstioVersionOutput demoUniverse demoPackages;
     IsConflict := @IsConflict demoUniverse demoPackages;
     DefaultRetry_Steps := 5 |}.

(** A commander whose steps all fail except the version query, which prints
    a banner before [clientOnlyJSON]; and a performer that resolves it for
    every version. *)
Definition reportCommander : @Commander demoUniverse :=
  @Build_Commander demoUniverse
    (fun _ _ s => (Some (New "install failed"), s))
    (fun _ _ s => (Some (New "upgrade failed"), s))
    (fun _ s => (Some (New "uninstall failed"), s))
    (fun _ s => (Ok (list_byte_of_string ("banner " +:+ clientOnlyJSON)), s)).

Definition reportPerformer : @DefaultIstioPerformer demoUniverse :=
  {| resolver := @Build_CommanderResolver demoUniverse
                   (fun _ => Ok reportCommander);
     istioProxyReset := {| Run := fun _ s => (None, s) |};
     provider := {| RetrieveFrom := fun _ => Ok demoClientset |} |}.

(** A client set that cannot be had. *)
Definition brokenKubeClient : @KubernetesClient demoUniverse :=
  {| Kubeconfig := "kubeconfig"; GetClientset := Failed (New "no client") |}.

(** A cluster without any webhook configuration. *)
Definition demoClusterEmpty : memCluster :=
  {| mem_webhooks := [];
     mem_namespaces := ["istio-system"];
     mem_conflicts := O;
     mem_installed := None |}.

End Demo2.

(** Requests whose body is the list of the bytes still to read, under a
    clock that counts. *)
Definition demoHttpUniverse : HttpUniverse :=
  {| reader := list byte; env := nat |}.

Section DemoHttp.
Existing Instance demoHttpUniverse.

Definition demoHttpPackages : @HttpPackages demoHttpUniverse :=
  {| paramContractVersion := "contractVersion";
     Params_Int64 := fun r name =>
       match Req_Vars r !! name with
       | Some v =>
           if String.eqb v "1" then Ok 1
           else Failed (New ("invalid syntax: " +:+ v))
       | None => Failed (New ("parameter " +:+ name +:+ " undefined"))
       end;
     base64_RawURLEncoding_DecodeString := fun h =>
       if String.eqb h "eyJzdWIiOiJhbGljZSJ9" then
         (list_byte_of_string alicePayload, None)
       else if String.eqb h "e30" then (list_byte_of_string "{}", None)
       else ([], Some (New "illegal base64 data at input byte 0"));
     json_Unmarshal_jwtSub := fun bs =>
       if bytes_eqb bs (list_byte_of_string alicePayload) then
         ({| Sub := "alice" |}, None)
       else if bytes_eqb bs (list_byte_of_string "{}") then
         ({| Sub := "" |}, None)
       else ({| Sub := "" |}, Some (New "invalid character"));
     ioutil_ReadAll := fun body => ((body, None), []);
     NopCloser_NewBuffer := fun bs => bs;
     json_Marshal_data := fun d =>
       Ok (list_byte_of_string
             (Method d +:+ " " +:+ URI d +:+ " " +:+ User d +:+ " "
              +:+ RequestBody d));
     time_Now_RFC3339 := fun n => ("2021-10-01T00:00:00Z", S n);
     uuid_New := fun n => ("00000000-0000-4000-8000-000000000000", S n) |}.

Definition demoRequest (method : string) (token : list string)
    (vars : gmap string string) (body : string) : @Request demoHttpUniverse :=
  @Build_Request demoHttpUniverse method "/v1/clusters"
    (<[XJWTHeaderName := token]> ∅) vars (list_byte_of_string body).

Definition demoHttpWorld : @httpWorld demoHttpUniverse :=
  @Build_httpWorld demoHttpUniverse [] [] O.

(** A handler that answers every request with status 200 and its method. *)
Definition demoNext : @Handler demoHttpUniverse :=
  fun r w =>
    @Build_httpWorld demoHttpUniverse
      (responses w ++ [(200, Req_Method r)]) (entries w) (environment w).

End DemoHttp.

(** * Properties *)

(** ** The mutation step *)

Lemma DeepEqual_strings_refl (a : slice string) : DeepEqual_strings a a = true.
Proof.
  destruct a as [xs|]; simpl; [|reflexivity].
  apply bool_decide_eq_true_2. reflexivity.
Qed.

Lemma DeepEqual_refl (r : LabelSelectorRequirement) : DeepEqual r r = true.
Proof.
  unfold DeepEqual.
  rewrite !String.eqb_refl, DeepEqual_strings_refl. reflexivity.
Qed.

(** [reflect.DeepEqual] holds exactly of equal requirements. *)
Lemma DeepEqual_eq (a b : LabelSelectorRequirement) :
  DeepEqual a b = true <-> a = b.
Proof.
  split; [|intros ->; apply DeepEqual_refl].
  unfold DeepEqual. intros H.
  apply andb_prop in H as [H Hv]. apply andb_prop in H as [Hk Ho].
  apply String.eqb_eq in Hk. apply String.eqb_eq in Ho.
  destruct a as [ka oa va], b as [kb ob vb]; simpl in *. subst.
  f_equal.
  destruct va as [xs|], vb as [ys|]; simpl in Hv; try discriminate.
  - apply bool_decide_eq_true_1 in Hv. congruence.
  - reflexivity.
Qed.

Lemma hasRequiredLabel_true (mes : list LabelSelectorRequirement)
    (req : LabelSelectorRequirement) :
  hasRequiredLabel mes req = true <->
  exists e, e ∈ mes /\ DeepEqual e req = true.
Proof.
  induction mes as [|e mes IH]; simpl.
  - split; [discriminate|]. intros (e & He & _). inversion He.
  - destruct (DeepEqual e req) eqn:E.
    + split; [|reflexivity]. intros _. exists e. split; [left|assumption].
    + rewrite IH. split.
      * intros (x & Hx & Hd). exists x. split; [right|]; assumption.
      * intros (x & Hx & Hd). exists x. split; [|assumption].
        inversion Hx; subst; [congruence|assumption].
Qed.

Lemma hasRequiredLabel_app_self (mes : list LabelSelectorRequirement)
    (req : LabelSelectorRequirement) :
  hasRequiredLabel (mes ++ [req]) req = true.
Proof.
  apply hasRequiredLabel_true. exists req. split.
  - apply elem_of_app. right. left.
  - apply DeepEqual_refl.
Qed.

Lemma set_same_selector (wh : MutatingWebhook) (sel : LabelSelector) :
  NamespaceSelector wh = Some sel ->
  set_NamespaceSelector wh
    (Some (set_MatchExpressions sel (MatchExpressions sel))) = wh.
Proof.
  intros H. destruct wh, sel. simpl in *. subst. reflexivity.
Qed.

(** The outer loop, with the entries before the index in [pre]. *)
Lemma scanWebhooks_miss (whConf : MutatingWebhookConfiguration)
    (name : string) (req : LabelSelectorRequirement)
    (rest : list MutatingWebhook) (i : nat) :
  (forall w, w ∈ rest -> Name w <> name) ->
  scanWebhooks whConf i rest name req
  = Returns (whConf,
             Some (New ("could not find webhook " +:+ name
                        +:+ " in WebhookConfiguration "
                        +:+ ObjectName (Meta whConf)))).
Proof.
  revert i. induction rest as [|w rest IH]; intros i Hn; simpl.
  - reflexivity.
  - destruct (String.eqb_spec (Name w) name) as [E|E].
    + exfalso. apply (Hn w); [left|exact E].
    + apply IH. intros x Hx. apply Hn. right. exact Hx.
Qed.

Lemma scanWebhooks_skip (whConf : MutatingWebhookConfiguration)
    (name : string) (req : LabelSelectorRequirement)
    (pre rest : list MutatingWebhook) (i : nat) :
  (forall w, w ∈ pre -> Name w <> name) ->
  scanWebhooks whConf i (pre ++ rest) name req
  = scanWebhooks whConf (i + length pre) rest name req.
Proof.
  revert i. induction pre as [|w pre IH]; intros i Hn; simpl.
  - f_equal. lia.
  - destruct (String.eqb_spec (Name w) name) as [E|E].
    + exfalso. apply (Hn w); [left|exact E].
    + rewrite IH.
      * f_equal. lia.
      * intros x Hx. apply Hn. right. exact Hx.
Qed.

Lemma addNamespaceSelector_at_first_match
    (whConf : MutatingWebhookConfiguration) (name : string)
    (req : LabelSelectorRequirement)
    (pre post : list MutatingWebhook) (wh : MutatingWebhook) :
  Webhooks whConf = pre ++ wh :: post ->
  (forall w, w ∈ pre -> Name w <> name) ->
  Name wh = name ->
  addNamespaceSelectorIfNotPresent whConf name req
  = match NamespaceSelector wh with
    | None => Panics NilDereference
    | Some sel =>
        Returns (set_Webhooks whConf (pre ++ patched_entry wh sel req :: post),
                 None)
    end.
Proof.
  intros Hw Hpre Hname. unfold addNamespaceSelectorIfNotPresent.
  rewrite Hw at 1. rewrite scanWebhooks_skip by exact Hpre. simpl.
  rewrite (proj2 (String.eqb_eq _ _) Hname).
  unfold patchWebhookAt, patched_entry.
  destruct (NamespaceSelector wh) as [sel|] eqn:Hsel; [|reflexivity].
  destruct (hasRequiredLabel (MatchExpressions sel) req) eqn:Hhas.
  - pose proof (set_same_selector wh sel Hsel) as Hs.
    unfold set_NamespaceSelector, set_MatchExpressions in Hs. rewrite Hs.
    rewrite <- Hw. destruct whConf; reflexivity.
  - rewrite Hw.
    replace (<[length pre:=_]> (pre ++ wh :: post)) with
      (pre ++ <[0%nat := set_NamespaceSelector wh
                  (Some (set_MatchExpressions sel
                           (MatchExpressions sel ++ [req])))]> (wh :: post)).
    + reflexivity.
    + symmetry. rewrite insert_app_r_alt by lia.
      replace (length pre - length pre)%nat with 0%nat by lia. reflexivity.
Qed.

(** Either no entry carries the name, or there is a first one. *)
Lemma first_match_split (name : string) (whs : list MutatingWebhook) :
  (forall w, w ∈ whs -> Name w <> name)
  \/ exists pre wh post,
       whs = pre ++ wh :: post
       /\ (forall w, w ∈ pre -> Name w <> name)
       /\ Name wh = name.
Proof.
  induction whs as [|w whs IH].
  - left. intros w Hw. inversion Hw.
  - destruct (String.eqb_spec (Name w) name) as [E|E].
    + right. exists [], w, whs. split; [reflexivity|]. split; [|exact E].
      intros x Hx. inversion Hx.
    + destruct IH as [IH|(pre & wh & post & -> & Hpre & Hn)].
      * left. intros x Hx. inversion Hx; subst; [exact E|apply IH; assumption].
      * right. exists (w :: pre), wh, post. split; [reflexivity|].
        split; [|exact Hn].
        intros x Hx. inversion Hx; subst; [exact E|apply Hpre; assumption].
Qed.

(** ** The mutation step on the heap *)

Lemma update_eq {A : Type} (f : nat -> A) (p : nat) (v : A) :
  Heap.update f p v p = v.
Proof. unfold Heap.update. rewrite Nat.eqb_refl. reflexivity. Qed.

Lemma update_ne {A : Type} (f : nat -> A) (p q : nat) (v : A) :
  q <> p -> Heap.update f p v q = f q.
Proof.
  intros Hne. unfold Heap.update.
  destruct (Nat.eqb_spec q p); [contradiction|reflexivity].
Qed.

(** After [append], the slice returned holds the old elements and the new
    one. *)
Lemma elements_append (growslice : nat -> nat -> nat) (h : Heap.heap)
    (s : option Heap.sliceHeader) (x : LabelSelectorRequirement) :
  slice_ok h s ->
  Heap.elements (snd (Heap.append growslice h s x))
    (fst (Heap.append growslice h s x))
  = Heap.elements h s ++ [x].
Proof.
  intros Hok. destruct s as [hd|]; cbn [Heap.append].
  - destruct Hok as [Hlen Hcap].
    destruct (Nat.ltb_spec (Heap.slen hd) (Heap.scap hd)) as [Hlt|Hge].
    + cbn [fst snd Heap.elements Heap.arrays Heap.base Heap.off Heap.slen].
      rewrite update_eq.
      rewrite drop_insert_ge by lia.
      replace (Heap.off hd + Heap.slen hd - Heap.off hd)%nat
        with (Heap.slen hd) by lia.
      assert (Hin : (Heap.slen hd
                     < length (drop (Heap.off hd)
                                 (Heap.arrays h (Heap.base hd))))%nat).
      { rewrite length_drop. lia. }
      rewrite (take_S_r _ _ x) by (apply list_lookup_insert_eq; exact Hin).
      rewrite take_insert_ge by lia. reflexivity.
    + cbn [Heap.grow fst snd Heap.elements Heap.arrays Heap.base Heap.off
           Heap.slen].
      rewrite update_eq, drop_0, app_assoc.
      apply take_app_length'. rewrite length_app. cbn. lia.
  - cbn [Heap.grow fst snd Heap.elements Heap.arrays Heap.base Heap.off
         Heap.slen length].
    rewrite update_eq. reflexivity.
Qed.

(** [append] leaves the selectors as they are. *)
Lemma selectors_append (growslice : nat -> nat -> nat) (h : Heap.heap)
    (s : option Heap.sliceHeader) (x : LabelSelectorRequirement) :
  Heap.selectors (snd (Heap.append growslice h s x)) = Heap.selectors h.
Proof.
  destruct s as [hd|]; cbn [Heap.append]; [|reflexivity].
  destruct (Heap.slen hd <? Heap.scap hd)%nat; reflexivity.
Qed.

(** [append] to the slice [s] leaves the elements of a slice [hq] as they
    are, when [hq] is in an array allocated already and does not hold the
    cell after [s]. *)
Lemma elements_append_other (growslice : nat -> nat -> nat) (h : Heap.heap)
    (s : option Heap.sliceHeader) (x : LabelSelectorRequirement)
    (hq : Heap.sliceHeader) :
  (Heap.base hq < Heap.next h)%nat ->
  match s with
  | None => True
  | Some hp =>
      (Heap.slen hp < Heap.scap hp)%nat ->
      Heap.base hq = Heap.base hp ->
      ~ (Heap.off hq <= Heap.off hp + Heap.slen hp
         < Heap.off hq + Heap.slen hq)%nat
  end ->
  Heap.elements (snd (Heap.append growslice h s x)) (Some hq)
  = Heap.elements h (Some hq).
Proof.
  intros Hold Hcell.
  assert (Hgrow : forall oldcap old,
            Heap.elements (snd (Heap.grow growslice h oldcap old x)) (Some hq)
            = Heap.elements h (Some hq)).
  { intros oldcap old. cbn [Heap.grow snd Heap.elements Heap.arrays].
    rewrite update_ne by lia. reflexivity. }
  destruct s as [hp|]; cbn [Heap.append]; [|apply Hgrow].
  destruct (Nat.ltb_spec (Heap.slen hp) (Heap.scap hp)) as [Hroom|_];
    [|apply Hgrow].
  cbn [snd Heap.elements Heap.arrays].
  destruct (Nat.eq_dec (Heap.base hq) (Heap.base hp)) as [Heq|Hne].
  - rewrite Heq, update_eq. specialize (Hcell Hroom Heq).
    destruct (Nat.lt_ge_cases (Heap.off hp + Heap.slen hp) (Heap.off hq))
      as [Hlt|Hge].
    + rewrite drop_insert_lt by lia. reflexivity.
    + rewrite drop_insert_ge by lia.
      rewrite take_insert_ge by lia. reflexivity.
  - rewrite update_ne by exact Hne. reflexivity.
Qed.

(** What the heap shows of the selector at [p] after the rule was appended
    to its slice, and of an unshared selector at [q]. *)
Lemma view_selector_appended (growslice : nat -> nat -> nat) (h : Heap.heap)
    (p : nat) (req : LabelSelectorRequirement) :
  slice_ok h (Heap.MatchExpressions (Heap.selectors h p)) ->
  let a := Heap.append growslice h
             (Heap.MatchExpressions (Heap.selectors h p)) req in
  view_selector (Heap.set_MatchExpressions (snd a) p (fst a)) p
  = {| MatchLabels := MatchLabels (view_selector h p);
       MatchExpressions := MatchExpressions (view_selector h p) ++ [req] |}.
Proof.
  intros Hok a. unfold view_selector.
  cbn [Heap.set_MatchExpressions Heap.selectors]. rewrite update_eq.
  cbn [Heap.MatchLabels Heap.MatchExpressions MatchLabels MatchExpressions].
  unfold a. rewrite selectors_append.
  f_equal. exact (elements_append growslice h _ req Hok).
Qed.

Lemma view_selector_unshared (growslice : nat -> nat -> nat) (h : Heap.heap)
    (p q : nat) (req : LabelSelectorRequirement) :
  unshared h p q ->
  let a := Heap.append growslice h
             (Heap.MatchExpressions (Heap.selectors h p)) req in
  view_selector (Heap.set_MatchExpressions (snd a) p (fst a)) q
  = view_selector h q.
Proof.
  intros [Hne Hq] a. unfold view_selector.
  cbn [Heap.set_MatchExpressions Heap.selectors].
  rewrite update_ne by exact Hne.
  unfold a. rewrite selectors_append.
  f_equal.
  destruct (Heap.MatchExpressions (Heap.selectors h q)) as [hq|];
    [|reflexivity].
  destruct Hq as [Hold Hcell].
  exact (elements_append_other growslice h _ req hq Hold Hcell).
Qed.

Lemma heap_scan_miss (growslice : nat -> nat -> nat) (h : Heap.heap)
    (whConf : Heap.MutatingWebhookConfiguration) (name : string)
    (req : LabelSelectorRequirement) (rest : list Heap.MutatingWebhook) :
  (forall w, w ∈ rest -> Heap.Name w <> name) ->
  Heap.scanWebhooks growslice h whConf rest name req
  = Returns (h, Some (webhook_not_found name (view h whConf))).
Proof.
  induction rest as [|w rest IH]; intros Hn; cbn [Heap.scanWebhooks].
  - reflexivity.
  - destruct (String.eqb_spec (Heap.Name w) name) as [E|E].
    + exfalso. apply (Hn w); [left|exact E].
    + apply IH. intros x Hx. apply Hn. right. exact Hx.
Qed.

Lemma heap_scan_skip (growslice : nat -> nat -> nat) (h : Heap.heap)
    (whConf : Heap.MutatingWebhookConfiguration) (name : string)
    (req : LabelSelectorRequirement)
    (pre post : list Heap.MutatingWebhook) (wh : Heap.MutatingWebhook) :
  (forall w, w ∈ pre -> Heap.Name w <> name) ->
  Heap.Name wh = name ->
  Heap.scanWebhooks growslice h whConf (pre ++ wh :: post) name req
  = Heap.patchWebhookAt growslice h wh req.
Proof.
  induction pre as [|w pre IH]; intros Hn Hname; cbn [app Heap.scanWebhooks].
  - rewrite (proj2 (String.eqb_eq _ _) Hname). reflexivity.
  - destruct (String.eqb_spec (Heap.Name w) name) as [E|E].
    + exfalso. apply (Hn w); [left|exact E].
    + apply IH; [|exact Hname]. intros x Hx. apply Hn. right. exact Hx.
Qed.

Lemma heap_first_match_split (name : string)
    (whs : list Heap.MutatingWebhook) :
  (forall w, w ∈ whs -> Heap.Name w <> name)
  \/ exists pre wh post,
       whs = pre ++ wh :: post
       /\ (forall w, w ∈ pre -> Heap.Name w <> name)
       /\ Heap.Name wh = name.
Proof.
  induction whs as [|w whs IH].
  - left. intros w Hw. inversion Hw.
  - destruct (String.eqb_spec (Heap.Name w) name) as [E|E].
    + right. exists [], w, whs. split; [reflexivity|]. split; [|exact E].
      intros x Hx. inversion Hx.
    + destruct IH as [IH|(pre & wh & post & -> & Hpre & Hn)].
      * left. intros x Hx. inversion Hx; subst; [exact E|apply IH; assumption].
      * right. exists (w :: pre), wh, post. split; [reflexivity|].
        split; [|exact Hn].
        intros x Hx. inversion Hx; subst; [exact E|apply Hpre; assumption].
Qed.

(** The step on an entry whose selector is at [p], as the heap shows it:
    the selector at [p] gets the rule unless it holds it, and unshared
    selectors show what they showed. *)
Lemma heap_patch_view (growslice : nat -> nat -> nat) (h : Heap.heap)
    (wh : Heap.MutatingWebhook) (p : nat) (req : LabelSelectorRequirement) :
  Heap.NamespaceSelector wh = Some p ->
  slice_ok h (Heap.MatchExpressions (Heap.selectors h p)) ->
  exists h',
    Heap.patchWebhookAt growslice h wh req = Returns (h', None)
    /\ view_selector h' p
       = {| MatchLabels := MatchLabels (view_selector h p);
            MatchExpressions :=
              if hasRequiredLabel (MatchExpressions (view_selector h p)) req
              then MatchExpressions (view_selector h p)
              else MatchExpressions (view_selector h p) ++ [req] |}
    /\ (forall q, unshared h p q -> view_selector h' q = view_selector h q).
Proof.
  intros Hp Hok. unfold Heap.patchWebhookAt. rewrite Hp.
  cbn [view_selector MatchExpressions].
  destruct (hasRequiredLabel
              (Heap.elements h (Heap.MatchExpressions (Heap.selectors h p)))
              req) eqn:Hhas.
  - exists h. split; [reflexivity|]. split; [reflexivity|]. reflexivity.
  - destruct (Heap.append growslice h
                (Heap.MatchExpressions (Heap.selectors h p)) req)
      as [s' h1] eqn:Happ.
    exists (Heap.set_MatchExpressions h1 p s').
    split; [reflexivity|]. split.
    + pose proof (view_selector_appended growslice h p req Hok) as Hv.
      cbn zeta in Hv. rewrite Happ in Hv. exact Hv.
    + intros q Hq.
      pose proof (view_selector_unshared growslice h p q req Hq) as Hv.
      cbn zeta in Hv. rewrite Happ in Hv. exact Hv.
Qed.

Lemma view_webhook_unshared (h h' : Heap.heap) (p : nat)
    (other : Heap.MutatingWebhook) :
  (forall q, unshared h p q -> view_selector h' q = view_selector h q) ->
  (forall q, q ∈ selector_pointers other -> unshared h p q) ->
  view_webhook h' other = view_webhook h other.
Proof.
  intros Hview Hsep. unfold view_webhook.
  assert (Hn : view_selector h' <$> Heap.NamespaceSelector other
               = view_selector h <$> Heap.NamespaceSelector other).
  { destruct (Heap.NamespaceSelector other) as [q|] eqn:Hq; [|reflexivity].
    cbn. f_equal. apply Hview, Hsep. unfold selector_pointers. rewrite Hq.
    left. }
  assert (Ho : view_selector h' <$> Heap.ObjectSelector other
               = view_selector h <$> Heap.ObjectSelector other).
  { destruct (Heap.ObjectSelector other) as [q|] eqn:Hq; [|reflexivity].
    cbn. f_equal. apply Hview, Hsep. unfold selector_pointers. rewrite Hq.
    apply elem_of_app. right. left. }
  rewrite Hn, Ho. reflexivity.
Qed.

(** The core of the frame: on a heap where the target entry shares nothing
    with the others, the configuration shown after the step is the one shown
    before with the target entry patched. *)
Lemma heap_step_view (growslice : nat -> nat -> nat) (h : Heap.heap)
    (whConf : Heap.MutatingWebhookConfiguration) (name : string)
    (req : LabelSelectorRequirement)
    (pre post : list Heap.MutatingWebhook) (wh : Heap.MutatingWebhook)
    (p : nat) :
  Heap.Webhooks whConf = pre ++ wh :: post ->
  (forall w, w ∈ pre -> Heap.Name w <> name) ->
  Heap.Name wh = name ->
  Heap.NamespaceSelector wh = Some p ->
  slice_ok h (Heap.MatchExpressions (Heap.selectors h p)) ->
  separated h p wh (pre ++ post) ->
  exists h',
    Heap.addNamespaceSelectorIfNotPresent growslice h whConf name req
    = Returns (h', None)
    /\ view h' whConf
       = {| Meta := Heap.Meta whConf;
            Webhooks :=
              (view_webhook h <$> pre)
              ++ patched_entry (view_webhook h wh) (view_selector h p) req
              :: (view_webhook h <$> post) |}.
Proof.
  intros Hw Hpre Hn Hp Hok [Hobj Hothers].
  destruct (heap_patch_view growslice h wh p req Hp Hok)
    as (h' & Hstep & Htarget & Hrest).
  exists h'. split.
  - unfold Heap.addNamespaceSelectorIfNotPresent. rewrite Hw.
    rewrite heap_scan_skip by assumption. exact Hstep.
  - unfold view. rewrite Hw, fmap_app, fmap_cons. f_equal. f_equal; [|f_equal].
    + apply list_fmap_ext. intros i x Hx.
      apply (view_webhook_unshared h h' p x Hrest).
      intros q Hq. apply (Hothers x q); [|exact Hq].
      apply elem_of_app. left. apply list_elem_of_lookup. eauto.
    + unfold view_webhook, patched_entry. rewrite Hp. cbn [fmap option_fmap
        option_map Name NamespaceSelector ObjectSelector
        AdmissionReviewVersions TimeoutSeconds].
      rewrite Htarget. f_equal.
      destruct (Heap.ObjectSelector wh) as [q|] eqn:Hq; [|reflexivity].
      cbn. f_equal. apply Hrest, Hobj. reflexivity.
    + apply list_fmap_ext. intros i x Hx.
      apply (view_webhook_unshared h h' p x Hrest).
      intros q Hq. apply (Hothers x q); [|exact Hq].
      apply elem_of_app. right. apply list_elem_of_lookup. eauto.
Qed.

(** On a heap where the target entry shares nothing, the step on the heap
    shows what the step on values computes. *)
Lemma heap_step_refines (growslice : nat -> nat -> nat) (h : Heap.heap)
    (whConf : Heap.MutatingWebhookConfiguration) (name : string)
    (req : LabelSelectorRequirement)
    (pre post : list Heap.MutatingWebhook) (wh : Heap.MutatingWebhook)
    (p : nat) :
  Heap.Webhooks whConf = pre ++ wh :: post ->
  (forall w, w ∈ pre -> Heap.Name w <> name) ->
  Heap.Name wh = name ->
  Heap.NamespaceSelector wh = Some p ->
  slice_ok h (Heap.MatchExpressions (Heap.selectors h p)) ->
  separated h p wh (pre ++ post) ->
  exists h',
    Heap.addNamespaceSelectorIfNotPresent growslice h whConf name req
    = Returns (h', None)
    /\ addNamespaceSelectorIfNotPresent (view h whConf) name req
       = Returns (view h' whConf, None).
Proof.
  intros Hw Hpre Hn Hp Hok Hsep.
  destruct (heap_step_view growslice h whConf name req pre post wh p
              Hw Hpre Hn Hp Hok Hsep) as (h' & Hstep & Hview).
  exists h'. split; [exact Hstep|].
  rewrite (addNamespaceSelector_at_first_match (view h whConf) name req
             (view_webhook h <$> pre) (view_webhook h <$> post)
             (view_webhook h wh)).
  - cbn [view_webhook NamespaceSelector]. rewrite Hp. cbn.
    rewrite Hview. reflexivity.
  - cbn [view Webhooks]. rewrite Hw, fmap_app, fmap_cons. reflexivity.
  - intros w Hin. apply list_elem_of_fmap in Hin as (w0 & -> & Hin0).
    cbn [view_webhook Name]. apply Hpre. exact Hin0.
  - exact Hn.
Qed.

(** C10: on the heap, the mutation step scans the entries in order and stops
    at the first one named [name].  When there is none it returns the "could
    not find webhook" error that names the entry and the configuration, and
    the heap is as before.  When [wh] is the first one, after [pre] and before
    [post], and its namespace selector is nil, the step panics.  When its
    namespace selector is at [p], holds a slice within its array, and shares
    nothing with the object selector of [wh] nor with the selectors of [pre]
    and [post], the step returns no error and the configuration the heap shows
    afterwards differs from the one it showed before only in the match
    expressions of the namespace selector of [wh], which are as before when
    they hold the rule already and have the rule appended otherwise: [pre],
    [post] (whatever names it holds), the other fields of [wh] and the
    metadata are as before.  The error is returned in no other case than the
    first. *)
Theorem addNamespaceSelector_frame_on_heap
    (growslice : nat -> nat -> nat) (h : Heap.heap)
    (whConf : Heap.MutatingWebhookConfiguration) (name : string)
    (req : LabelSelectorRequirement) :
  ((forall w, w ∈ Heap.Webhooks whConf -> Heap.Name w <> name) ->
   Heap.addNamespaceSelectorIfNotPresent growslice h whConf name req
   = Returns (h, Some (webhook_not_found name (view h whConf))))
  /\
  (forall pre wh post,
     Heap.Webhooks whConf = pre ++ wh :: post ->
     (forall w, w ∈ pre -> Heap.Name w <> name) ->
     Heap.Name wh = name ->
     match Heap.NamespaceSelector wh with
     | Some p =>
         slice_ok h (Heap.MatchExpressions (Heap.selectors h p)) ->
         separated h p wh (pre ++ post) ->
         exists h',
           Heap.addNamespaceSelectorIfNotPresent growslice h whConf name req
           = Returns (h', None)
           /\ view h' whConf
              = {| Meta := Heap.Meta whConf;
                   Webhooks :=
                     (view_webhook h <$> pre)
                     ++ patched_entry (view_webhook h wh) (view_selector h p)
                          req
                     :: (view_webhook h <$> post) |}
     | None =>
         Heap.addNamespaceSelectorIfNotPresent growslice h whConf name req
         = Panics NilDereference
     end)
  /\
  (forall h' e,
     Heap.addNamespaceSelectorIfNotPresent growslice h whConf name req
     = Returns (h', Some e) ->
     (forall w, w ∈ Heap.Webhooks whConf -> Heap.Name w <> name)
     /\ h' = h /\ e = webhook_not_found name (view h whConf)).
Proof.
  split; [|split].
  - intros Hn. unfold Heap.addNamespaceSelectorIfNotPresent.
    apply heap_scan_miss. exact Hn.
  - intros pre wh post Hw Hpre Hn.
    destruct (Heap.NamespaceSelector wh) as [p|] eqn:Hp.
    + intros Hok Hsep.
      exact (heap_step_view growslice h whConf name req pre post wh p
               Hw Hpre Hn Hp Hok Hsep).
    + unfold Heap.addNamespaceSelectorIfNotPresent. rewrite Hw.
      rewrite heap_scan_skip by assumption.
      unfold Heap.patchWebhookAt. rewrite Hp. reflexivity.
  - intros h' e Hr.
    destruct (heap_first_match_split name (Heap.Webhooks whConf))
      as [Hn|(pre & wh & post & Hw & Hpre & Hn)].
    + unfold Heap.addNamespaceSelectorIfNotPresent in Hr.
      rewrite heap_scan_miss in Hr by exact Hn.
      injection Hr as <- <-. auto.
    + unfold Heap.addNamespaceSelectorIfNotPresent in Hr. rewrite Hw in Hr.
      rewrite heap_scan_skip in Hr by assumption.
      unfold Heap.patchWebhookAt in Hr.
      destruct (Heap.NamespaceSelector wh); [|discriminate].
      destruct (hasRequiredLabel _ _); [discriminate|].
      destruct (Heap.append _ _ _ _). discriminate.
Qed.

(** The frame on a heap without sharing: the first entry named
    [webhookNameToChange] gets the rule, the entry before it and the entry of
    the same name after it show what they showed. *)
Lemma addNamespaceSelector_frame_on_heap_witness :
  exists h',
    Heap.addNamespaceSelectorIfNotPresent doubling plainHeap plainConf
      webhookNameToChange requiredLabelSelector
    = Returns (h', None)
    /\ view h' plainConf
       = {| Meta := Heap.Meta plainConf;
            Webhooks :=
              [ demoEntry "namespace.sidecar-injector.istio.io" [ruleA; ruleB];
                demoEntry webhookNameToChange [requiredLabelSelector];
                demoEntry webhookNameToChange [] ] |}.
Proof.
  refine (proj1 (proj2 (addNamespaceSelector_frame_on_heap doubling plainHeap
                          plainConf webhookNameToChange
                          requiredLabelSelector))
            [heapEntry "namespace.sidecar-injector.istio.io" 1]
            (heapEntry webhookNameToChange 0)
            [heapEntry webhookNameToChange 2] eq_refl _ eq_refl I _).
  - intros w Hw. apply list_elem_of_singleton in Hw. subst w.
    simpl. discriminate.
  - split.
    + intros q Hq. discriminate.
    + intros other q Hother Hq.
      apply elem_of_cons in Hother as [->|Hother];
        [|apply list_elem_of_singleton in Hother; subst other];
        apply list_elem_of_singleton in Hq; subst q.
      * split; [lia|]. simpl. split; [lia|exact I].
      * split; [lia|exact I].
Defined.

(** C10 as stated fails on [sharedHeap]: the target entry is the first one,
    its selector lacks the rule and its slice has room, so [append] writes
    the rule into the cell that the slice of the second entry holds too; the
    second entry, of another name, showed [ruleA; ruleB] and shows
    [ruleA; requiredLabelSelector] after the step. *)
Lemma addNamespaceSelector_shared_counterexample :
  exists h',
    Heap.addNamespaceSelectorIfNotPresent doubling sharedHeap sharedConf
      webhookNameToChange requiredLabelSelector
    = Returns (h', None)
    /\ Webhooks (view sharedHeap sharedConf) !! 1%nat
       = Some (demoEntry "namespace.sidecar-injector.istio.io"
                 [ruleA; ruleB])
    /\ Webhooks (view h' sharedConf) !! 1%nat
       = Some (demoEntry "namespace.sidecar-injector.istio.io"
                 [ruleA; requiredLabelSelector])
    /\ Webhooks (view h' sharedConf) !! 1%nat
       <> Webhooks (view sharedHeap sharedConf) !! 1%nat.
Proof.
  eexists. split; [reflexivity|]. split; [reflexivity|].
  split; [reflexivity|]. discriminate.
Qed.

(** A second run of the mutation step on what a first run left. *)
Lemma addNamespaceSelector_again
    (whConf whConf' served : MutatingWebhookConfiguration) (name : string)
    (req : LabelSelectorRequirement) :
  addNamespaceSelectorIfNotPresent whConf name req = Returns (whConf', None) ->
  Webhooks served = Webhooks whConf' ->
  addNamespaceSelectorIfNotPresent served name req = Returns (served, None).
Proof.
  intros Hfirst Hserved.
  destruct (first_match_split name (Webhooks whConf))
    as [Hn|(pre & wh & post & Hw & Hpre & Hn)].
  - unfold addNamespaceSelectorIfNotPresent in Hfirst.
    rewrite scanWebhooks_miss in Hfirst by exact Hn. discriminate.
  - rewrite (addNamespaceSelector_at_first_match _ _ _ _ _ _ Hw Hpre Hn)
      in Hfirst.
    destruct (NamespaceSelector wh) as [sel|] eqn:Hsel; [|discriminate].
    injection Hfirst as <-. simpl in Hserved.
    rewrite (addNamespaceSelector_at_first_match served name req pre post
               (patched_entry wh sel req) Hserved Hpre Hn).
    simpl. f_equal. f_equal.
    assert (Hp : patched_entry (patched_entry wh sel req)
                   {| MatchLabels := MatchLabels sel;
                      MatchExpressions :=
                        if hasRequiredLabel (MatchExpressions sel) req
                        then MatchExpressions sel
                        else MatchExpressions sel ++ [req] |} req
                 = patched_entry wh sel req).
    { unfold patched_entry. simpl.
      destruct (hasRequiredLabel (MatchExpressions sel) req) eqn:Hhas.
      - rewrite Hhas. reflexivity.
      - rewrite hasRequiredLabel_app_self. reflexivity. }
    rewrite Hp. unfold set_Webhooks. rewrite <- Hserved.
    destruct served; reflexivity.
Qed.

Section Properties.
Context {U : Universe} {P : Packages}.

(** ** Steps of the monad *)

Lemma bind_returns {A B} (m : M A) (k : A -> M B) (w w' : world) (a : A) :
  m w = (Returns a, w') -> (x <- m ;; k x) w = k a w'.
Proof. intros H. unfold bind. rewrite H. reflexivity. Qed.

Lemma bind_panics {A B} (m : M A) (k : A -> M B) (w w' : world) (p : panic) :
  m w = (Panics p, w') -> (x <- m ;; k x) w = (Panics p, w').
Proof. intros H. unfold bind. rewrite H. reflexivity. Qed.

Lemma retryLoop_success (steps : nat) (lastErr : error) (fn : M error)
    (w w' : world) :
  fn w = (Returns None, w') ->
  retryLoop (S steps) lastErr fn w = (Returns None, w').
Proof. intros H. simpl. rewrite (bind_returns _ _ _ _ _ H). reflexivity. Qed.

(** One attempt, once the selection and the mutation step are known. *)
Lemma patchAttempt_selected (clientSet : Clientset)
    (served patched : MutatingWebhookConfiguration) (w w1 : world) :
  selectWebhookConfFormCandidates candidatesNames clientSet w
  = (Returns (Some served, None), w1) ->
  addNamespaceSelectorIfNotPresent served webhookNameToChange
    requiredLabelSelector = Returns (patched, None) ->
  patchAttempt clientSet w
  = invoke (Call_Webhook_Update patched)
      (MutatingWebhookConfigurations_Update clientSet patched) w1.
Proof.
  intros Hsel Hadd. unfold patchAttempt.
  rewrite (bind_returns _ _ _ _ _ Hsel). simpl.
  unfold bind at 1. unfold lift at 1. simpl.
  unfold bind at 1. unfold lift at 1. rewrite Hadd. reflexivity.
Qed.

(** C1: the patch is idempotent.  (a) When the match expressions of the
    target entry (the first entry of the name) hold an expression deeply equal
    to the required rule, the mutation step returns no error and leaves the
    configuration as it is.  (b) After a mutation step that succeeded, the
    step run on any configuration with the entries it left returns no error
    and changes nothing.  (c) Hence, the retry loop allowing at least
    one attempt, a patch that is served such a configuration and whose write
    is accepted writes back exactly what it was served, after one attempt,
    and returns no error. *)
Theorem patch_idempotent :
  (forall (whConf : MutatingWebhookConfiguration) (name : string)
          (req : LabelSelectorRequirement) pre wh post sel e,
     Webhooks whConf = pre ++ wh :: post ->
     (forall w, w ∈ pre -> Name w <> name) ->
     Name wh = name ->
     NamespaceSelector wh = Some sel ->
     e ∈ MatchExpressions sel ->
     DeepEqual e req = true ->
     addNamespaceSelectorIfNotPresent whConf name req
     = Returns (whConf, None))
  /\
  (forall (whConf whConf' served : MutatingWebhookConfiguration)
          (name : string) (req : LabelSelectorRequirement),
     addNamespaceSelectorIfNotPresent whConf name req
     = Returns (whConf', None) ->
     Webhooks served = Webhooks whConf' ->
     addNamespaceSelectorIfNotPresent served name req
     = Returns (served, None))
  /\
  (forall (kubeClient : KubernetesClient) (clientSet : Clientset)
          (whConf whConf' served : MutatingWebhookConfiguration)
          (w w1 : world) (s2 : cluster),
     DefaultRetry_Steps <> O ->
     addNamespaceSelectorIfNotPresent whConf webhookNameToChange
       requiredLabelSelector = Returns (whConf', None) ->
     GetClientset kubeClient = Ok clientSet ->
     selectWebhookConfFormCandidates candidatesNames clientSet w
     = (Returns (Some served, None), w1) ->
     Webhooks served = Webhooks whConf' ->
     MutatingWebhookConfigurations_Update clientSet served (state w1)
     = (None, s2) ->
     PatchMutatingWebhook kubeClient w
     = (Returns None,
        {| state := s2;
           calls := calls w1 ++ [Call_Webhook_Update served] |})).
Proof.
  split; [|split].
  - intros whConf name req pre wh post sel e Hw Hpre Hn Hsel He Hd.
    rewrite (addNamespaceSelector_at_first_match _ _ _ _ _ _ Hw Hpre Hn).
    rewrite Hsel. f_equal. f_equal.
    assert (Hhas : hasRequiredLabel (MatchExpressions sel) req = true).
    { apply hasRequiredLabel_true. exists e. split; assumption. }
    unfold patched_entry. rewrite Hhas.
    pose proof (set_same_selector wh sel Hsel) as Hs.
    unfold set_NamespaceSelector, set_MatchExpressions in Hs. rewrite Hs.
    unfold set_Webhooks. rewrite <- Hw. destruct whConf; reflexivity.
  - intros whConf whConf' served name req.
    apply addNamespaceSelector_again.
  - intros kubeClient clientSet whConf whConf' served w w1 s2
      Hsteps Hfirst Hcs Hsel Hserved Hupd.
    pose proof (addNamespaceSelector_again _ _ _ _ _ Hfirst Hserved) as Hagain.
    unfold PatchMutatingWebhook. rewrite Hcs.
    unfold RetryOnConflict.
    destruct DefaultRetry_Steps as [|steps]; [congruence|].
    assert (Hatt : patchAttempt clientSet w
                   = (Returns None,
                      {| state := s2;
                         calls := calls w1 ++ [Call_Webhook_Update served] |})).
    { rewrite (patchAttempt_selected _ _ _ _ _ Hsel Hagain).
      unfold invoke. rewrite Hupd. reflexivity. }
    rewrite (bind_returns _ _ _ _ _ (retryLoop_success _ _ _ _ _ Hatt)).
    reflexivity.
Qed.

(** ** Selection among the candidates *)

Lemma selectLoop_all_fail (clientSet : Clientset) (names : list string)
    (errs : list failure) (s s' : cluster) :
  fetches_fail clientSet names s errs s' ->
  forall (err : error) (cs : list call),
    selectLoop names clientSet err {| state := s; calls := cs |}
    = (Returns (None,
                errors_Wrap (match last errs with Some e => Some e | None => err end)
                  not_selected),
       {| state := s'; calls := cs ++ map Call_Webhook_Get names |}).
Proof.
  induction 1 as [s|name names s s1 s2 e errs Hget Hrest IH]; intros err cs.
  - simpl. unfold ret. rewrite app_nil_r. reflexivity.
  - cbn [selectLoop]. unfold bind, invoke. cbn [state calls]. rewrite Hget.
    rewrite IH. rewrite <- app_assoc.
    destruct errs as [|e' errs]; [reflexivity|].
    rewrite last_cons_cons.
    destruct (last (e' :: errs)) eqn:Hl; [reflexivity|].
    apply last_None in Hl. discriminate.
Qed.

Lemma selectLoop_first_success (clientSet : Clientset)
    (pre : list string) (errs : list failure) (s s1 : cluster) :
  fetches_fail clientSet pre s errs s1 ->
  forall (name : string) (post : list string)
         (wh : option MutatingWebhookConfiguration) (s2 : cluster)
         (err : error) (cs : list call),
    MutatingWebhookConfigurations_Get clientSet name s1 = (Ok wh, s2) ->
    selectLoop (pre ++ name :: post) clientSet err
      {| state := s; calls := cs |}
    = (Returns (wh, None),
       {| state := s2;
          calls := cs ++ map Call_Webhook_Get (pre ++ [name]) |}).
Proof.
  induction 1 as [s|n names s s1 s2 e errs Hget Hrest IH];
    intros name post wh s3 err cs Hok.
  - cbn [app selectLoop]. unfold bind, invoke. simpl. rewrite Hok.
    reflexivity.
  - cbn [app selectLoop]. unfold bind, invoke. simpl. rewrite Hget.
    rewrite (IH name post wh s3 (Some e) _ Hok).
    rewrite <- app_assoc. reflexivity.
Qed.

Lemma fetches_fail_last (clientSet : Clientset) (names : list string)
    (errs : list failure) (s s' : cluster) :
  fetches_fail clientSet names s errs s' ->
  names <> [] -> exists e, last errs = Some e.
Proof.
  intros H Hne. destruct H as [|name names s s1 s2 e errs _ _];
    [congruence|].
  clear Hne. revert e. induction errs as [|e' errs IH]; intros e.
  - exists e. reflexivity.
  - rewrite last_cons_cons. apply IH.
Qed.

(** C3, for candidate lists that are not empty: the candidates are fetched
    in the order of the list.  When the fetches of [pre] fail and the fetch of
    [name] after them succeeds, what it fetched is returned with no error, and
    the candidates after [name] are not fetched.  When the list is not empty
    and every fetch fails, the result is the error of the last fetch wrapped
    in the "could not be selected from candidates" message. *)
Theorem select_first_success_or_last_failure (clientSet : Clientset) :
  (forall (pre : list string) (name : string) (post : list string)
          (w : world) (errs : list failure) (s1 s2 : cluster)
          (wh : option MutatingWebhookConfiguration),
     fetches_fail clientSet pre (state w) errs s1 ->
     MutatingWebhookConfigurations_Get clientSet name s1 = (Ok wh, s2) ->
     selectWebhookConfFormCandidates (pre ++ name :: post) clientSet w
     = (Returns (wh, None),
        {| state := s2;
           calls := calls w ++ map Call_Webhook_Get (pre ++ [name]) |}))
  /\
  (forall (names : list string) (w : world) (errs : list failure)
          (s1 : cluster),
     names <> [] ->
     fetches_fail clientSet names (state w) errs s1 ->
     exists e,
       last errs = Some e
       /\ selectWebhookConfFormCandidates names clientSet w
          = (Returns (None, Some (Wrapped e not_selected)),
             {| state := s1;
                calls := calls w ++ map Call_Webhook_Get names |})).
Proof.
  split.
  - intros pre name post [s cs] errs s1 s2 wh Hfail Hok.
    unfold selectWebhookConfFormCandidates.
    apply (selectLoop_first_success _ _ _ _ _ Hfail). exact Hok.
  - intros names [s cs] errs s1 Hne Hfail.
    destruct (fetches_fail_last _ _ _ _ _ Hfail Hne) as [e He].
    exists e. split; [exact He|].
    unfold selectWebhookConfFormCandidates.
    rewrite (selectLoop_all_fail _ _ _ _ _ Hfail). rewrite He. reflexivity.
Qed.

(** ** The retry loop around the attempt *)

Lemma retryLoop_after_conflicts (fn : M error) (k : nat) (w w1 : world) :
  conflicts fn k w w1 ->
  forall (n : nat) (lastErr : error),
    retryLoop (k + S n) lastErr fn w = retryLoop (S n) lastErr fn w1.
Proof.
  induction 1 as [w|k w w1 w2 f Hfn Hc Hrest IH]; intros n lastErr.
  - reflexivity.
  - change (S k + S n)%nat with (S (k + S n)). cbn [retryLoop].
    rewrite (bind_returns _ _ _ _ _ Hfn). rewrite Hc.
    rewrite IH. reflexivity.
Qed.

Lemma retryLoop_final (fn : M error) (n : nat) (lastErr err : error)
    (w w' : world) :
  fn w = (Returns err, w') ->
  (n = O
   \/ err = None
   \/ exists f, err = Some f /\ IsConflict f = false) ->
  retryLoop (S n) lastErr fn w = (Returns err, w').
Proof.
  intros Hfn Hcase. cbn [retryLoop]. rewrite (bind_returns _ _ _ _ _ Hfn).
  destruct err as [f|]; [|reflexivity].
  destruct (IsConflict f) eqn:Hc.
  - destruct Hcase as [->|[Hn|(f' & Hf & Hc')]].
    + reflexivity.
    + discriminate.
    + injection Hf as <-. congruence.
  - reflexivity.
Qed.

(** An attempt starts with the fetch of the first candidate. *)
Lemma patchAttempt_starts_with_fetch (clientSet : Clientset) (w : world) :
  exists rest,
    calls (snd (patchAttempt clientSet w))
    = calls w ++ Call_Webhook_Get primary :: rest.
Proof.
  unfold patchAttempt, selectWebhookConfFormCandidates, candidatesNames.
  cbn [selectLoop]. unfold bind, invoke, ret, lift, deref.
  repeat match goal with
         | |- context [match ?x with _ => _ end] =>
             lazymatch x with
             | context [match _ with _ => _ end] => fail
             | _ => destruct x
             end
         end;
    cbn [snd calls state]; rewrite <- ?app_assoc; eexists; reflexivity.
Qed.

(** C6: the cycle of the patch is safe under conflicts.  With [clientSet] the
    client of [kubeClient] and [DefaultRetry_Steps] the bound on the attempts,
    one attempt is the whole cycle of selection, mutation and write.
    (a) After [k] attempts, fewer than the bound, that each ended in a
    conflict, the next attempt runs from the world those attempts left; when
    it returns no error, or an error that is not a conflict, that is the
    result of the patch and no further attempt is made.  (b) When as many
    attempts as the bound allows each end in a conflict, the patch returns
    the conflict of the last of them and makes no further attempt.  (c) Every
    attempt begins with the fetch of the first candidate.  (d) An attempt
    from any world [w], so also from the world that conflicts left, whose
    selection fetches the configuration [c] from the state of [w]: when [c]
    has no entry of the name to change, the attempt returns the "could not
    find webhook" error and writes nothing; when [wh] is its first entry of
    that name, with the selector [sel], the attempt makes exactly one write
    after its fetches, on the state the fetches left, and returns what the
    write returns; the configuration written has the metadata and the entry
    names of [c], the one just fetched, and at the place of [wh] an entry
    whose namespace selector has the labels of [sel] and its expressions,
    with the rule appended unless they hold it.  (e) An attempt whose fetches
    all fail returns the last failure, wrapped, and writes nothing. *)
Theorem patch_retries_on_conflict (kubeClient : KubernetesClient)
    (clientSet : Clientset) :
  GetClientset kubeClient = Ok clientSet ->
  (forall (k : nat) (w w1 w2 : world) (err : error),
     (k < DefaultRetry_Steps)%nat ->
     conflicts (patchAttempt clientSet) k w w1 ->
     patchAttempt clientSet w1 = (Returns err, w2) ->
     (err = None \/ exists f, err = Some f /\ IsConflict f = false) ->
     PatchMutatingWebhook kubeClient w = (Returns err, w2))
  /\
  (forall (k : nat) (w w1 w2 : world) (f : failure),
     S k = DefaultRetry_Steps ->
     conflicts (patchAttempt clientSet) k w w1 ->
     patchAttempt clientSet w1 = (Returns (Some f), w2) ->
     IsConflict f = true ->
     PatchMutatingWebhook kubeClient w = (Returns (Some f), w2))
  /\
  (forall w : world,
     exists rest,
       calls (snd (patchAttempt clientSet w))
       = calls w ++ Call_Webhook_Get primary :: rest)
  /\
  (forall (w : world) (gets : list string) (c : MutatingWebhookConfiguration)
          (s1 : cluster),
     selects clientSet (state w) gets c s1 ->
     ((forall x, x ∈ Webhooks c -> Name x <> webhookNameToChange) ->
      patchAttempt clientSet w
      = (Returns (Some (webhook_not_found webhookNameToChange c)),
         {| state := s1;
            calls := calls w ++ map Call_Webhook_Get gets |}))
     /\
     (forall (pre post : list MutatingWebhook) (wh : MutatingWebhook)
             (sel : LabelSelector),
        Webhooks c = pre ++ wh :: post ->
        (forall x, x ∈ pre -> Name x <> webhookNameToChange) ->
        Name wh = webhookNameToChange ->
        NamespaceSelector wh = Some sel ->
        exists (c' : MutatingWebhookConfiguration) (wh' : MutatingWebhook),
          Meta c' = Meta c
          /\ map Name (Webhooks c') = map Name (Webhooks c)
          /\ Webhooks c' !! length pre = Some wh'
          /\ NamespaceSelector wh'
             = Some {| MatchLabels := MatchLabels sel;
                       MatchExpressions :=
                         if hasRequiredLabel (MatchExpressions sel)
                              requiredLabelSelector
                         then MatchExpressions sel
                         else MatchExpressions sel
                              ++ [requiredLabelSelector] |}
          /\ patchAttempt clientSet w
             = (Returns
                  (fst (MutatingWebhookConfigurations_Update clientSet c'
                          s1)),
                {| state :=
                     snd (MutatingWebhookConfigurations_Update clientSet c'
                            s1);
                   calls := calls w ++ map Call_Webhook_Get gets
                            ++ [Call_Webhook_Update c'] |})))
  /\
  (forall (w : world) (errs : list failure) (s1 : cluster),
     fetches_fail clientSet candidatesNames (state w) errs s1 ->
     exists e,
       last errs = Some e
       /\ patchAttempt clientSet w
          = (Returns (Some (Wrapped e not_selected)),
             {| state := s1;
                calls := calls w ++ map Call_Webhook_Get candidatesNames |})).
Proof.
  intros Hcs. split; [|split; [|split; [|split]]].
  - intros k w w1 w2 err Hk Hconf Hfn Hcase.
    unfold PatchMutatingWebhook. rewrite Hcs. unfold RetryOnConflict.
    replace DefaultRetry_Steps
      with (k + S (DefaultRetry_Steps - S k))%nat by lia.
    assert (Hloop : retryLoop (k + S (DefaultRetry_Steps - S k)) None
                      (patchAttempt clientSet) w
                    = (Returns err, w2)).
    { rewrite (retryLoop_after_conflicts _ _ _ _ Hconf).
      apply retryLoop_final; [exact Hfn|]. right. exact Hcase. }
    rewrite (bind_returns _ _ _ _ _ Hloop). destruct err; reflexivity.
  - intros k w w1 w2 f Hk Hconf Hfn Hc.
    unfold PatchMutatingWebhook. rewrite Hcs. unfold RetryOnConflict.
    rewrite <- Hk.
    assert (Hloop : retryLoop (S k) None (patchAttempt clientSet) w
                    = (Returns (Some f), w2)).
    { replace (S k) with (k + 1)%nat by lia.
      rewrite (retryLoop_after_conflicts _ _ _ _ Hconf).
      apply retryLoop_final; [exact Hfn|]. left. reflexivity. }
    rewrite (bind_returns _ _ _ _ _ Hloop). reflexivity.
  - apply patchAttempt_starts_with_fetch.
  - intros [s cs] gets c s1
      (pre0 & name & post0 & errs & s0 & Hnames & -> & Hfail & Hget).
    assert (Hsel : selectWebhookConfFormCandidates candidatesNames clientSet
                     {| state := s; calls := cs |}
                   = (Returns (Some c, None),
                      {| state := s1;
                         calls := cs ++ map Call_Webhook_Get
                                          (pre0 ++ [name]) |})).
    { unfold selectWebhookConfFormCandidates. rewrite Hnames.
      exact (selectLoop_first_success _ _ _ _ _ Hfail name post0 (Some c) s1
               None cs Hget). }
    cbn [state calls]. split.
    + intros Hmiss. unfold patchAttempt.
      rewrite (bind_returns _ _ _ _ _ Hsel). cbn beta iota.
      unfold bind, lift, deref, ret.
      unfold addNamespaceSelectorIfNotPresent.
      rewrite scanWebhooks_miss by exact Hmiss. reflexivity.
    + intros pre post wh sel Hw Hpre Hn Hs.
      exists (set_Webhooks c
                (pre ++ patched_entry wh sel requiredLabelSelector :: post)),
        (patched_entry wh sel requiredLabelSelector).
      split; [reflexivity|]. split.
      { cbn [set_Webhooks Webhooks]. rewrite Hw, !map_app. reflexivity. }
      split.
      { cbn [set_Webhooks Webhooks]. apply list_lookup_middle. reflexivity. }
      split; [reflexivity|].
      unfold patchAttempt.
      rewrite (bind_returns _ _ _ _ _ Hsel). cbn beta iota.
      unfold bind, lift, deref, ret, invoke.
      rewrite (addNamespaceSelector_at_first_match _ _ _ _ _ _ Hw Hpre Hn),
        Hs.
      cbn [state calls].
      destruct (MutatingWebhookConfigurations_Update clientSet _ s1)
        as [e s2].
      cbn [fst snd]. rewrite <- app_assoc. reflexivity.
  - intros [s cs] errs s1 Hfail. cbn [state] in Hfail.
    destruct (fetches_fail_last _ _ _ _ _ Hfail) as [e He];
      [discriminate|].
    exists e. split; [exact He|].
    unfold patchAttempt, selectWebhookConfFormCandidates.
    unfold bind at 1.
    rewrite (selectLoop_all_fail _ _ _ _ _ Hfail). rewrite He.
    reflexivity.
Qed.

(** ** Uninstall, Install and ResetProxy *)

(** C7: when the uninstall step of the resolved commander succeeds and the
    deletion of the namespace "istio-system", asked with foreground
    propagation, fails, [Uninstall] returns the error of the deletion; and
    [Uninstall] returns no error only when both the commander's uninstall and
    the deletion of the namespace returned none. *)
Theorem Uninstall_surfaces_deletion_failure (c : DefaultIstioPerformer)
    (kubeClientSet : KubernetesClient) (version : string) (w : world) :
  (forall (execVersion : istioctl_Version) (commander : Commander)
          (kubeClient : Clientset) (s1 s2 : cluster) (e : failure),
     VersionFromString version = Ok execVersion ->
     GetCommander (resolver c) execVersion = Ok commander ->
     Commander_Uninstall commander (Kubeconfig kubeClientSet) (state w)
     = (None, s1) ->
     GetClientset kubeClientSet = Ok kubeClient ->
     Namespaces_Delete kubeClient "istio-system" foreground_deletion s1
     = (Some e, s2) ->
     Uninstall c kubeClientSet version w
     = (Returns (Some e),
        {| state := s2;
           calls := calls w
                    ++ [Call_Uninstall (Kubeconfig kubeClientSet);
                        Call_Namespaces_Delete "istio-system"
                          foreground_deletion] |}))
  /\
  (forall w' : world,
     Uninstall c kubeClientSet version w = (Returns None, w') ->
     exists (execVersion : istioctl_Version) (commander : Commander)
            (kubeClient : Clientset) (s1 : cluster),
       VersionFromString version = Ok execVersion
       /\ GetCommander (resolver c) execVersion = Ok commander
       /\ Commander_Uninstall commander (Kubeconfig kubeClientSet) (state w)
          = (None, s1)
       /\ GetClientset kubeClientSet = Ok kubeClient
       /\ Namespaces_Delete kubeClient "istio-system" foreground_deletion s1
          = (None, state w')).
Proof.
  split.
  - intros execVersion commander kubeClient s1 s2 e Hv Hc Hu Hk Hd.
    unfold Uninstall. rewrite Hv, Hc.
    unfold bind, invoke. rewrite Hu. cbn [state calls]. rewrite Hk.
    unfold bind, invoke. cbn [state calls].
    change {| PropagationPolicy := Some DeletePropagationForeground |}
      with foreground_deletion.
    rewrite Hd. rewrite <- app_assoc. reflexivity.
  - intros w'. unfold Uninstall.
    destruct (VersionFromString version) as [execVersion|e] eqn:Hv;
      [|discriminate].
    destruct (GetCommander (resolver c) execVersion) as [commander|e] eqn:Hc;
      [|discriminate].
    unfold bind, invoke.
    destruct (Commander_Uninstall commander (Kubeconfig kubeClientSet)
                (state w)) as [[f|] s1] eqn:Hu; [discriminate|].
    cbn [state calls].
    destruct (GetClientset kubeClientSet) as [kubeClient|e] eqn:Hk;
      [|discriminate].
    unfold bind, invoke. cbn [state calls].
    change {| PropagationPolicy := Some DeletePropagationForeground |}
      with foreground_deletion.
    destruct (Namespaces_Delete kubeClient "istio-system" foreground_deletion
                s1) as [[f|] s2] eqn:Hd; [discriminate|].
    intros H. injection H as <-.
    exists execVersion, commander, kubeClient, s1. auto.
Qed.

(** C8: when the parsing of the version, the extraction of the manifest or
    the resolution of the commander fails, [Install] returns that error (the
    parse error wrapped in "Error parsing version", the other two as they
    are) and leaves the world as it found it: no call is recorded, so the
    commander's install is never invoked and the cluster is untouched. *)
Theorem Install_aborts_before_mutation (c : DefaultIstioPerformer)
    (kubeConfig istioChart version : string) (w : world) :
  (forall e : failure,
     VersionFromString version = Failed e ->
     Install c kubeConfig istioChart version w
     = (Returns (Some (Wrapped e "Error parsing version")), w))
  /\
  (forall (execVersion : istioctl_Version) (e : failure),
     VersionFromString version = Ok execVersion ->
     ExtractIstioOperatorContextFrom istioChart = Failed e ->
     Install c kubeConfig istioChart version w = (Returns (Some e), w))
  /\
  (forall (execVersion : istioctl_Version) (istioOperatorManifest : string)
          (e : failure),
     VersionFromString version = Ok execVersion ->
     ExtractIstioOperatorContextFrom istioChart = Ok istioOperatorManifest ->
     GetCommander (resolver c) execVersion = Failed e ->
     Install c kubeConfig istioChart version w = (Returns (Some e), w)).
Proof.
  split; [|split].
  - intros e Hv. unfold Install. rewrite Hv. reflexivity.
  - intros execVersion e Hv Hm. unfold Install. rewrite Hv, Hm. reflexivity.
  - intros execVersion istioOperatorManifest e Hv Hm Hc.
    unfold Install. rewrite Hv, Hm, Hc. reflexivity.
Qed.

(** C9: for every tag, once the client of the cluster is retrieved from the
    kubeconfig, [ResetProxy] makes exactly one call, [Run], with the
    configuration whose image prefix is "istio/proxyv2", whose image version
    is the tag followed by "-distroless", and whose retries, delay, timeout
    and interval are 5, 5 s, 5 min and 12 s; it returns the error of [Run]
    wrapped in "Istio proxy reset error", and no error when [Run] returns
    none. *)
Theorem ResetProxy_builds_config (c : DefaultIstioPerformer)
    (kubeConfig proxyImageVersion : string) (w : world)
    (kubeClient : Clientset) :
  RetrieveFrom (provider c) kubeConfig = Ok kubeClient ->
  let cfg := expected_proxy_config proxyImageVersion kubeClient in
  ResetProxy c kubeConfig proxyImageVersion w
  = (Returns (errors_Wrap (fst (Run (istioProxyReset c) cfg (state w)))
                "Istio proxy reset error"),
     {| state := snd (Run (istioProxyReset c) cfg (state w));
        calls := calls w ++ [Call_ProxyReset_Run cfg] |}).
Proof.
  intros Hk cfg. unfold ResetProxy. rewrite Hk.
  change {| ImagePrefix := istioImagePrefix;
            ImageVersion := proxyImageVersion +:+ "-distroless";
            RetriesCount := retriesCount;
            DelayBetweenRetries := delayBetweenRetries;
            Timeout := timeout;
            Interval := interval;
            Kubeclient := kubeClient;
            Debug := false |} with cfg.
  unfold bind, invoke.
  destruct (Run (istioProxyReset c) cfg (state w)) as [[f|] s]; reflexivity.
Qed.

(** ** The target version of a chart *)

(** C2: the target version is resolved from two sources in a fixed order.
    For a chart that the workspace and the loader deliver and whose values
    decode, the version under [global.images.istio_pilot.version] is returned
    when it is not empty, whatever the chart's [AppVersion] is; when it is
    empty the [AppVersion] is returned if that is not empty; and when both
    are empty the resolution fails with the error saying that the version was
    found neither in Chart.yaml nor in the helm values. *)
Theorem target_version_precedence (workspace : Factory)
    (branch istioChart resourceDir : string) (helmChart : Chart)
    (mapAsJSON : list byte) (values : chartValues) :
  Factory_Get workspace branch = Ok resourceDir ->
  loader_Load (filepath_Join resourceDir istioChart) = Ok helmChart ->
  json_Marshal (ChartValues helmChart) = Ok mapAsJSON ->
  json_Unmarshal_chartValues mapAsJSON = Ok values ->
  let pilotVersion := Global_Images_IstioPilot_Version values in
  (pilotVersion <> "" ->
   getTargetVersionFromIstioChart workspace branch istioChart
   = Returns (pilotVersion, None))
  /\
  (forall md : ChartMetadata,
     pilotVersion = "" ->
     Metadata helmChart = Some md ->
     AppVersion md <> "" ->
     getTargetVersionFromIstioChart workspace branch istioChart
     = Returns (AppVersion md, None))
  /\
  (forall md : ChartMetadata,
     pilotVersion = "" ->
     Metadata helmChart = Some md ->
     AppVersion md = "" ->
     getTargetVersionFromIstioChart workspace branch istioChart
     = Returns ("",
                Some (New "Target Istio version could not be found neither in Chart.yaml nor in helm values"))).
Proof.
  intros Hws Hload Hm Hu pilotVersion.
  unfold getTargetVersionFromIstioChart. rewrite Hws, Hload.
  unfold getTargetVersionFromPilotInChartValues. rewrite Hm, Hu.
  fold pilotVersion.
  split; [|split].
  - intros Hne. apply String.eqb_neq in Hne. rewrite Hne. reflexivity.
  - intros md He Hmd Hne. rewrite He. simpl.
    unfold getTargetVersionFromAppVersionInChartDefinition. rewrite Hmd.
    simpl. apply String.eqb_neq in Hne. rewrite Hne. reflexivity.
  - intros md He Hmd Ha. rewrite He. simpl.
    unfold getTargetVersionFromAppVersionInChartDefinition. rewrite Hmd.
    simpl. rewrite Ha. reflexivity.
Qed.

(** ** The mapping of the version output *)

(** Empty output is an error. *)
Lemma mapVersionToStruct_empty (targetVersion : string) :
  mapVersionToStruct [] targetVersion
  = Returns (IstioStatus_zero,
             Some (New "the result of the version command is empty")).
Proof. reflexivity. Qed.

Lemma indexByteFrom_first (i : Z) (noise rest : list byte) (c : byte) :
  (forall b, b ∈ noise -> b <> c) ->
  indexByteFrom i (noise ++ c :: rest) c = i + len noise.
Proof.
  revert i. induction noise as [|b noise IH]; intros i Hn; simpl.
  - rewrite (@byte_dec_lb c c eq_refl). unfold len. simpl. lia.
  - destruct (Byte.eqb b c) eqn:E.
    + apply byte_dec_bl in E. exfalso. apply (Hn b); [left|exact E].
    + rewrite IH by (intros x Hx; apply Hn; right; exact Hx).
      unfold len. simpl length. lia.
Qed.

(** Whatever comes before the first opening brace is cut off before the
    output is parsed. *)
Lemma mapVersionToStruct_cuts_banner (noise rest : list byte)
    (targetVersion : string) :
  (forall b, b ∈ noise -> b <> "{"%byte) ->
  mapVersionToStruct (noise ++ "{"%byte :: rest) targetVersion
  = mapVersionToStruct ("{"%byte :: rest) targetVersion.
Proof.
  intros Hn. destruct noise as [|b noise]; [reflexivity|].
  unfold mapVersionToStruct at 1.
  change (len ((b :: noise) ++ "{"%byte :: rest) =? 0) with false.
  cbn iota. unfold bytes_IndexRune.
  rewrite indexByteFrom_first by exact Hn.
  assert (Hlen : 0 < len (b :: noise)) by (unfold len; simpl length; lia).
  assert (Hall : len ((b :: noise) ++ "{"%byte :: rest)
                 = len (b :: noise) + 1 + len rest).
  { unfold len. rewrite length_app. simpl length. lia. }
  destruct (Z.eqb_spec (0 + len (b :: noise)) 0) as [E|_]; [lia|].
  cbn [negb]. unfold slice_from.
  destruct (Z.ltb_spec (0 + len (b :: noise)) 0) as [E|_]; [lia|].
  destruct (Z.ltb_spec (len ((b :: noise) ++ "{"%byte :: rest))
              (0 + len (b :: noise))) as [E|_];
    [unfold len in *; lia|].
  cbn [orb outcome_bind].
  replace (Z.to_nat (0 + len (b :: noise))) with (length (b :: noise))
    by (unfold len; lia).
  rewrite drop_app_length. reflexivity.
Qed.

Lemma indexByteFrom_absent (i : Z) (s : list byte) (c : byte) :
  (forall b, b ∈ s -> b <> c) -> indexByteFrom i s c = -1.
Proof.
  revert i. induction s as [|b s IH]; intros i Hn; simpl; [reflexivity|].
  destruct (Byte.eqb b c) eqn:E.
  - apply byte_dec_bl in E. exfalso. apply (Hn b); [left|exact E].
  - apply IH. intros x Hx. apply Hn. right. exact Hx.
Qed.

(** Output that is not empty and holds no opening brace makes the mapping
    panic. *)
Lemma mapVersionToStruct_no_brace (versionOutput : list byte)
    (targetVersion : string) :
  versionOutput <> [] ->
  (forall b, b ∈ versionOutput -> b <> "{"%byte) ->
  mapVersionToStruct versionOutput targetVersion
  = Panics (SliceBoundsOutOfRange (-1)).
Proof.
  intros Hne Hn. destruct versionOutput as [|b bs]; [congruence|].
  unfold mapVersionToStruct.
  change (len (b :: bs) =? 0) with false. cbn iota.
  unfold bytes_IndexRune. rewrite indexByteFrom_absent by exact Hn.
  reflexivity.
Qed.

(** Output that does not parse is an error: the error of the parser. *)
Lemma mapVersionToStruct_unparseable (rest : list byte)
    (targetVersion : string) (err : failure) :
  json_Unmarshal_IstioVersionOutput ("{"%byte :: rest) = Failed err ->
  mapVersionToStruct ("{"%byte :: rest) targetVersion
  = Returns (IstioStatus_zero, Some err).
Proof.
  intros H. unfold mapVersionToStruct.
  change (len ("{"%byte :: rest) =? 0) with false. cbn iota.
  change (bytes_IndexRune ("{"%byte :: rest) "{"%byte) with 0.
  simpl. rewrite H. reflexivity.
Qed.

(** Absent lists give the empty string. *)
Lemma getVersionFromJSON_absent_lists (json : IstioVersionOutput) :
  (Output_MeshVersion json = [] ->
   getVersionFromJSON "pilot" json = Returns "")
  /\
  (Output_DataPlaneVersion json = [] ->
   getVersionFromJSON "dataPlane" json = Returns "").
Proof.
  split; intros H; unfold getVersionFromJSON; simpl; rewrite H; reflexivity.
Qed.

(** C4, where the code departs from it: an absent [clientVersion] object is
    not tolerated.  With the [ClientVersion] pointer nil, the "client" case
    of [getVersionFromJSON] panics on the nil pointer, and so does
    [mapVersionToStruct] on any output that starts with the opening brace and
    parses to such a value. *)
Theorem absent_clientVersion_panics :
  (forall json : IstioVersionOutput,
     Output_ClientVersion json = None ->
     getVersionFromJSON "client" json = Panics NilDereference)
  /\
  (forall (versionOutput : list byte) (targetVersion : string)
          (version : IstioVersionOutput),
     bytes_IndexRune versionOutput "{"%byte = 0 ->
     json_Unmarshal_IstioVersionOutput versionOutput = Ok version ->
     Output_ClientVersion version = None ->
     mapVersionToStruct versionOutput targetVersion = Panics NilDereference).
Proof.
  split.
  - intros json H. unfold getVersionFromJSON. simpl. rewrite H. reflexivity.
  - intros versionOutput targetVersion version Hi Hu Hc.
    unfold mapVersionToStruct.
    destruct versionOutput as [|b bs]; [discriminate|].
    change (len (b :: bs) =? 0) with false. cbn iota.
    rewrite Hi. simpl. rewrite Hu.
    unfold getVersionFromJSON at 1. simpl. rewrite Hc. reflexivity.
Qed.

(** C5, where the code departs from it: on output without any opening brace
    [bytes.IndexRune] is [-1], and the slice expression with that bound
    panics; no error is returned. *)
Theorem output_without_brace_panics (targetVersion : string) :
  mapVersionToStruct (list_byte_of_string "command not found") targetVersion
  = Panics (SliceBoundsOutOfRange (-1)).
Proof. reflexivity. Qed.

End Properties.


(** * Further properties *)

(** ** The mutation step keeps the rule single *)

Lemma occurrences_app (req : LabelSelectorRequirement)
    (a b : list LabelSelectorRequirement) :
  occurrences req (a ++ b) = (occurrences req a + occurrences req b)%nat.
Proof. unfold occurrences. rewrite List.filter_app, length_app. reflexivity. Qed.

Lemma hasRequiredLabel_occurrences (mes : list LabelSelectorRequirement)
    (req : LabelSelectorRequirement) :
  hasRequiredLabel mes req = negb (occurrences req mes =? 0)%nat.
Proof.
  induction mes as [|e mes IH]; [reflexivity|].
  unfold occurrences in *. simpl.
  destruct (DeepEqual e req); [reflexivity|exact IH].
Qed.

(** The step never duplicates the rule, whatever is shared on the heap.
    When it finds the target entry [wh], whose namespace selector is at [p]
    and holds a slice within its array, the step returns no error, the
    selector at [p] shows the rule afterwards, and shows as many expressions
    deeply equal to the rule as before, or one when there was none: the step
    never adds a second copy and never removes one. *)
Theorem addNamespaceSelector_no_duplicate
    (growslice : nat -> nat -> nat) (h : Heap.heap)
    (whConf : Heap.MutatingWebhookConfiguration) (name : string)
    (req : LabelSelectorRequirement)
    (pre post : list Heap.MutatingWebhook) (wh : Heap.MutatingWebhook)
    (p : nat) :
  Heap.Webhooks whConf = pre ++ wh :: post ->
  (forall w, w ∈ pre -> Heap.Name w <> name) ->
  Heap.Name wh = name ->
  Heap.NamespaceSelector wh = Some p ->
  slice_ok h (Heap.MatchExpressions (Heap.selectors h p)) ->
  exists h',
    Heap.addNamespaceSelectorIfNotPresent growslice h whConf name req
    = Returns (h', None)
    /\ req ∈ MatchExpressions (view_selector h' p)
    /\ occurrences req (MatchExpressions (view_selector h' p))
       = Nat.max 1 (occurrences req (MatchExpressions (view_selector h p))).
Proof.
  intros Hw Hpre Hn Hp Hok.
  destruct (heap_patch_view growslice h wh p req Hp Hok)
    as (h' & Hstep & Htarget & _).
  exists h'. split.
  { unfold Heap.addNamespaceSelectorIfNotPresent. rewrite Hw.
    rewrite heap_scan_skip by assumption. exact Hstep. }
  rewrite Htarget. cbn [MatchExpressions].
  set (old := MatchExpressions (view_selector h p)).
  pose proof (hasRequiredLabel_occurrences old req) as Ho.
  destruct (hasRequiredLabel old req) eqn:Hhas.
  - split.
    + apply hasRequiredLabel_true in Hhas as (e & He & Hd).
      apply DeepEqual_eq in Hd. subst e. exact He.
    + destruct (occurrences req old); [discriminate|lia].
  - split.
    + apply elem_of_app. right. left.
    + rewrite occurrences_app.
      destruct (occurrences req old); [|discriminate].
      unfold occurrences. simpl. rewrite DeepEqual_refl. reflexivity.
Qed.

Lemma addNamespaceSelector_holds_rule
    (whConf whConf' : MutatingWebhookConfiguration) (name : string)
    (req : LabelSelectorRequirement) :
  addNamespaceSelectorIfNotPresent whConf name req = Returns (whConf', None) ->
  holds_rule name req whConf'.
Proof.
  intros Hadd.
  destruct (first_match_split name (Webhooks whConf))
    as [Hn|(pre & wh & post & Hw & Hpre & Hn)].
  - unfold addNamespaceSelectorIfNotPresent in Hadd.
    rewrite scanWebhooks_miss in Hadd by exact Hn. discriminate.
  - rewrite (addNamespaceSelector_at_first_match _ _ _ _ _ _ Hw Hpre Hn)
      in Hadd.
    destruct (NamespaceSelector wh) as [sel|] eqn:Hsel; [|discriminate].
    injection Hadd as <-.
    exists pre, (patched_entry wh sel req), post.
    eexists. split; [reflexivity|]. split; [exact Hpre|].
    split; [exact Hn|]. split; [reflexivity|].
    cbn [MatchExpressions].
    destruct (hasRequiredLabel (MatchExpressions sel) req) eqn:Hhas.
    + apply hasRequiredLabel_true in Hhas as (e & He & Hd).
      apply DeepEqual_eq in Hd. subst e. exact He.
    + apply elem_of_app. right. left.
Qed.

Section MoreProperties.
Context {U : Universe} {P : Packages}.

(** ** Selection and one attempt of the patch *)

Lemma selectLoop_prefix (clientSet : Clientset) (names : list string) :
  forall (err : error) (w : world),
    exists (k : nat) (wh : option MutatingWebhookConfiguration) (err' : error),
      (k <= length names)%nat
      /\ (names <> [] -> (0 < k)%nat)
      /\ fst (selectLoop names clientSet err w) = Returns (wh, err')
      /\ (err' <> None -> wh = None)
      /\ calls (snd (selectLoop names clientSet err w))
         = calls w ++ map Call_Webhook_Get (take k names).
Proof.
  induction names as [|name names IH]; intros err w.
  - exists 0%nat, None, (errors_Wrap err not_selected).
    cbn. rewrite app_nil_r. repeat split; try lia; congruence.
  - cbn [selectLoop]. unfold bind, invoke.
    destruct (MutatingWebhookConfigurations_Get clientSet name (state w))
      as [[wh|e] s].
    + exists 1%nat, wh, None. cbn. rewrite take_0.
      repeat split; try lia; congruence.
    + destruct (IH (Some e)
                  {| state := s; calls := calls w ++ [Call_Webhook_Get name] |})
        as (k & wh & err' & Hk & _ & Hres & Hnil & Hcalls).
      exists (S k), wh, err'. cbn [length take map].
      rewrite Hcalls. cbn [calls]. rewrite <- app_assoc.
      repeat split; try lia; assumption.
Qed.

(** Whatever the cluster answers, the selection only fetches: it returns
    (it does not panic), it never returns a configuration together with an
    error, and the calls it makes are the fetches of a prefix of the
    candidates, in their order, at least one when there is a candidate. *)
Theorem select_only_fetches_a_prefix (clientSet : Clientset)
    (names : list string) (w : world) :
  exists (k : nat) (wh : option MutatingWebhookConfiguration) (err : error),
    (k <= length names)%nat
    /\ (names <> [] -> (0 < k)%nat)
    /\ fst (selectWebhookConfFormCandidates names clientSet w)
       = Returns (wh, err)
    /\ (err <> None -> wh = None)
    /\ calls (snd (selectWebhookConfFormCandidates names clientSet w))
       = calls w ++ map Call_Webhook_Get (take k names).
Proof. apply selectLoop_prefix. Qed.

(** An attempt fetches the first candidate, or the first and the second, and
    then writes at most once, as its last call; the configuration it writes
    holds the required rule at the entry to change. *)
Theorem patchAttempt_writes_the_rule (clientSet : Clientset) (w : world) :
  exists (gets : list string) (tail : list call),
    calls (snd (patchAttempt clientSet w))
    = calls w ++ map Call_Webhook_Get gets ++ tail
    /\ (gets = [primary] \/ gets = [primary; secondary])
    /\ (tail = []
        \/ exists c,
             tail = [Call_Webhook_Update c]
             /\ holds_rule webhookNameToChange requiredLabelSelector c).
Proof.
  destruct (selectLoop_prefix clientSet candidatesNames None w)
    as (k & wh & err & Hk & Hpos & Hres & _ & Hcalls).
  fold (selectWebhookConfFormCandidates candidatesNames clientSet) in *.
  destruct (selectWebhookConfFormCandidates candidatesNames clientSet w)
    as [o w1] eqn:Hsel.
  cbn [fst snd] in Hres, Hcalls. subst o.
  unfold patchAttempt. rewrite (bind_returns _ _ _ _ _ Hsel).
  exists (take k candidatesNames).
  assert (Hgets : take k candidatesNames = [primary]
                  \/ take k candidatesNames = [primary; secondary]).
  { cbn [length candidatesNames] in Hk.
    destruct k as [|[|k]].
    - exfalso. assert (0 < 0)%nat by (apply Hpos; discriminate). lia.
    - left. reflexivity.
    - right. unfold candidatesNames. cbn [take]. rewrite take_nil.
      reflexivity. }
  assert (Hnone : exists tail : list call,
            calls w1 = calls w ++ map Call_Webhook_Get (take k candidatesNames)
                       ++ tail
            /\ (tail = []
                \/ exists c,
                     tail = [Call_Webhook_Update c]
                     /\ holds_rule webhookNameToChange requiredLabelSelector
                          c)).
  { exists []. rewrite app_nil_r. auto. }
  destruct err as [f|].
  { destruct Hnone as (tail & Hc & Ht). exists tail. cbn. auto. }
  destruct wh as [c|].
  2:{ destruct Hnone as (tail & Hc & Ht). exists tail. cbn. auto. }
  unfold bind, lift, deref, ret, invoke.
  destruct (addNamespaceSelectorIfNotPresent c webhookNameToChange
              requiredLabelSelector) as [[c' [e|]]|p] eqn:Hadd.
  - destruct Hnone as (tail & Hc & Ht). exists tail. cbn. auto.
  - destruct (MutatingWebhookConfigurations_Update clientSet c' (state w1))
      as [e s'].
    exists [Call_Webhook_Update c']. cbn [snd calls]. rewrite Hcalls.
    rewrite <- app_assoc.
    split; [reflexivity|]. split; [exact Hgets|].
    right. exists c'. split; [reflexivity|].
    exact (addNamespaceSelector_holds_rule _ _ _ _ Hadd).
  - destruct Hnone as (tail & Hc & Ht). exists tail. cbn. auto.
Qed.

(** An attempt that cannot select a configuration, or that selects one
    without the entry to change, writes nothing: it returns the error of the
    selection, or the "could not find webhook" error, in the world the
    selection left.  A selection that yields neither a configuration nor an
    error makes the attempt panic. *)
Theorem patchAttempt_failure_writes_nothing (clientSet : Clientset)
    (w w1 : world) :
  (forall (wh : option MutatingWebhookConfiguration) (e : failure),
     selectWebhookConfFormCandidates candidatesNames clientSet w
     = (Returns (wh, Some e), w1) ->
     patchAttempt clientSet w = (Returns (Some e), w1))
  /\
  (forall c : MutatingWebhookConfiguration,
     selectWebhookConfFormCandidates candidatesNames clientSet w
     = (Returns (Some c, None), w1) ->
     (forall wh, wh ∈ Webhooks c -> Name wh <> webhookNameToChange) ->
     patchAttempt clientSet w
     = (Returns (Some (webhook_not_found webhookNameToChange c)), w1))
  /\
  (selectWebhookConfFormCandidates candidatesNames clientSet w
   = (Returns (None, None), w1) ->
   patchAttempt clientSet w = (Panics NilDereference, w1)).
Proof.
  split; [|split].
  - intros wh e Hsel. unfold patchAttempt.
    rewrite (bind_returns _ _ _ _ _ Hsel). reflexivity.
  - intros c Hsel Hmiss. unfold patchAttempt.
    rewrite (bind_returns _ _ _ _ _ Hsel). cbn beta iota.
    unfold bind, lift, deref, ret.
    unfold addNamespaceSelectorIfNotPresent.
    rewrite scanWebhooks_miss by exact Hmiss. reflexivity.
  - intros Hsel. unfold patchAttempt.
    rewrite (bind_returns _ _ _ _ _ Hsel). reflexivity.
Qed.

(** An attempt that selects a configuration with the entry to change writes
    back what the heap shows once the mutation step has run on it, as its
    only write, and returns what the write returns.  The configuration
    fetched is the one the heap [h] shows of [hc]; the namespace selector of
    its target entry [wh] is at [p], holds a slice within its array and
    shares nothing with the other selectors of [hc], as in a configuration
    decoded from a reply of the API server.  Then what is written is the
    configuration fetched with nothing changed but the rule at that entry,
    appended or left as found. *)
Theorem patchAttempt_writes_back_the_fetched
    (growslice : nat -> nat -> nat) (clientSet : Clientset) (w w1 : world)
    (h : Heap.heap) (hc : Heap.MutatingWebhookConfiguration)
    (pre post : list Heap.MutatingWebhook) (wh : Heap.MutatingWebhook)
    (p : nat) :
  selectWebhookConfFormCandidates candidatesNames clientSet w
  = (Returns (Some (view h hc), None), w1) ->
  Heap.Webhooks hc = pre ++ wh :: post ->
  (forall x, x ∈ pre -> Heap.Name x <> webhookNameToChange) ->
  Heap.Name wh = webhookNameToChange ->
  Heap.NamespaceSelector wh = Some p ->
  slice_ok h (Heap.MatchExpressions (Heap.selectors h p)) ->
  separated h p wh (pre ++ post) ->
  exists h' : Heap.heap,
    Heap.addNamespaceSelectorIfNotPresent growslice h hc webhookNameToChange
      requiredLabelSelector
    = Returns (h', None)
    /\ view h' hc
       = {| Meta := Heap.Meta hc;
            Webhooks :=
              (view_webhook h <$> pre)
              ++ patched_entry (view_webhook h wh) (view_selector h p)
                   requiredLabelSelector
              :: (view_webhook h <$> post) |}
    /\ patchAttempt clientSet w
       = (Returns
            (fst (MutatingWebhookConfigurations_Update clientSet (view h' hc)
                    (state w1))),
          {| state :=
               snd (MutatingWebhookConfigurations_Update clientSet
                      (view h' hc) (state w1));
             calls := calls w1 ++ [Call_Webhook_Update (view h' hc)] |}).
Proof.
  intros Hsel Hw Hpre Hn Hp Hok Hsep.
  destruct (heap_step_view growslice h hc webhookNameToChange
              requiredLabelSelector pre post wh p Hw Hpre Hn Hp Hok Hsep)
    as (h' & Hstep & Hview).
  destruct (heap_step_refines growslice h hc webhookNameToChange
              requiredLabelSelector pre post wh p Hw Hpre Hn Hp Hok Hsep)
    as (h'' & Hstep' & Hvalue).
  rewrite Hstep in Hstep'. injection Hstep' as <-.
  exists h'. split; [exact Hstep|]. split; [exact Hview|].
  unfold patchAttempt.
  rewrite (bind_returns _ _ _ _ _ Hsel). cbn beta iota.
  unfold bind, lift, deref, ret, invoke.
  rewrite Hvalue.
  destruct (MutatingWebhookConfigurations_Update clientSet (view h' hc)
              (state w1)) as [e s].
  reflexivity.
Qed.

(** ** Install, Update, Uninstall and ResetProxy, on all their paths *)

(** Once the version parses, the manifest is extracted and the commander is
    resolved, [Install] makes exactly one call, the commander's install with
    the extracted manifest and the kubeconfig, and returns its error wrapped
    in "Error occurred when calling istioctl".  And [Install] returns no
    error only on that path, with an install that returned none. *)
Theorem Install_calls_the_commander_once (c : DefaultIstioPerformer)
    (kubeConfig istioChart version : string) (w : world) :
  (forall (execVersion : istioctl_Version) (manifest : string)
          (commander : Commander),
     VersionFromString version = Ok execVersion ->
     ExtractIstioOperatorContextFrom istioChart = Ok manifest ->
     GetCommander (resolver c) execVersion = Ok commander ->
     Install c kubeConfig istioChart version w
     = (Returns
          (errors_Wrap
             (fst (Commander_Install commander manifest kubeConfig (state w)))
             "Error occurred when calling istioctl"),
        {| state :=
             snd (Commander_Install commander manifest kubeConfig (state w));
           calls := calls w ++ [Call_Install manifest kubeConfig] |}))
  /\
  (forall w' : world,
     Install c kubeConfig istioChart version w = (Returns None, w') ->
     exists (execVersion : istioctl_Version) (manifest : string)
            (commander : Commander),
       VersionFromString version = Ok execVersion
       /\ ExtractIstioOperatorContextFrom istioChart = Ok manifest
       /\ GetCommander (resolver c) execVersion = Ok commander
       /\ Commander_Install commander manifest kubeConfig (state w)
          = (None, state w')
       /\ calls w' = calls w ++ [Call_Install manifest kubeConfig]).
Proof.
  split.
  - intros execVersion manifest commander Hv Hm Hc.
    unfold Install. rewrite Hv, Hm, Hc. unfold bind, invoke.
    destruct (Commander_Install commander manifest kubeConfig (state w))
      as [[e|] s]; reflexivity.
  - intros w'. unfold Install.
    destruct (VersionFromString version) as [execVersion|e] eqn:Hv;
      [|discriminate].
    destruct (ExtractIstioOperatorContextFrom istioChart) as [manifest|e]
      eqn:Hm; [|discriminate].
    destruct (GetCommander (resolver c) execVersion) as [commander|e] eqn:Hc;
      [|discriminate].
    unfold bind, invoke.
    destruct (Commander_Install commander manifest kubeConfig (state w))
      as [[e|] s] eqn:Hi; [discriminate|].
    intros Hr. injection Hr as <-.
    exists execVersion, manifest, commander.
    repeat split; try reflexivity; assumption.
Qed.

(** [Update] has the shape of [Install] with the commander's upgrade: a
    failure to parse the target version (wrapped in "Error parsing version"),
    to extract the manifest or to resolve the commander (both as they are) is
    returned with the world untouched; otherwise there is exactly one call,
    the upgrade, whose error comes back wrapped in "Error occurred when
    calling istioctl". *)
Theorem Update_aborts_or_upgrades_once (c : DefaultIstioPerformer)
    (kubeConfig istioChart targetVersion : string) (w : world) :
  (forall e : failure,
     VersionFromString targetVersion = Failed e ->
     Update c kubeConfig istioChart targetVersion w
     = (Returns (Some (Wrapped e "Error parsing version")), w))
  /\
  (forall (version : istioctl_Version) (e : failure),
     VersionFromString targetVersion = Ok version ->
     ExtractIstioOperatorContextFrom istioChart = Failed e ->
     Update c kubeConfig istioChart targetVersion w = (Returns (Some e), w))
  /\
  (forall (version : istioctl_Version) (manifest : string) (e : failure),
     VersionFromString targetVersion = Ok version ->
     ExtractIstioOperatorContextFrom istioChart = Ok manifest ->
     GetCommander (resolver c) version = Failed e ->
     Update c kubeConfig istioChart targetVersion w = (Returns (Some e), w))
  /\
  (forall (version : istioctl_Version) (manifest : string)
          (commander : Commander),
     VersionFromString targetVersion = Ok version ->
     ExtractIstioOperatorContextFrom istioChart = Ok manifest ->
     GetCommander (resolver c) version = Ok commander ->
     Update c kubeConfig istioChart targetVersion w
     = (Returns
          (errors_Wrap
             (fst (Commander_Upgrade commander manifest kubeConfig (state w)))
             "Error occurred when calling istioctl"),
        {| state :=
             snd (Commander_Upgrade commander manifest kubeConfig (state w));
           calls := calls w ++ [Call_Upgrade manifest kubeConfig] |})).
Proof.
  repeat split.
  - intros e Hv. unfold Update. rewrite Hv. reflexivity.
  - intros version e Hv Hm. unfold Update. rewrite Hv, Hm. reflexivity.
  - intros version manifest e Hv Hm Hc. unfold Update.
    rewrite Hv, Hm, Hc. reflexivity.
  - intros version manifest commander Hv Hm Hc. unfold Update.
    rewrite Hv, Hm, Hc. unfold bind, invoke.
    destruct (Commander_Upgrade commander manifest kubeConfig (state w))
      as [[e|] s]; reflexivity.
Qed.

(** The paths on which [Uninstall] stops early.  A version that does not
    parse, or no commander for it: the error comes back (the first wrapped in
    "Error parsing version") and nothing is called.  A failing uninstall of
    the commander: its error comes back wrapped in "Error occurred when
    calling istioctl" and the namespace is not deleted.  A client that cannot
    be had after the uninstall went through: the error comes back, the
    uninstall has happened and the namespace is not deleted. *)
Theorem Uninstall_stops_before_the_namespace (c : DefaultIstioPerformer)
    (kubeClientSet : KubernetesClient) (version : string) (w : world) :
  (forall e : failure,
     VersionFromString version = Failed e ->
     Uninstall c kubeClientSet version w
     = (Returns (Some (Wrapped e "Error parsing version")), w))
  /\
  (forall (execVersion : istioctl_Version) (e : failure),
     VersionFromString version = Ok execVersion ->
     GetCommander (resolver c) execVersion = Failed e ->
     Uninstall c kubeClientSet version w = (Returns (Some e), w))
  /\
  (forall (execVersion : istioctl_Version) (commander : Commander)
          (e : failure) (s1 : cluster),
     VersionFromString version = Ok execVersion ->
     GetCommander (resolver c) execVersion = Ok commander ->
     Commander_Uninstall commander (Kubeconfig kubeClientSet) (state w)
     = (Some e, s1) ->
     Uninstall c kubeClientSet version w
     = (Returns (Some (Wrapped e "Error occurred when calling istioctl")),
        {| state := s1;
           calls := calls w ++ [Call_Uninstall (Kubeconfig kubeClientSet)] |}))
  /\
  (forall (execVersion : istioctl_Version) (commander : Commander)
          (e : failure) (s1 : cluster),
     VersionFromString version = Ok execVersion ->
     GetCommander (resolver c) execVersion = Ok commander ->
     Commander_Uninstall commander (Kubeconfig kubeClientSet) (state w)
     = (None, s1) ->
     GetClientset kubeClientSet = Failed e ->
     Uninstall c kubeClientSet version w
     = (Returns (Some e),
        {| state := s1;
           calls := calls w ++ [Call_Uninstall (Kubeconfig kubeClientSet)] |})).
Proof.
  repeat split.
  - intros e Hv. unfold Uninstall. rewrite Hv. reflexivity.
  - intros execVersion e Hv Hc. unfold Uninstall. rewrite Hv, Hc. reflexivity.
  - intros execVersion commander e s1 Hv Hc Hu. unfold Uninstall.
    rewrite Hv, Hc. unfold bind, invoke. rewrite Hu. reflexivity.
  - intros execVersion commander e s1 Hv Hc Hu Hk. unfold Uninstall.
    rewrite Hv, Hc. unfold bind, invoke. rewrite Hu. cbn [state calls].
    rewrite Hk. reflexivity.
Qed.

(** When the client cannot be retrieved from the kubeconfig, [ResetProxy]
    returns that error as it is and calls nothing; and it returns no error
    only when the client was retrieved and the one [Run] it made, with the
    configuration of the tag, returned none. *)
Theorem ResetProxy_needs_the_client (c : DefaultIstioPerformer)
    (kubeConfig proxyImageVersion : string) (w : world) :
  (forall e : failure,
     RetrieveFrom (provider c) kubeConfig = Failed e ->
     ResetProxy c kubeConfig proxyImageVersion w = (Returns (Some e), w))
  /\
  (forall w' : world,
     ResetProxy c kubeConfig proxyImageVersion w = (Returns None, w') ->
     exists kubeClient : Clientset,
       RetrieveFrom (provider c) kubeConfig = Ok kubeClient
       /\ Run (istioProxyReset c)
            (expected_proxy_config proxyImageVersion kubeClient) (state w)
          = (None, state w')
       /\ calls w'
          = calls w
            ++ [Call_ProxyReset_Run
                  (expected_proxy_config proxyImageVersion kubeClient)]).
Proof.
  split.
  - intros e Hr. unfold ResetProxy. rewrite Hr. reflexivity.
  - intros w'. unfold ResetProxy.
    destruct (RetrieveFrom (provider c) kubeConfig) as [kubeClient|e] eqn:Hk;
      [|discriminate].
    change {| ImagePrefix := istioImagePrefix;
              ImageVersion := proxyImageVersion +:+ "-distroless";
              RetriesCount := retriesCount;
              DelayBetweenRetries := delayBetweenRetries;
              Timeout := timeout;
              Interval := interval;
              Kubeclient := kubeClient;
              Debug := false |}
      with (expected_proxy_config proxyImageVersion kubeClient).
    unfold bind, invoke.
    destruct (Run (istioProxyReset c)
                (expected_proxy_config proxyImageVersion kubeClient)
                (state w)) as [[e|] s] eqn:Hrun; [discriminate|].
    intros Hr. injection Hr as <-. exists kubeClient.
    repeat split; try reflexivity; assumption.
Qed.

(** ** The target version and the version report, on all their paths *)

(** Whenever the resolution of the target version returns, it returns
    either a version that is not empty and no error, or an error and the
    empty version. *)
Theorem target_version_is_never_empty (workspace : Factory)
    (branch istioChart version : string) (err : error) :
  getTargetVersionFromIstioChart workspace branch istioChart
  = Returns (version, err) ->
  (err = None -> version <> "") /\ (err <> None -> version = "").
Proof.
  unfold getTargetVersionFromIstioChart,
    getTargetVersionFromPilotInChartValues,
    getTargetVersionFromAppVersionInChartDefinition, deref.
  destruct (Factory_Get workspace branch) as [resourceDir|e].
  2:{ intros Hr. injection Hr as <- <-. split; congruence. }
  destruct (loader_Load (filepath_Join resourceDir istioChart))
    as [helmChart|e].
  2:{ intros Hr. injection Hr as <- <-. split; congruence. }
  destruct (json_Marshal (ChartValues helmChart)) as [mapAsJSON|e].
  2:{ intros Hr. injection Hr as <- <-. split; congruence. }
  destruct (json_Unmarshal_chartValues mapAsJSON) as [values|e].
  2:{ intros Hr. injection Hr as <- <-. split; congruence. }
  destruct (String.eqb_spec (Global_Images_IstioPilot_Version values) "")
    as [Hp|Hp]; cbn [negb].
  2:{ intros Hr. injection Hr as <- <-. split; congruence. }
  destruct (Metadata helmChart) as [md|]; cbn [outcome_bind];
    [|discriminate].
  destruct (String.eqb_spec (AppVersion md) "") as [Ha|Ha]; cbn [negb];
    intros Hr; injection Hr as <- <-; split; congruence.
Qed.

Lemma getTargetVersion_ok_nonempty (workspace : Factory)
    (branch istioChart version : string) :
  getTargetVersionFromIstioChart workspace branch istioChart
  = Returns (version, None) ->
  version <> "".
Proof.
  unfold getTargetVersionFromIstioChart,
    getTargetVersionFromPilotInChartValues,
    getTargetVersionFromAppVersionInChartDefinition, deref.
  destruct (Factory_Get workspace branch) as [resourceDir|e];
    [|discriminate].
  destruct (loader_Load (filepath_Join resourceDir istioChart))
    as [helmChart|e]; [|discriminate].
  destruct (json_Marshal (ChartValues helmChart)) as [mapAsJSON|e];
    [|discriminate].
  destruct (json_Unmarshal_chartValues mapAsJSON) as [values|e];
    [|discriminate].
  destruct (String.eqb_spec (Global_Images_IstioPilot_Version values) "")
    as [Hp|Hp]; cbn [negb].
  2:{ intros Hr. injection Hr as <-. exact Hp. }
  destruct (Metadata helmChart) as [md|]; cbn [outcome_bind];
    [|discriminate].
  destruct (String.eqb_spec (AppVersion md) "") as [Ha|Ha]; cbn [negb];
    [discriminate|].
  intros Hr. injection Hr as <-. exact Ha.
Qed.

(** The failures on the way to the target version come back as they are,
    with the empty version: those of the workspace, of the loader, of
    [json.Marshal] and of [json.Unmarshal].  And a chart without metadata
    makes the resolution panic when its values hold no version. *)
Theorem target_version_failures (workspace : Factory)
    (branch istioChart : string) :
  (forall e : failure,
     Factory_Get workspace branch = Failed e ->
     getTargetVersionFromIstioChart workspace branch istioChart
     = Returns ("", Some e))
  /\
  (forall (resourceDir : string) (e : failure),
     Factory_Get workspace branch = Ok resourceDir ->
     loader_Load (filepath_Join resourceDir istioChart) = Failed e ->
     getTargetVersionFromIstioChart workspace branch istioChart
     = Returns ("", Some e))
  /\
  (forall (resourceDir : string) (helmChart : Chart) (e : failure),
     Factory_Get workspace branch = Ok resourceDir ->
     loader_Load (filepath_Join resourceDir istioChart) = Ok helmChart ->
     json_Marshal (ChartValues helmChart) = Failed e ->
     getTargetVersionFromIstioChart workspace branch istioChart
     = Returns ("", Some e))
  /\
  (forall (resourceDir : string) (helmChart : Chart) (mapAsJSON : list byte)
          (e : failure),
     Factory_Get workspace branch = Ok resourceDir ->
     loader_Load (filepath_Join resourceDir istioChart) = Ok helmChart ->
     json_Marshal (ChartValues helmChart) = Ok mapAsJSON ->
     json_Unmarshal_chartValues mapAsJSON = Failed e ->
     getTargetVersionFromIstioChart workspace branch istioChart
     = Returns ("", Some e))
  /\
  (forall (resourceDir : string) (helmChart : Chart) (mapAsJSON : list byte)
          (values : chartValues),
     Factory_Get workspace branch = Ok resourceDir ->
     loader_Load (filepath_Join resourceDir istioChart) = Ok helmChart ->
     json_Marshal (ChartValues helmChart) = Ok mapAsJSON ->
     json_Unmarshal_chartValues mapAsJSON = Ok values ->
     Global_Images_IstioPilot_Version values = "" ->
     Metadata helmChart = None ->
     getTargetVersionFromIstioChart workspace branch istioChart
     = Panics NilDereference).
Proof.
  unfold getTargetVersionFromIstioChart,
    getTargetVersionFromPilotInChartValues.
  repeat split.
  - intros e Hw. rewrite Hw. reflexivity.
  - intros resourceDir e Hw Hl. rewrite Hw, Hl. reflexivity.
  - intros resourceDir helmChart e Hw Hl Hm. rewrite Hw, Hl, Hm. reflexivity.
  - intros resourceDir helmChart mapAsJSON e Hw Hl Hm Hu.
    rewrite Hw, Hl, Hm, Hu. reflexivity.
  - intros resourceDir helmChart mapAsJSON values Hw Hl Hm Hu Hp Hmd.
    rewrite Hw, Hl, Hm, Hu, Hp. cbn.
    unfold getTargetVersionFromAppVersionInChartDefinition. rewrite Hmd.
    reflexivity.
Qed.

(** When [getVersionFromJSON] panics: on "client" with a nil client version,
    on "pilot" with a first mesh component that is nil or has a nil [Info],
    on "dataPlane" with a first entry that is nil, and in no other case. *)
Theorem getVersionFromJSON_panics_iff (versionType : VersionType)
    (json : IstioVersionOutput) :
  (exists p, getVersionFromJSON versionType json = Panics p)
  <->
  (versionType = "client" /\ Output_ClientVersion json = None)
  \/ (versionType = "pilot"
      /\ exists first rest,
           Output_MeshVersion json = first :: rest
           /\ (first = None \/ exists mc, first = Some mc /\ Info mc = None))
  \/ (versionType = "dataPlane"
      /\ exists rest, Output_DataPlaneVersion json = None :: rest).
Proof.
  unfold getVersionFromJSON, deref.
  destruct (String.eqb_spec versionType "client") as [Hc|Hc].
  { subst. destruct (Output_ClientVersion json) as [cv|]; cbn; split.
    - intros [p Hp]. discriminate.
    - intros [[_ H]|[[H _]|[H _]]]; discriminate.
    - intros _. left. auto.
    - intros _. eexists. reflexivity. }
  destruct (String.eqb_spec versionType "pilot") as [Hp|Hp].
  { subst. destruct (Output_MeshVersion json) as [|[mc|] rest]; cbn.
    - split; [intros [p H]; discriminate|].
      intros [[H _]|[(_ & f & r & H & _)|[H _]]]; discriminate.
    - destruct (Info mc) as [info|] eqn:Hi; cbn; split.
      + intros [p H]. discriminate.
      + intros [[H _]|[(_ & f & r & H & [Hf|(mc' & Hf & Hn)])|[H _]]];
          try discriminate.
        * injection H as <- _. discriminate.
        * injection H as <- _. injection Hf as <-. congruence.
      + intros _. right. left. split; [reflexivity|].
        exists (Some mc), rest. split; [reflexivity|]. right. eauto.
      + intros _. eexists. reflexivity.
    - split.
      + intros _. right. left. split; [reflexivity|].
        exists None, rest. auto.
      + intros _. eexists. reflexivity. }
  destruct (String.eqb_spec versionType "dataPlane") as [Hd|Hd].
  { subst. destruct (Output_DataPlaneVersion json) as [|[dp|] rest]; cbn.
    - split; [intros [p H]; discriminate|].
      intros [[H _]|[[H _]|(_ & r & H)]]; discriminate.
    - split; [intros [p H]; discriminate|].
      intros [[H _]|[[H _]|(_ & r & H)]]; discriminate.
    - split.
      + intros _. right. right. split; [reflexivity|]. eauto.
      + intros _. eexists. reflexivity. }
  split; [intros [p H]; discriminate|].
  intros [[H _]|[[H _]|[H _]]]; congruence.
Qed.

Lemma byte_in_or_not (c : byte) (s : list byte) :
  c ∈ s \/ (forall b, b ∈ s -> b <> c).
Proof.
  induction s as [|b s IH].
  - right. intros b Hb. inversion Hb.
  - destruct (byte_eq_dec b c) as [->|Hne]; [left; left|].
    destruct IH as [IH|IH]; [left; right; exact IH|].
    right. intros x Hx. inversion Hx; subst; [exact Hne|apply IH; assumption].
Qed.

(** Whenever the mapping returns, the status is the zero value when there is
    an error; and when there is none, the status carries the target version
    it was given and the output held an opening brace. *)
Theorem mapVersionToStruct_result_shape (versionOutput : list byte)
    (targetVersion : string) (status : IstioStatus) (err : error) :
  mapVersionToStruct versionOutput targetVersion = Returns (status, err) ->
  (err = None ->
   Status_TargetVersion status = targetVersion /\ "{"%byte ∈ versionOutput)
  /\ (err <> None -> status = IstioStatus_zero).
Proof.
  intros Hr.
  destruct versionOutput as [|b bs].
  { cbn in Hr. injection Hr as <- <-. split; congruence. }
  destruct (byte_in_or_not "{"%byte (b :: bs)) as [Hin|Hno].
  2:{ rewrite mapVersionToStruct_no_brace in Hr by (congruence || exact Hno).
      discriminate. }
  unfold mapVersionToStruct in Hr.
  change (len (b :: bs) =? 0) with false in Hr. cbn iota in Hr.
  destruct (if negb (bytes_IndexRune (b :: bs) "{"%byte =? 0)
            then slice_from (b :: bs) (bytes_IndexRune (b :: bs) "{"%byte)
            else Returns (b :: bs)) as [cut|p]; [|discriminate].
  cbn [outcome_bind] in Hr.
  destruct (json_Unmarshal_IstioVersionOutput cut) as [version|e].
  2:{ injection Hr as <- <-. split; congruence. }
  destruct (getVersionFromJSON "client" version) as [client|p];
    [|discriminate].
  destruct (getVersionFromJSON "pilot" version) as [pilot|p];
    [|discriminate].
  destruct (getVersionFromJSON "dataPlane" version) as [dataPlane|p];
    [|discriminate].
  cbn in Hr. injection Hr as <- <-. split; [|congruence].
  intros _. split; [reflexivity|exact Hin].
Qed.

Lemma mapVersionToStruct_ok_target (versionOutput : list byte)
    (targetVersion : string) (status : IstioStatus) :
  mapVersionToStruct versionOutput targetVersion = Returns (status, None) ->
  Status_TargetVersion status = targetVersion.
Proof.
  unfold mapVersionToStruct.
  destruct (len versionOutput =? 0); [discriminate|].
  destruct (if negb (bytes_IndexRune versionOutput "{"%byte =? 0)
            then slice_from versionOutput
                   (bytes_IndexRune versionOutput "{"%byte)
            else Returns versionOutput) as [cut|p]; [|discriminate].
  cbn [outcome_bind].
  destruct (json_Unmarshal_IstioVersionOutput cut) as [version|e];
    [|discriminate].
  destruct (getVersionFromJSON "client" version) as [client|p];
    [|discriminate].
  destruct (getVersionFromJSON "pilot" version) as [pilot|p];
    [|discriminate].
  destruct (getVersionFromJSON "dataPlane" version) as [dataPlane|p];
    [|discriminate].
  cbn. intros Hr. injection Hr as <-. reflexivity.
Qed.

(** The mapping of output that parses, with whatever banner before the first
    opening brace: when no pointer on the way is nil, the status holds the
    client version, the target version given, the version of the first mesh
    component and that of the first data plane entry, the latter two empty
    when their list is; there is no error. *)
Theorem mapVersionToStruct_extracts (noise rest : list byte)
    (targetVersion : string) (version : IstioVersionOutput)
    (cv : ClientVersion) :
  (forall b, b ∈ noise -> b <> "{"%byte) ->
  json_Unmarshal_IstioVersionOutput ("{"%byte :: rest) = Ok version ->
  Output_ClientVersion version = Some cv ->
  pointers_set version ->
  mapVersionToStruct (noise ++ "{"%byte :: rest) targetVersion
  = Returns ({| Status_ClientVersion := ClientVersion_Version cv;
                Status_TargetVersion := targetVersion;
                Status_PilotVersion := first_mesh_version version;
                Status_DataPlaneVersion := first_dataPlane_version version |},
             None).
Proof.
  intros Hnoise Hu Hcv (_ & Hmesh & Hdp).
  rewrite mapVersionToStruct_cuts_banner by exact Hnoise.
  unfold mapVersionToStruct.
  change (len ("{"%byte :: rest) =? 0) with false. cbn iota.
  change (bytes_IndexRune ("{"%byte :: rest) "{"%byte) with 0.
  cbn [Z.eqb negb outcome_bind]. rewrite Hu.
  unfold getVersionFromJSON, first_mesh_version, first_dataPlane_version,
    deref. cbn [String.eqb Ascii.eqb Bool.eqb].
  rewrite Hcv. cbn [outcome_bind].
  destruct (Output_MeshVersion version) as [|first mrest] eqn:Hm.
  - destruct (Output_DataPlaneVersion version) as [|dfirst drest] eqn:Hd;
      [reflexivity|].
    destruct dfirst as [dp|]; [reflexivity|].
    exfalso. exact (Hdp None drest eq_refl eq_refl).
  - destruct (Hmesh first mrest eq_refl) as (mc & -> & Hinfo).
    destruct (Info mc) as [info|] eqn:Hi; [|congruence].
    cbn [outcome_bind]. rewrite ?Hi. cbn [outcome_bind].
    destruct (Output_DataPlaneVersion version) as [|dfirst drest] eqn:Hd;
      [reflexivity|].
    destruct dfirst as [dp|]; [reflexivity|].
    exfalso. exact (Hdp None drest eq_refl eq_refl).
Qed.

(** Output that does not parse after the banner is cut: the error of the
    parser comes back, with the zero status. *)
Theorem mapVersionToStruct_parse_error (noise rest : list byte)
    (targetVersion : string) (e : failure) :
  (forall b, b ∈ noise -> b <> "{"%byte) ->
  json_Unmarshal_IstioVersionOutput ("{"%byte :: rest) = Failed e ->
  mapVersionToStruct (noise ++ "{"%byte :: rest) targetVersion
  = Returns (IstioStatus_zero, Some e).
Proof.
  intros Hnoise Hu.
  rewrite mapVersionToStruct_cuts_banner by exact Hnoise.
  apply mapVersionToStruct_unparseable. exact Hu.
Qed.

(** ** Version *)

(** When [Version] returns a status and no error, the target version in the
    status is the one resolved from the chart, which is not empty, and the
    only call made is the version query of the commander. *)
Theorem Version_reports_the_resolved_target (c : DefaultIstioPerformer)
    (workspace : Factory) (branchVersion istioChart kubeConfig : string)
    (w w' : world) (status : IstioStatus) :
  Version c workspace branchVersion istioChart kubeConfig w
  = (Returns (status, None), w') ->
  exists targetVersion : string,
    getTargetVersionFromIstioChart workspace branchVersion istioChart
    = Returns (targetVersion, None)
    /\ targetVersion <> ""
    /\ Status_TargetVersion status = targetVersion
    /\ calls w' = calls w ++ [Call_Version kubeConfig].
Proof.
  unfold Version, bind, lift, ret, invoke.
  destruct (getTargetVersionFromIstioChart workspace branchVersion istioChart)
    as [[targetVersion [e|]]|p] eqn:Ht; try discriminate.
  pose proof (getTargetVersion_ok_nonempty _ _ _ _ Ht) as Hne.
  destruct (VersionFromString targetVersion) as [version|e]; [|discriminate].
  destruct (GetCommander (resolver c) version) as [commander|e];
    [|discriminate].
  destruct (Commander_Version commander kubeConfig (state w))
    as [[versionOutput|e] s]; [|discriminate].
  destruct (mapVersionToStruct versionOutput targetVersion)
    as [[status' err]|p] eqn:Hm; [|discriminate].
  intros Hr. injection Hr as -> -> <-.
  exists targetVersion. repeat split; try reflexivity; auto.
  exact (mapVersionToStruct_ok_target _ _ _ Hm).
Qed.

(** The failures of [Version].  A target version that cannot be resolved:
    the error comes back wrapped in "Target Version could not be found"; one
    that does not parse: wrapped in "Error parsing version"; no commander for
    it: the error as it is; in all three the status is the zero value and
    nothing is called.  A failing version query: its error as it is and the
    zero status, after that one call. *)
Theorem Version_failures (c : DefaultIstioPerformer) (workspace : Factory)
    (branchVersion istioChart kubeConfig : string) (w : world) :
  (forall (v : string) (e : failure),
     getTargetVersionFromIstioChart workspace branchVersion istioChart
     = Returns (v, Some e) ->
     Version c workspace branchVersion istioChart kubeConfig w
     = (Returns (IstioStatus_zero,
                 Some (Wrapped e "Target Version could not be found")), w))
  /\
  (forall (targetVersion : string) (e : failure),
     getTargetVersionFromIstioChart workspace branchVersion istioChart
     = Returns (targetVersion, None) ->
     VersionFromString targetVersion = Failed e ->
     Version c workspace branchVersion istioChart kubeConfig w
     = (Returns (IstioStatus_zero, Some (Wrapped e "Error parsing version")),
        w))
  /\
  (forall (targetVersion : string) (version : istioctl_Version) (e : failure),
     getTargetVersionFromIstioChart workspace branchVersion istioChart
     = Returns (targetVersion, None) ->
     VersionFromString targetVersion = Ok version ->
     GetCommander (resolver c) version = Failed e ->
     Version c workspace branchVersion istioChart kubeConfig w
     = (Returns (IstioStatus_zero, Some e), w))
  /\
  (forall (targetVersion : string) (version : istioctl_Version)
          (commander : Commander) (e : failure) (s : cluster),
     getTargetVersionFromIstioChart workspace branchVersion istioChart
     = Returns (targetVersion, None) ->
     VersionFromString targetVersion = Ok version ->
     GetCommander (resolver c) version = Ok commander ->
     Commander_Version commander kubeConfig (state w) = (Failed e, s) ->
     Version c workspace branchVersion istioChart kubeConfig w
     = (Returns (IstioStatus_zero, Some e),
        {| state := s; calls := calls w ++ [Call_Version kubeConfig] |})).
Proof.
  unfold Version, bind, lift, ret, invoke.
  repeat split.
  - intros v e Ht. rewrite Ht. reflexivity.
  - intros targetVersion e Ht Hv. rewrite Ht, Hv. reflexivity.
  - intros targetVersion version e Ht Hv Hc. rewrite Ht, Hv, Hc. reflexivity.
  - intros targetVersion version commander e s Ht Hv Hc Hq.
    rewrite Ht, Hv, Hc, Hq. reflexivity.
Qed.
End MoreProperties.

(** * Properties of the audit log middleware *)

Section AuditProperties.
Context {HU : HttpUniverse} {HP : HttpPackages}.

(** Case analysis on the scrutinees of the goal, the innermost first. *)
Ltac case_scrutinee :=
  match goal with
  | |- context [match ?x with _ => _ end] =>
      lazymatch x with
      | context [match _ with _ => _ end] => fail
      | _ => destruct x eqn:?
      end
  end.

Lemma writeAuditLog_outcome (logData : data) (w : httpWorld) :
  (exists entry,
     entries (writeAuditLog logData w) = entries w ++ [entry]
     /\ responses (writeAuditLog logData w) = responses w
     /\ log_user entry = User logData
     /\ log_message entry = "")
  \/ (exists msg,
        responses (writeAuditLog logData w)
        = responses w ++ [(StatusInternalServerError, msg)]
        /\ entries (writeAuditLog logData w) = entries w
        /\ environment (writeAuditLog logData w) = environment w).
Proof.
  unfold writeAuditLog.
  destruct (json_Marshal_data logData) as [out|e].
  - left. destruct (time_Now_RFC3339 (environment w)) as [now e1].
    destruct (uuid_New e1) as [id e2]. eexists. cbn. auto.
  - right. eexists. cbn. auto.
Qed.

(** Every request ends in exactly one of two ways: one record is logged, for
    a user that is not empty and with the empty message, and no response is
    sent; or one error response is sent, with status 400 or 500, nothing is
    logged, and neither the clock nor the source of identifiers is used. *)
Theorem auditLogRequest_logs_or_rejects (r : Request) (w : httpWorld) :
  (exists entry,
     entries (snd (auditLogRequest r w)) = entries w ++ [entry]
     /\ responses (snd (auditLogRequest r w)) = responses w
     /\ log_user entry <> ""
     /\ log_message entry = "")
  \/ (exists status msg,
        responses (snd (auditLogRequest r w))
        = responses w ++ [(status, msg)]
        /\ entries (snd (auditLogRequest r w)) = entries w
        /\ environment (snd (auditLogRequest r w)) = environment w
        /\ (status = 400 \/ status = 500)).
Proof.
  assert (Hfinish : forall (logData : data) (r' : Request),
            User logData <> "" ->
            (exists entry,
               entries (snd (r', writeAuditLog logData w))
               = entries w ++ [entry]
               /\ responses (snd (r', writeAuditLog logData w)) = responses w
               /\ log_user entry <> ""
               /\ log_message entry = "")
            \/ (exists status msg,
                  responses (snd (r', writeAuditLog logData w))
                  = responses w ++ [(status, msg)]
                  /\ entries (snd (r', writeAuditLog logData w)) = entries w
                  /\ environment (snd (r', writeAuditLog logData w))
                     = environment w
                  /\ (status = 400 \/ status = 500))).
  { intros logData r' Hu. cbn [snd].
    destruct (writeAuditLog_outcome logData w)
      as [(entry & He & Hr & Hus & Hm)|(msg & Hr & He & Henv)].
    - left. exists entry. rewrite Hus. auto.
    - right. exists StatusInternalServerError, msg. auto. }
  assert (Hreject : forall (r' : Request) status msg,
            status = 400 \/ status = 500 ->
            exists status' msg',
              responses (snd (r', SendHTTPError status msg w))
              = responses w ++ [(status', msg')]
              /\ entries (snd (r', SendHTTPError status msg w)) = entries w
              /\ environment (snd (r', SendHTTPError status msg w))
                 = environment w
              /\ (status' = 400 \/ status' = 500)).
  { intros r' status msg Hs. exists status, msg. cbn. auto. }
  unfold auditLogRequest.
  destruct (Params_Int64 r paramContractVersion) as [contractV|e].
  2:{ right. apply Hreject. left. reflexivity. }
  destruct (getJWTPayload r) as [jwtPayload [e|]].
  { right. apply Hreject. right. reflexivity. }
  cbn [JWTPayload set_JWTPayload].
  destruct (getJWTPayloadSub jwtPayload) as [user [e|]].
  { right. apply Hreject. right. reflexivity. }
  assert (Huser : User (if negb (String.eqb user "")
                        then set_User
                               (set_JWTPayload
                                  {| ContractVersion := contractV;
                                     Method := Req_Method r;
                                     URI := Req_RequestURI r;
                                     RequestBody := "";
                                     User := "UNKOWEN_USER";
                                     JWTPayload := "" |} jwtPayload) user
                        else set_JWTPayload
                               {| ContractVersion := contractV;
                                  Method := Req_Method r;
                                  URI := Req_RequestURI r;
                                  RequestBody := "";
                                  User := "UNKOWEN_USER";
                                  JWTPayload := "" |} jwtPayload) <> "").
  { destruct (String.eqb_spec user "") as [Hu|Hu]; cbn; [discriminate|].
    exact Hu. }
  destruct (String.eqb (Req_Method r) "POST" || String.eqb (Req_Method r) "PUT").
  - destruct (ioutil_ReadAll (Req_Body r)) as [[reqBody [e|]] body].
    + right. apply Hreject. right. reflexivity.
    + apply Hfinish. exact Huser.
  - apply Hfinish. exact Huser.
Qed.

(** A response with status 400 is sent exactly when the contract version
    cannot be read from the request, and its text is then "Contract version
    undefined: " followed by the text of that error. *)
Theorem auditLogRequest_bad_request_iff (r : Request) (w : httpWorld)
    (msg : string) :
  responses (snd (auditLogRequest r w))
  = responses w ++ [(StatusBadRequest, msg)]
  <->
  exists e,
    Params_Int64 r paramContractVersion = Failed e
    /\ msg = "Contract version undefined: " +:+ Error e.
Proof.
  assert (Hlog : forall logData,
            responses (writeAuditLog logData w)
            <> responses w ++ [(StatusBadRequest, msg)]).
  { intros logData Hr.
    destruct (writeAuditLog_outcome logData w)
      as [(entry & _ & Hrs & _)|(m & Hrs & _)]; rewrite Hrs in Hr.
    - apply (f_equal length) in Hr. rewrite length_app in Hr.
      cbn in Hr. lia.
    - apply app_inv_head in Hr. discriminate. }
  assert (H500 : forall m,
            responses (SendHTTPError StatusInternalServerError m w)
            <> responses w ++ [(StatusBadRequest, msg)]).
  { intros m Hr. cbn in Hr. apply app_inv_head in Hr. discriminate. }
  unfold auditLogRequest.
  destruct (Params_Int64 r paramContractVersion) as [contractV|e].
  - split; [|intros (e & He & _); discriminate].
    intros Hr. exfalso. revert Hr.
    repeat case_scrutinee; cbn [snd]; intros Hr;
      first [exact (Hlog _ Hr) | exact (H500 _ Hr)].
  - cbn [snd SendHTTPError responses]. split.
    + intros Hr. apply app_inv_head in Hr. injection Hr as <-.
      exists e. split; reflexivity.
    + intros (e' & He & ->). injection He as <-. reflexivity.
Qed.

(** The middleware never reads more of the request than it must, and hands
    it on whole: method, URI, header and variables are as they were; the body
    is as it was unless the method is POST or PUT; and when a record is
    logged for a POST or a PUT, the body has been read without error and
    replaced by a buffer over the very bytes read. *)
Theorem auditLogRequest_keeps_the_request (r : Request) (w : httpWorld) :
  Req_Method (fst (auditLogRequest r w)) = Req_Method r
  /\ Req_RequestURI (fst (auditLogRequest r w)) = Req_RequestURI r
  /\ Req_Header (fst (auditLogRequest r w)) = Req_Header r
  /\ Req_Vars (fst (auditLogRequest r w)) = Req_Vars r
  /\ (Req_Method r <> "POST" -> Req_Method r <> "PUT" ->
      fst (auditLogRequest r w) = r)
  /\ ((Req_Method r = "POST" \/ Req_Method r = "PUT") ->
      forall entry,
        entries (snd (auditLogRequest r w)) = entries w ++ [entry] ->
        exists reqBody body,
          ioutil_ReadAll (Req_Body r) = ((reqBody, None), body)
          /\ Req_Body (fst (auditLogRequest r w))
             = NopCloser_NewBuffer reqBody).
Proof.
  assert (Hnolog : forall status m entry,
            entries (SendHTTPError status m w) <> entries w ++ [entry]).
  { intros status m entry Hr. cbn in Hr.
    apply (f_equal length) in Hr. rewrite length_app in Hr. cbn in Hr. lia. }
  unfold auditLogRequest.
  destruct (Params_Int64 r paramContractVersion) as [contractV|e].
  2:{ cbn [fst snd]. repeat split; auto.
      intros _ entry Hr. exfalso. exact (Hnolog _ _ _ Hr). }
  destruct (getJWTPayload r) as [jwtPayload [e|]].
  { cbn [fst snd]. repeat split; auto.
    intros _ entry Hr. exfalso. exact (Hnolog _ _ _ Hr). }
  destruct (getJWTPayloadSub _) as [user [e|]].
  { cbn [fst snd]. repeat split; auto.
    intros _ entry Hr. exfalso. exact (Hnolog _ _ _ Hr). }
  destruct (String.eqb_spec (Req_Method r) "POST") as [Hpost|Hpost];
    [|destruct (String.eqb_spec (Req_Method r) "PUT") as [Hput|Hput]];
    cbn [orb].
  3:{ cbn [fst snd]. repeat split; auto. intros [Hm|Hm]; congruence. }
  all: destruct (ioutil_ReadAll (Req_Body r)) as [[reqBody [e|]] body];
    cbn [fst snd set_Body Req_Method Req_RequestURI Req_Header Req_Vars
         Req_Body];
    repeat split; auto; try congruence.
  all: intros _ entry Hr.
  all: try (exfalso; exact (Hnolog _ _ _ Hr)).
  all: eauto.
Qed.

Lemma SendHTTPError_logs_nothing (status : Z) (m : string) (w : httpWorld)
    (entry : logEntry) :
  entries (SendHTTPError status m w) <> entries w ++ [entry].
Proof.
  intros Hr. cbn in Hr.
  apply (f_equal length) in Hr. rewrite length_app in Hr. cbn in Hr. lia.
Qed.

Lemma writeAuditLog_logged (logData : data) (w : httpWorld)
    (entry : logEntry) :
  entries (writeAuditLog logData w) = entries w ++ [entry] ->
  exists out,
    json_Marshal_data logData = Ok out
    /\ log_user entry = User logData
    /\ log_data entry = string_of_list_byte out.
Proof.
  unfold writeAuditLog.
  destruct (json_Marshal_data logData) as [out|e].
  - destruct (time_Now_RFC3339 (environment w)) as [now e1].
    destruct (uuid_New e1) as [id e2]. cbn [entries]. intros Hr.
    apply app_inv_head in Hr. injection Hr as <-.
    exists out. cbn. auto.
  - intros Hr. exfalso. exact (SendHTTPError_logs_nothing _ _ _ _ Hr).
Qed.

(** What a logged record tells of the request: the contract version was
    read, the token, if any, was decoded and parsed, and the record is the
    marshalled [data] of the request for the subject of the token, or for
    "UNKOWEN_USER" when there is none. *)
Lemma auditLogRequest_logged (r : Request) (w : httpWorld)
    (entry : logEntry) :
  entries (snd (auditLogRequest r w)) = entries w ++ [entry] ->
  exists (contractV : Z) (jwtPayload sub body : string) (out : list byte),
    Params_Int64 r paramContractVersion = Ok contractV
    /\ getJWTPayload r = (jwtPayload, None)
    /\ getJWTPayloadSub jwtPayload = (sub, None)
    /\ json_Marshal_data
         {| ContractVersion := contractV;
            Method := Req_Method r;
            URI := Req_RequestURI r;
            RequestBody := body;
            User := if String.eqb sub "" then "UNKOWEN_USER" else sub;
            JWTPayload := jwtPayload |} = Ok out
    /\ log_user entry = (if String.eqb sub "" then "UNKOWEN_USER" else sub)
    /\ log_data entry = string_of_list_byte out.
Proof.
  intros Hr. unfold auditLogRequest in Hr.
  destruct (Params_Int64 r paramContractVersion) as [contractV|e] eqn:Hp.
  2:{ exfalso. exact (SendHTTPError_logs_nothing _ _ _ _ Hr). }
  destruct (getJWTPayload r) as [jwtPayload [e|]] eqn:Hj.
  { exfalso. exact (SendHTTPError_logs_nothing _ _ _ _ Hr). }
  cbn [JWTPayload set_JWTPayload] in Hr.
  destruct (getJWTPayloadSub jwtPayload) as [sub [e|]] eqn:Hs.
  { exfalso. exact (SendHTTPError_logs_nothing _ _ _ _ Hr). }
  assert (Hlogged : exists body,
            entries
              (writeAuditLog
                 {| ContractVersion := contractV;
                    Method := Req_Method r;
                    URI := Req_RequestURI r;
                    RequestBody := body;
                    User := if String.eqb sub "" then "UNKOWEN_USER"
                            else sub;
                    JWTPayload := jwtPayload |} w)
            = entries w ++ [entry]).
  { destruct (String.eqb (Req_Method r) "POST"
              || String.eqb (Req_Method r) "PUT").
    - destruct (ioutil_ReadAll (Req_Body r)) as [[reqBody [e|]] body].
      + exfalso. exact (SendHTTPError_logs_nothing _ _ _ _ Hr).
      + exists (string_of_list_byte reqBody).
        destruct (String.eqb sub ""); exact Hr.
    - exists "". destruct (String.eqb sub ""); exact Hr. }
  destruct Hlogged as (body & Hw).
  destruct (writeAuditLog_logged _ _ _ Hw) as (out & Hm & Hu & Hd).
  exists contractV, jwtPayload, sub, body, out. cbn [User] in Hu. auto 10.
Qed.

(** A request without the X-Jwt header, or with an empty one, is logged for
    the user "UNKOWEN_USER" with an empty JWT payload, whatever the decoders
    would do.  Whatever the method and the contract version: a record that is
    logged for it carries that user and is the marshalled record of a
    contract version that was read, of the method and of the URI, for that
    user, with an empty payload.  And when the contract version is read, the
    method is neither POST nor PUT and the record with an empty body
    marshals, exactly that record is logged, under the time and the
    identifier drawn, and the request is handed on as it is. *)
Theorem auditLogRequest_anonymous (r : Request) (w : httpWorld) :
  Header_Get (Req_Header r) XJWTHeaderName = "" ->
  (forall entry : logEntry,
     entries (snd (auditLogRequest r w)) = entries w ++ [entry] ->
     log_user entry = "UNKOWEN_USER"
     /\ exists (contractV : Z) (body : string) (out : list byte),
          Params_Int64 r paramContractVersion = Ok contractV
          /\ json_Marshal_data
               {| ContractVersion := contractV;
                  Method := Req_Method r;
                  URI := Req_RequestURI r;
                  RequestBody := body;
                  User := "UNKOWEN_USER";
                  JWTPayload := "" |} = Ok out
          /\ log_data entry = string_of_list_byte out)
  /\
  (forall (contractV : Z) (out : list byte),
     Params_Int64 r paramContractVersion = Ok contractV ->
     Req_Method r <> "POST" ->
     Req_Method r <> "PUT" ->
     json_Marshal_data
       {| ContractVersion := contractV;
          Method := Req_Method r;
          URI := Req_RequestURI r;
          RequestBody := "";
          User := "UNKOWEN_USER";
          JWTPayload := "" |} = Ok out ->
     auditLogRequest r w
     = (r,
        {| responses := responses w;
           entries :=
             entries w
             ++ [{| log_time := fst (time_Now_RFC3339 (environment w));
                    log_uuid :=
                      fst (uuid_New (snd (time_Now_RFC3339 (environment w))));
                    log_user := "UNKOWEN_USER";
                    log_data := string_of_list_byte out;
                    log_message := "" |}];
           environment :=
             snd (uuid_New (snd (time_Now_RFC3339 (environment w)))) |})).
Proof.
  intros Hh. split.
  - intros entry Hr.
    destruct (auditLogRequest_logged r w entry Hr)
      as (contractV & jwtPayload & sub & body & out
          & Hp & Hj & Hs & Hm & Hu & Hd).
    unfold getJWTPayload in Hj. rewrite Hh in Hj. cbn in Hj.
    injection Hj as <-.
    unfold getJWTPayloadSub in Hs. cbn in Hs. injection Hs as <-.
    cbn in Hm, Hu. split; [exact Hu|].
    exists contractV, body, out. auto.
  - intros contractV out Hp Hpost Hput Hm.
    unfold auditLogRequest, getJWTPayload, getJWTPayloadSub. rewrite Hp, Hh.
    cbn.
    apply String.eqb_neq in Hpost. apply String.eqb_neq in Hput.
    rewrite Hpost, Hput. cbn [orb].
    unfold writeAuditLog, set_JWTPayload. cbn [ContractVersion Method URI
      RequestBody User JWTPayload]. rewrite Hm.
    destruct (time_Now_RFC3339 (environment w)) as [now e1]. cbn [fst snd].
    destruct (uuid_New e1) as [id e2]. reflexivity.
Qed.

(** A request whose contract version is read and whose X-Jwt header decodes
    to a payload, not empty, that parses is logged for the subject of the
    payload, and for "UNKOWEN_USER" when the subject is empty; the payload
    goes into the record as decoded.  Whatever the method, a record that is
    logged for it carries that user and is the marshalled record for that
    user with that payload.  When the method is neither POST nor PUT and the
    record with an empty body marshals, exactly that record is logged and the
    request is handed on as it is; when the method is POST or PUT, the body
    is read without error and the record with the bytes read marshals,
    exactly that record is logged and the request is handed on with a buffer
    over those bytes. *)
Theorem auditLogRequest_user_is_the_subject (r : Request) (w : httpWorld)
    (contractV : Z) (decodedSeg : list byte) (s : jwtSub) :
  let user := if String.eqb (Sub s) "" then "UNKOWEN_USER" else Sub s in
  let logged (out : list byte) : httpWorld :=
    {| responses := responses w;
       entries :=
         entries w
         ++ [{| log_time := fst (time_Now_RFC3339 (environment w));
                log_uuid :=
                  fst (uuid_New (snd (time_Now_RFC3339 (environment w))));
                log_user := user;
                log_data := string_of_list_byte out;
                log_message := "" |}];
       environment :=
         snd (uuid_New (snd (time_Now_RFC3339 (environment w)))) |} in
  let record (body : string) : data :=
    {| ContractVersion := contractV;
       Method := Req_Method r;
       URI := Req_RequestURI r;
       RequestBody := body;
       User := user;
       JWTPayload := string_of_list_byte decodedSeg |} in
  Header_Get (Req_Header r) XJWTHeaderName <> "" ->
  Params_Int64 r paramContractVersion = Ok contractV ->
  base64_RawURLEncoding_DecodeString
    (Header_Get (Req_Header r) XJWTHeaderName) = (decodedSeg, None) ->
  decodedSeg <> [] ->
  json_Unmarshal_jwtSub decodedSeg = (s, None) ->
  (forall entry : logEntry,
     entries (snd (auditLogRequest r w)) = entries w ++ [entry] ->
     log_user entry = user
     /\ exists (body : string) (out : list byte),
          json_Marshal_data (record body) = Ok out
          /\ log_data entry = string_of_list_byte out)
  /\
  (Req_Method r <> "POST" ->
   Req_Method r <> "PUT" ->
   forall out : list byte,
     json_Marshal_data (record "") = Ok out ->
     auditLogRequest r w = (r, logged out))
  /\
  (Req_Method r = "POST" \/ Req_Method r = "PUT" ->
   forall (reqBody : list byte) (body : reader) (out : list byte),
     ioutil_ReadAll (Req_Body r) = ((reqBody, None), body) ->
     json_Marshal_data (record (string_of_list_byte reqBody)) = Ok out ->
     auditLogRequest r w
     = (set_Body r (NopCloser_NewBuffer reqBody),
        logged out)).
Proof.
  intros user logged record Hh Hp Hd Hne Hu.
  assert (Hj : getJWTPayload r = (string_of_list_byte decodedSeg, None)).
  { unfold getJWTPayload.
    destruct (Nat.eqb_spec
                (String.length (Header_Get (Req_Header r) XJWTHeaderName)) 0)
      as [Hl|_].
    - exfalso. apply Hh.
      destruct (Header_Get (Req_Header r) XJWTHeaderName); [reflexivity|].
      discriminate.
    - rewrite Hd. reflexivity. }
  assert (Hs : getJWTPayloadSub (string_of_list_byte decodedSeg)
               = (Sub s, None)).
  { unfold getJWTPayloadSub.
    destruct (String.eqb_spec (string_of_list_byte decodedSeg) "") as [He|_].
    - exfalso. apply Hne.
      rewrite <- (list_byte_of_string_of_list_byte decodedSeg), He.
      reflexivity.
    - rewrite list_byte_of_string_of_list_byte, Hu. reflexivity. }
  assert (Hdata : forall body,
            set_RequestBody
              (if negb (String.eqb (Sub s) "")
               then set_User
                      (set_JWTPayload
                         {| ContractVersion := contractV;
                            Method := Req_Method r;
                            URI := Req_RequestURI r;
                            RequestBody := "";
                            User := "UNKOWEN_USER";
                            JWTPayload := "" |}
                         (string_of_list_byte decodedSeg)) (Sub s)
               else set_JWTPayload
                      {| ContractVersion := contractV;
                         Method := Req_Method r;
                         URI := Req_RequestURI r;
                         RequestBody := "";
                         User := "UNKOWEN_USER";
                         JWTPayload := "" |}
                      (string_of_list_byte decodedSeg)) body
            = record body).
  { intros body. unfold record, user.
    destruct (String.eqb (Sub s) ""); reflexivity. }
  assert (Hwrite : forall body out,
            json_Marshal_data (record body) = Ok out ->
            writeAuditLog (record body) w = logged out).
  { intros body out Hm. unfold writeAuditLog. rewrite Hm.
    destruct (time_Now_RFC3339 (environment w)) as [now e1]. cbn [fst snd].
    unfold logged.
    destruct (time_Now_RFC3339 (environment w)) as [now' e1'] eqn:Ht.
    cbn [fst snd].
    destruct (uuid_New e1) as [id e2] eqn:Hid. reflexivity. }
  split; [|split].
  - intros entry Hr.
    destruct (auditLogRequest_logged r w entry Hr)
      as (contractV0 & jwtPayload & sub & body & out
          & Hp0 & Hj0 & Hs0 & Hm & Hus & Hda).
    rewrite Hp in Hp0. injection Hp0 as <-.
    rewrite Hj in Hj0. injection Hj0 as <-.
    rewrite Hs in Hs0. injection Hs0 as <-.
    split; [exact Hus|]. exists body, out. auto.
  - intros Hpost Hput out Hm.
    unfold auditLogRequest. rewrite Hp, Hj.
    cbn [JWTPayload set_JWTPayload]. rewrite Hs.
    apply String.eqb_neq in Hpost. apply String.eqb_neq in Hput.
    rewrite Hpost, Hput. cbn [orb].
    rewrite <- (Hwrite "" out Hm). f_equal. f_equal.
    rewrite <- (Hdata ""). destruct (String.eqb (Sub s) ""); reflexivity.
  - intros Hmethod reqBody body out Hread Hm.
    unfold auditLogRequest. rewrite Hp, Hj.
    cbn [JWTPayload set_JWTPayload]. rewrite Hs.
    assert (Hb : String.eqb (Req_Method r) "POST"
                 || String.eqb (Req_Method r) "PUT" = true).
    { destruct Hmethod as [->| ->]; reflexivity. }
    rewrite Hb, Hread.
    rewrite <- (Hwrite _ out Hm). f_equal. f_equal.
    rewrite <- Hdata. reflexivity.
Qed.

(** A header that does not decode, or a payload that does not parse, is
    answered with status 500 and the text of the error after "Failed to
    parse X-Jwt header content : " or "failed to Unmarshal JWT payload: ";
    the request is left as it is, body unread. *)
Theorem auditLogRequest_rejects_a_bad_token (r : Request) (w : httpWorld)
    (contractV : Z) :
  Params_Int64 r paramContractVersion = Ok contractV ->
  Header_Get (Req_Header r) XJWTHeaderName <> "" ->
  (forall (decodedSeg : list byte) (e : failure),
     base64_RawURLEncoding_DecodeString
       (Header_Get (Req_Header r) XJWTHeaderName) = (decodedSeg, Some e) ->
     auditLogRequest r w
     = (r, SendHTTPError 500
             ("Failed to parse X-Jwt header content : " +:+ Error e) w))
  /\
  (forall (decodedSeg : list byte) (s : jwtSub) (e : failure),
     base64_RawURLEncoding_DecodeString
       (Header_Get (Req_Header r) XJWTHeaderName) = (decodedSeg, None) ->
     decodedSeg <> [] ->
     json_Unmarshal_jwtSub decodedSeg = (s, Some e) ->
     auditLogRequest r w
     = (r, SendHTTPError 500
             ("failed to Unmarshal JWT payload: " +:+ Error e) w)).
Proof.
  intros Hp Hh.
  assert (Hl : (String.length (Header_Get (Req_Header r) XJWTHeaderName)
                =? 0)%nat = false).
  { destruct (Header_Get (Req_Header r) XJWTHeaderName);
      [congruence|reflexivity]. }
  split.
  - intros decodedSeg e Hd.
    unfold auditLogRequest, getJWTPayload. rewrite Hp, Hl, Hd. reflexivity.
  - intros decodedSeg s e Hd Hne Hu.
    unfold auditLogRequest, getJWTPayload, getJWTPayloadSub.
    rewrite Hp, Hl, Hd. cbn [JWTPayload set_JWTPayload].
    destruct (String.eqb_spec (string_of_list_byte decodedSeg) "") as [He|_].
    { exfalso. apply Hne.
      rewrite <- (list_byte_of_string_of_list_byte decodedSeg), He.
      reflexivity. }
    rewrite list_byte_of_string_of_list_byte, Hu. reflexivity.
Qed.

(** The body of a POST or PUT request (here one without token).  When
    reading it fails, the answer is status 500 with the text of the error
    after "Failed to read received JSON payload: " and nothing is logged.
    When it is read, the bytes read go into the record as the request body,
    the record is logged, and the request is handed on with a buffer over
    those bytes as its body: where such a buffer reads back its bytes, whoever
    reads the body next reads what the middleware read. *)
Theorem auditLogRequest_reads_and_restores_the_body (r : Request)
    (w : httpWorld) (contractV : Z) :
  Params_Int64 r paramContractVersion = Ok contractV ->
  Header_Get (Req_Header r) XJWTHeaderName = "" ->
  (Req_Method r = "POST" \/ Req_Method r = "PUT") ->
  (forall (reqBody : list byte) (body : reader) (e : failure),
     ioutil_ReadAll (Req_Body r) = ((reqBody, Some e), body) ->
     auditLogRequest r w
     = (set_Body r body,
        SendHTTPError 500
          ("Failed to read received JSON payload: " +:+ Error e) w))
  /\
  (forall (reqBody : list byte) (body : reader) (out : list byte),
     ioutil_ReadAll (Req_Body r) = ((reqBody, None), body) ->
     json_Marshal_data
       {| ContractVersion := contractV;
          Method := Req_Method r;
          URI := Req_RequestURI r;
          RequestBody := string_of_list_byte reqBody;
          User := "UNKOWEN_USER";
          JWTPayload := "" |} = Ok out ->
     fst (auditLogRequest r w) = set_Body r (NopCloser_NewBuffer reqBody)
     /\ responses (snd (auditLogRequest r w)) = responses w
     /\ entries (snd (auditLogRequest r w))
        = entries w
          ++ [{| log_time := fst (time_Now_RFC3339 (environment w));
                 log_uuid :=
                   fst (uuid_New (snd (time_Now_RFC3339 (environment w))));
                 log_user := "UNKOWEN_USER";
                 log_data := string_of_list_byte out;
                 log_message := "" |}]
     /\ (forall rest : reader,
           ioutil_ReadAll (NopCloser_NewBuffer reqBody)
           = ((reqBody, None), rest) ->
           fst (ioutil_ReadAll (Req_Body (fst (auditLogRequest r w))))
           = (reqBody, None))).
Proof.
  intros Hp Hh Hmethod.
  assert (Hm : String.eqb (Req_Method r) "POST"
               || String.eqb (Req_Method r) "PUT" = true).
  { destruct Hmethod as [-> | ->]; reflexivity. }
  assert (Hstart :
            auditLogRequest r w
            = let '((reqBody, err), body) := ioutil_ReadAll (Req_Body r) in
              match err with
              | Some err =>
                  (set_Body r body,
                   SendHTTPError StatusInternalServerError
                     (Error (Wrapped err
                               "Failed to read received JSON payload")) w)
              | None =>
                  (set_Body r (NopCloser_NewBuffer reqBody),
                   writeAuditLog
                     {| ContractVersion := contractV;
                        Method := Req_Method r;
                        URI := Req_RequestURI r;
                        RequestBody := string_of_list_byte reqBody;
                        User := "UNKOWEN_USER";
                        JWTPayload := "" |} w)
              end).
  { unfold auditLogRequest, getJWTPayload, getJWTPayloadSub.
    rewrite Hp, Hh. cbn -[writeAuditLog]. rewrite Hm. reflexivity. }
  split.
  - intros reqBody body e Hr. rewrite Hstart, Hr. reflexivity.
  - intros reqBody body out Hr Hout. rewrite Hstart, Hr.
    unfold writeAuditLog. rewrite Hout.
    destruct (time_Now_RFC3339 (environment w)) as [now e1]. cbn [fst snd].
    destruct (uuid_New e1) as [id e2]. cbn.
    repeat split. intros rest Hback. rewrite Hback. reflexivity.
Qed.

(** The middleware calls the next handler on every request, once, with the
    request and the world as the audit step left them, also when the audit
    step has answered with an error: a request without contract version
    reaches the next handler after the response with status 400. *)
Theorem middleware_always_calls_next (next : Handler) (r : Request)
    (w : httpWorld) :
  NewAuditLoggerMiddelware next r w
  = next (fst (auditLogRequest r w)) (snd (auditLogRequest r w))
  /\
  (forall e : failure,
     Params_Int64 r paramContractVersion = Failed e ->
     NewAuditLoggerMiddelware next r w
     = next r
         (SendHTTPError 400
            ("Contract version undefined: " +:+ Error e) w)).
Proof.
  split.
  - unfold NewAuditLoggerMiddelware.
    destruct (auditLogRequest r w) as [r' w']. reflexivity.
  - intros e Hp. unfold NewAuditLoggerMiddelware, auditLogRequest.
    rewrite Hp. reflexivity.
Qed.

End AuditProperties.
(** * Examples on the in-memory cluster *)

Section Examples.
Existing Instance demoUniverse.
Existing Instance demoPackages.

(** The second patch of the in-memory cluster: the configuration served is
    the one the first patch wrote, it is written back as it is, and no error
    is returned. *)
Lemma patch_idempotent_witness :
  @PatchMutatingWebhook demoUniverse demoPackages demoKubeClient
    (memWorld demoClusterPatched [])
  = (Returns None,
     memWorld demoClusterPatched
       [Call_Webhook_Get primary; Call_Webhook_Get secondary;
        Call_Webhook_Update demoConfPatched]).
Proof.
  apply (proj2 (proj2 (@patch_idempotent demoUniverse demoPackages))
           demoKubeClient demoClientset demoConf demoConfPatched
           demoConfPatched
           (memWorld demoClusterPatched [])
           (memWorld demoClusterPatched
              [Call_Webhook_Get primary; Call_Webhook_Get secondary])
           demoClusterPatched);
    [discriminate | reflexivity ..].
Defined.

(** The chart with "1.2.3" in its values and "9.9.9" as [AppVersion]
    resolves to "1.2.3". *)
Lemma target_version_precedence_witness :
  @getTargetVersionFromIstioChart demoUniverse demoPackages demoFactory
    "main" "istio"
  = Returns ("1.2.3", None).
Proof.
  refine (proj1 (@target_version_precedence demoUniverse demoPackages
                   demoFactory "main" "istio" "resources"
                   {| Metadata := Some {| AppVersion := "9.9.9" |};
                      ChartValues := "1.2.3" |}
                   (list_byte_of_string "1.2.3")
                   {| Global_Images_IstioPilot_Version := "1.2.3" |}
                   _ _ _ _) _);
    [reflexivity | reflexivity | reflexivity | reflexivity | discriminate].
Defined.

(** C2 as stated fails for the chart "istio-numeric", whose values hold the
    number 1.11 where the version is looked up: the workspace and the loader
    deliver the chart, its [AppVersion] "1.11.4" is not empty, and yet the
    resolution returns no version, and not the error that the version was
    found in neither source, but the error of the decoder. *)
Lemma target_version_undecodable_counterexample :
  @loader_Load demoUniverse strictPackages
    (@filepath_Join demoUniverse strictPackages "resources" "istio-numeric")
  = Ok {| Metadata := Some {| AppVersion := "1.11.4" |};
          ChartValues := numericValues |}
  /\ @getTargetVersionFromIstioChart demoUniverse strictPackages demoFactory
       "main" "istio-numeric"
     = Returns ("",
                Some (New "json: cannot unmarshal number into Go struct field chartValues.global.images.istio_pilot.version of type string"))
  /\ @getTargetVersionFromIstioChart demoUniverse strictPackages demoFactory
       "main" "istio-numeric"
     <> Returns ("1.11.4", None)
  /\ @getTargetVersionFromIstioChart demoUniverse strictPackages demoFactory
       "main" "istio-numeric"
     <> Returns ("",
                 Some (New "Target Istio version could not be found neither in Chart.yaml nor in helm values")).
Proof.
  split; [reflexivity|]. split; [reflexivity|].
  split; intros Heq; vm_compute in Heq; discriminate.
Qed.

(** With the candidates "istio-revision-tag-default" and
    "istio-sidecar-injector" and only the second in the cluster, the second
    is selected. *)
Lemma select_first_success_or_last_failure_witness :
  @selectWebhookConfFormCandidates demoUniverse [primary; secondary]
    demoClientset (demoWorld 0)
  = (Returns (Some demoConf, None),
     memWorld (demoCluster 0)
       [Call_Webhook_Get primary; Call_Webhook_Get secondary]).
Proof.
  apply (proj1 (@select_first_success_or_last_failure demoUniverse
                  demoClientset)
           [primary] secondary [] (demoWorld 0)
           [APIStatus "NotFound" primary] (demoCluster 0) (demoCluster 0)
           (Some demoConf)).
  - eapply fetches_fail_cons; [reflexivity|apply fetches_fail_nil].
  - reflexivity.
Defined.

(** C3 as stated fails on the empty list of candidates: every fetch fails,
    there being none, and yet no error comes back, [errors.Wrap] of a nil
    error being nil. *)
Lemma select_empty_list_counterexample :
  @fetches_fail demoUniverse demoClientset [] (demoCluster 0) []
    (demoCluster 0)
  /\ @selectWebhookConfFormCandidates demoUniverse [] demoClientset
       (demoWorld 0)
     = (Returns (None, None), demoWorld 0)
  /\ ~ (forall names : list string,
          forall (errs : list failure) (s1 : memCluster),
            @fetches_fail demoUniverse demoClientset names (demoCluster 0)
              errs s1 ->
            exists e,
              fst (@selectWebhookConfFormCandidates demoUniverse names
                     demoClientset (demoWorld 0))
              = Returns (None, Some (Wrapped e not_selected))).
Proof.
  split; [apply fetches_fail_nil|]. split; [reflexivity|].
  intros H.
  destruct (H [] [] (demoCluster 0) (fetches_fail_nil _ _)) as [e He].
  discriminate He.
Qed.

(** The output "{}" has no [clientVersion]: the mapping panics. *)
Lemma absent_clientVersion_panics_witness :
  @mapVersionToStruct demoUniverse demoPackages (list_byte_of_string "{}")
    "1.11.4"
  = Panics NilDereference.
Proof.
  apply (proj2 (@absent_clientVersion_panics demoUniverse demoPackages)
           (list_byte_of_string "{}") "1.11.4"
           {| Output_ClientVersion := None;
              Output_MeshVersion := [];
              Output_DataPlaneVersion := [] |});
    reflexivity.
Defined.

(** One conflict, then the write is accepted: two attempts, each from the
    fetch, and no error. *)
Lemma patch_retries_on_conflict_witness :
  @PatchMutatingWebhook demoUniverse demoPackages demoKubeClient (demoWorld 1)
  = (Returns None,
     memWorld demoClusterPatched
       [Call_Webhook_Get primary; Call_Webhook_Get secondary;
        Call_Webhook_Update demoConfPatched;
        Call_Webhook_Get primary; Call_Webhook_Get secondary;
        Call_Webhook_Update demoConfPatched]).
Proof.
  apply (proj1 (@patch_retries_on_conflict demoUniverse demoPackages
                  demoKubeClient demoClientset eq_refl)
           1%nat (demoWorld 1)
           (memWorld (demoCluster 0)
              [Call_Webhook_Get primary; Call_Webhook_Get secondary;
               Call_Webhook_Update demoConfPatched])).
  - simpl. lia.
  - eapply conflicts_S; [reflexivity|reflexivity|apply conflicts_O].
  - reflexivity.
  - left. reflexivity.
Defined.

(** Without the namespace in the cluster the deletion fails, and so does
    [Uninstall], although the commander's uninstall went through. *)
Lemma Uninstall_surfaces_deletion_failure_witness :
  @Uninstall demoUniverse demoPackages demoPerformer demoKubeClient "1.11.4"
    (memWorld demoClusterBare [])
  = (Returns (Some (APIStatus "NotFound" "istio-system")),
     memWorld (mem_set_installed None demoClusterBare)
       [Call_Uninstall "kubeconfig";
        Call_Namespaces_Delete "istio-system" foreground_deletion]).
Proof.
  apply (proj1 (@Uninstall_surfaces_deletion_failure demoUniverse
                  demoPackages demoPerformer demoKubeClient "1.11.4"
                  (memWorld demoClusterBare []))
           "1.11.4" demoCommander demoClientset
           (mem_set_installed None demoClusterBare));
    reflexivity.
Defined.

(** An empty version string does not parse: [Install] returns the wrapped
    parse error and the world is as before. *)
Lemma Install_aborts_before_mutation_witness :
  @Install demoUniverse demoPackages demoPerformer "kubeconfig" "istio" ""
    (demoWorld 0)
  = (Returns (Some (Wrapped (New "empty version") "Error parsing version")),
     demoWorld 0).
Proof.
  apply (proj1 (@Install_aborts_before_mutation demoUniverse demoPackages
                  demoPerformer "kubeconfig" "istio" "" (demoWorld 0))).
  reflexivity.
Defined.

(** The tag "1.11.4" becomes the image version "1.11.4-distroless". *)
Lemma ResetProxy_builds_config_witness :
  @ResetProxy demoUniverse demoPerformer "kubeconfig" "1.11.4" (demoWorld 0)
  = (Returns None,
     memWorld (demoCluster 0)
       [Call_ProxyReset_Run
          {| ImagePrefix := "istio/proxyv2";
             ImageVersion := "1.11.4-distroless";
             RetriesCount := 5;
             DelayBetweenRetries := 5000000000;
             Timeout := 300000000000;
             Interval := 12000000000;
             Kubeclient := demoClientset;
             Debug := false |}]).
Proof.
  apply (@ResetProxy_builds_config demoUniverse demoPerformer "kubeconfig"
           "1.11.4" (demoWorld 0) demoClientset).
  reflexivity.
Defined.

(** Five conflicts in a row use up the attempts: the patch returns the
    conflict, after five writes. *)
Example patch_gives_up_after_five_conflicts :
  @PatchMutatingWebhook demoUniverse demoPackages demoKubeClient (demoWorld 5)
  = (Returns (Some (APIStatus "Conflict" secondary)),
     memWorld (demoCluster 0)
       (concat (repeat [Call_Webhook_Get primary; Call_Webhook_Get secondary;
                        Call_Webhook_Update demoConfPatched] 5))).
Proof. reflexivity. Qed.

(** Through [Version]: the chart resolves to "1.2.3", which the resolver
    does not support. *)
Example Version_unsupported :
  fst (@Version demoUniverse demoPackages demoPerformer demoFactory "main"
         "istio" "kubeconfig" (demoWorld 0))
  = Returns (IstioStatus_zero, Some (New "unsupported version 1.2.3")).
Proof. reflexivity. Qed.

End Examples.

(** * Further examples *)

Section MoreExamples.
Existing Instance demoUniverse.
Existing Instance demoHttpUniverse.

Lemma not_in_banner (b : byte) :
  b ∈ list_byte_of_string "banner " -> b <> "{"%byte.
Proof.
  cbn. intros Hb Heq. subst b.
  repeat (apply elem_of_cons in Hb as [Hb|Hb]; [discriminate Hb|]).
  inversion Hb.
Qed.

(** The rule stays single on the heap with the shared array. *)
Lemma addNamespaceSelector_no_duplicate_witness :
  exists h',
    Heap.addNamespaceSelectorIfNotPresent doubling sharedHeap sharedConf
      webhookNameToChange requiredLabelSelector
    = Returns (h', None)
    /\ requiredLabelSelector ∈ MatchExpressions (view_selector h' 0)
    /\ occurrences requiredLabelSelector
         (MatchExpressions (view_selector h' 0))
       = 1%nat.
Proof.
  refine (addNamespaceSelector_no_duplicate doubling sharedHeap sharedConf
            webhookNameToChange requiredLabelSelector []
            [heapEntry "namespace.sidecar-injector.istio.io" 1]
            (heapEntry webhookNameToChange 0) 0
            eq_refl _ eq_refl eq_refl _).
  - intros w Hw. inversion Hw.
  - simpl. lia.
Defined.

(** In a cluster without webhook configurations the attempt returns the
    wrapped error of the second fetch and writes nothing. *)
Lemma patchAttempt_failure_writes_nothing_witness :
  @patchAttempt demoUniverse demoClientset (memWorld demoClusterEmpty [])
  = (Returns (Some (Wrapped (APIStatus "NotFound" secondary) not_selected)),
     memWorld demoClusterEmpty
       [Call_Webhook_Get primary; Call_Webhook_Get secondary]).
Proof.
  apply (proj1 (@patchAttempt_failure_writes_nothing demoUniverse
                  demoClientset (memWorld demoClusterEmpty [])
                  (memWorld demoClusterEmpty
                     [Call_Webhook_Get primary; Call_Webhook_Get secondary]))
           None).
  reflexivity.
Defined.

(** The attempt on the in-memory cluster fetches [demoConf], which is what
    the empty heap shows of [plainConf], and writes [demoConfPatched]. *)
Lemma patchAttempt_writes_back_the_fetched_witness :
  @patchAttempt demoUniverse demoClientset (demoWorld 0)
  = (Returns None,
     memWorld demoClusterPatched
       [Call_Webhook_Get primary; Call_Webhook_Get secondary;
        Call_Webhook_Update demoConfPatched]).
Proof.
  destruct (@patchAttempt_writes_back_the_fetched demoUniverse doubling
              demoClientset (demoWorld 0)
              (memWorld (demoCluster 0)
                 [Call_Webhook_Get primary; Call_Webhook_Get secondary])
              emptyHeap plainConf
              [heapEntry "namespace.sidecar-injector.istio.io" 1]
              [heapEntry webhookNameToChange 2]
              (heapEntry webhookNameToChange 0) 0%nat)
    as (h' & _ & Hview & Hattempt).
  - reflexivity.
  - reflexivity.
  - intros x Hx. apply list_elem_of_singleton in Hx. subst x.
    simpl. discriminate.
  - reflexivity.
  - reflexivity.
  - exact I.
  - split.
    + intros q Hq. discriminate.
    + intros other q Hother Hq.
      apply elem_of_cons in Hother as [->|Hother];
        [|apply list_elem_of_singleton in Hother; subst other];
        apply list_elem_of_singleton in Hq; subst q;
        (split; [lia|exact I]).
  - rewrite Hattempt, Hview. reflexivity.
Defined.

Lemma Install_calls_the_commander_once_witness :
  @Install demoUniverse demoPackages demoPerformer "kubeconfig" "istio"
    "1.11.4" (demoWorld 0)
  = (Returns None,
     memWorld (mem_set_installed (Some "operator of istio") (demoCluster 0))
       [Call_Install "operator of istio" "kubeconfig"]).
Proof.
  apply (proj1 (@Install_calls_the_commander_once demoUniverse demoPackages
                  demoPerformer "kubeconfig" "istio" "1.11.4" (demoWorld 0))
           "1.11.4" "operator of istio" demoCommander);
    reflexivity.
Defined.

Lemma Update_aborts_or_upgrades_once_witness :
  @Update demoUniverse demoPackages reportPerformer "kubeconfig" "istio"
    "1.11.4" (demoWorld 0)
  = (Returns (Some (Wrapped (New "upgrade failed")
                      "Error occurred when calling istioctl")),
     memWorld (demoCluster 0) [Call_Upgrade "operator of istio" "kubeconfig"]).
Proof.
  apply (proj2 (proj2 (proj2
           (@Update_aborts_or_upgrades_once demoUniverse demoPackages
              reportPerformer "kubeconfig" "istio" "1.11.4" (demoWorld 0))))
           "1.11.4" "operator of istio" reportCommander);
    reflexivity.
Defined.

Lemma Uninstall_stops_before_the_namespace_witness :
  @Uninstall demoUniverse demoPackages demoPerformer brokenKubeClient "1.11.4"
    (demoWorld 0)
  = (Returns (Some (New "no client")),
     memWorld (mem_set_installed None (demoCluster 0))
       [Call_Uninstall "kubeconfig"]).
Proof.
  apply (proj2 (proj2 (proj2
           (@Uninstall_stops_before_the_namespace demoUniverse demoPackages
              demoPerformer brokenKubeClient "1.11.4" (demoWorld 0))))
           "1.11.4" demoCommander);
    reflexivity.
Defined.

Lemma ResetProxy_needs_the_client_witness :
  @ResetProxy demoUniverse demoPerformer "" "1.11.4" (demoWorld 0)
  = (Returns (Some (New "no kubeconfig")), demoWorld 0).
Proof.
  apply (proj1 (@ResetProxy_needs_the_client demoUniverse demoPerformer ""
                  "1.11.4" (demoWorld 0))).
  reflexivity.
Defined.

(** The chart of the in-memory workspace resolves to a version that is not
    empty. *)
Lemma target_version_is_never_empty_witness : "1.2.3" <> "".
Proof.
  refine (proj1 (@target_version_is_never_empty demoUniverse demoPackages
                   demoFactory "main" "istio" "1.2.3" None _) _);
    reflexivity.
Defined.

Lemma target_version_failures_witness :
  @getTargetVersionFromIstioChart demoUniverse demoPackages demoFactory "dev"
    "istio"
  = Returns ("", Some (New "no such branch")).
Proof.
  apply (proj1 (@target_version_failures demoUniverse demoPackages
                  demoFactory "dev" "istio")).
  reflexivity.
Defined.

Lemma getVersionFromJSON_panics_iff_witness :
  exists p,
    getVersionFromJSON "pilot"
      {| Output_ClientVersion := None;
         Output_MeshVersion := [Some {| Component := "pilot"; Info := None |}];
         Output_DataPlaneVersion := [] |}
    = Panics p.
Proof.
  apply (proj2 (getVersionFromJSON_panics_iff "pilot" _)).
  right. left. split; [reflexivity|].
  eexists _, _. split; [reflexivity|]. right. eexists. split; reflexivity.
Defined.

(** Output that was mapped without error holds an opening brace. *)
Lemma mapVersionToStruct_result_shape_witness :
  "{"%byte ∈ list_byte_of_string ("banner " +:+ clientOnlyJSON).
Proof.
  refine (proj2 (proj1 (@mapVersionToStruct_result_shape demoUniverse
                          reportPackages
                          (list_byte_of_string ("banner " +:+ clientOnlyJSON))
                          "1.2.3"
                          {| Status_ClientVersion := "1.11.0";
                             Status_TargetVersion := "1.2.3";
                             Status_PilotVersion := "";
                             Status_DataPlaneVersion := "" |}
                          None _) _));
    reflexivity.
Defined.

Lemma mapVersionToStruct_extracts_witness :
  @mapVersionToStruct demoUniverse reportPackages
    (list_byte_of_string "banner " ++ list_byte_of_string clientOnlyJSON)
    "1.2.3"
  = Returns ({| Status_ClientVersion := "1.11.0";
                Status_TargetVersion := "1.2.3";
                Status_PilotVersion := "";
                Status_DataPlaneVersion := "" |}, None).
Proof.
  apply (@mapVersionToStruct_extracts demoUniverse reportPackages
           (list_byte_of_string "banner ")
           (tail (list_byte_of_string clientOnlyJSON)) "1.2.3"
           {| Output_ClientVersion :=
                Some {| ClientVersion_Version := "1.11.0" |};
              Output_MeshVersion := [];
              Output_DataPlaneVersion := [] |}
           {| ClientVersion_Version := "1.11.0" |}).
  - exact not_in_banner.
  - reflexivity.
  - reflexivity.
  - split; [discriminate|]. split; intros first rest Hl; discriminate Hl.
Defined.

Lemma mapVersionToStruct_parse_error_witness :
  @mapVersionToStruct demoUniverse demoPackages
    (list_byte_of_string "banner " ++ list_byte_of_string "{oops") "1.2.3"
  = Returns (IstioStatus_zero, Some (New "invalid character")).
Proof.
  apply (@mapVersionToStruct_parse_error demoUniverse demoPackages
           (list_byte_of_string "banner ")
           (list_byte_of_string "oops") "1.2.3").
  - exact not_in_banner.
  - reflexivity.
Defined.

Lemma Version_reports_the_resolved_target_witness :
  exists targetVersion : string,
    @getTargetVersionFromIstioChart demoUniverse reportPackages demoFactory
      "main" "istio" = Returns (targetVersion, None)
    /\ targetVersion <> ""
    /\ "1.2.3" = targetVersion
    /\ [Call_Version "kubeconfig"] = [] ++ [Call_Version "kubeconfig"].
Proof.
  apply (@Version_reports_the_resolved_target demoUniverse reportPackages
           reportPerformer demoFactory "main" "istio" "kubeconfig"
           (demoWorld 0)
           (memWorld (demoCluster 0) [Call_Version "kubeconfig"])
           {| Status_ClientVersion := "1.11.0";
              Status_TargetVersion := "1.2.3";
              Status_PilotVersion := "";
              Status_DataPlaneVersion := "" |}).
  reflexivity.
Defined.

Lemma Version_failures_witness :
  @Version demoUniverse demoPackages demoPerformer demoFactory "main" "istio"
    "kubeconfig" (demoWorld 0)
  = (Returns (IstioStatus_zero, Some (New "unsupported version 1.2.3")),
     demoWorld 0).
Proof.
  apply (proj1 (proj2 (proj2
           (@Version_failures demoUniverse demoPackages demoPerformer
              demoFactory "main" "istio" "kubeconfig" (demoWorld 0))))
           "1.2.3" "1.2.3");
    reflexivity.
Defined.

(** ** Requests through the audit log *)

(** A request without the contract version is answered with status 400. *)
Lemma auditLogRequest_bad_request_iff_witness :
  responses (snd (@auditLogRequest demoHttpUniverse demoHttpPackages
                    (demoRequest "GET" [] ∅ "") demoHttpWorld))
  = responses demoHttpWorld
    ++ [(StatusBadRequest,
         "Contract version undefined: parameter contractVersion undefined")].
Proof.
  apply (proj2 (@auditLogRequest_bad_request_iff demoHttpUniverse
                  demoHttpPackages (demoRequest "GET" [] ∅ "") demoHttpWorld
                  _)).
  exists (New "parameter contractVersion undefined").
  split; reflexivity.
Defined.

(** A GET request comes out of the audit step as it went in. *)
Lemma auditLogRequest_keeps_the_request_witness :
  fst (@auditLogRequest demoHttpUniverse demoHttpPackages
         (demoRequest "GET" [] (<["contractVersion" := "1"]> ∅) "")
         demoHttpWorld)
  = demoRequest "GET" [] (<["contractVersion" := "1"]> ∅) "".
Proof.
  apply (proj1 (proj2 (proj2 (proj2 (proj2
           (@auditLogRequest_keeps_the_request demoHttpUniverse
              demoHttpPackages
              (demoRequest "GET" [] (<["contractVersion" := "1"]> ∅) "")
              demoHttpWorld))))));
    discriminate.
Defined.

(** A GET request without token is logged for "UNKOWEN_USER". *)
Lemma auditLogRequest_anonymous_witness :
  @auditLogRequest demoHttpUniverse demoHttpPackages
    (demoRequest "GET" [] (<["contractVersion" := "1"]> ∅) "") demoHttpWorld
  = (demoRequest "GET" [] (<["contractVersion" := "1"]> ∅) "",
     @Build_httpWorld demoHttpUniverse []
       [{| log_time := "2021-10-01T00:00:00Z";
           log_uuid := "00000000-0000-4000-8000-000000000000";
           log_user := "UNKOWEN_USER";
           log_data := "GET /v1/clusters UNKOWEN_USER ";
           log_message := "" |}]
       2%nat).
Proof.
  refine (proj2 (@auditLogRequest_anonymous demoHttpUniverse demoHttpPackages
                   (demoRequest "GET" [] (<["contractVersion" := "1"]> ∅) "")
                   demoHttpWorld _)
            1 (list_byte_of_string "GET /v1/clusters UNKOWEN_USER ")
            _ _ _ _);
    try reflexivity; discriminate.
Defined.

(** A GET request with the token of alice is logged for alice. *)
Lemma auditLogRequest_user_is_the_subject_witness :
  @auditLogRequest demoHttpUniverse demoHttpPackages
    (demoRequest "GET" ["eyJzdWIiOiJhbGljZSJ9"]
       (<["contractVersion" := "1"]> ∅) "") demoHttpWorld
  = (demoRequest "GET" ["eyJzdWIiOiJhbGljZSJ9"]
       (<["contractVersion" := "1"]> ∅) "",
     @Build_httpWorld demoHttpUniverse []
       [{| log_time := "2021-10-01T00:00:00Z";
           log_uuid := "00000000-0000-4000-8000-000000000000";
           log_user := "alice";
           log_data := "GET /v1/clusters alice ";
           log_message := "" |}]
       2%nat).
Proof.
  refine (proj1 (proj2 (@auditLogRequest_user_is_the_subject demoHttpUniverse
                          demoHttpPackages
                          (demoRequest "GET" ["eyJzdWIiOiJhbGljZSJ9"]
                             (<["contractVersion" := "1"]> ∅) "")
                          demoHttpWorld 1 (list_byte_of_string alicePayload)
                          {| Sub := "alice" |} _ _ _ _ _))
            _ _ (list_byte_of_string "GET /v1/clusters alice ") _);
    try reflexivity; discriminate.
Defined.

(** A token that is not base64 is answered with status 500. *)
Lemma auditLogRequest_rejects_a_bad_token_witness :
  @auditLogRequest demoHttpUniverse demoHttpPackages
    (demoRequest "GET" ["?"] (<["contractVersion" := "1"]> ∅) "")
    demoHttpWorld
  = (demoRequest "GET" ["?"] (<["contractVersion" := "1"]> ∅) "",
     @Build_httpWorld demoHttpUniverse
       [(500, "Failed to parse X-Jwt header content : illegal base64 data at input byte 0")]
       [] O).
Proof.
  refine (proj1 (@auditLogRequest_rejects_a_bad_token demoHttpUniverse
                   demoHttpPackages
                   (demoRequest "GET" ["?"] (<["contractVersion" := "1"]> ∅)
                      "")
                   demoHttpWorld 1 _ _)
            [] (New "illegal base64 data at input byte 0") _);
    try reflexivity; discriminate.
Defined.

(** A POST request is handed on with the body it came with. *)
Lemma auditLogRequest_reads_and_restores_the_body_witness :
  fst (@auditLogRequest demoHttpUniverse demoHttpPackages
         (demoRequest "POST" [] (<["contractVersion" := "1"]> ∅) "payload")
         demoHttpWorld)
  = demoRequest "POST" [] (<["contractVersion" := "1"]> ∅) "payload".
Proof.
  refine (proj1 (proj2 (@auditLogRequest_reads_and_restores_the_body
                          demoHttpUniverse demoHttpPackages
                          (demoRequest "POST" []
                             (<["contractVersion" := "1"]> ∅) "payload")
                          demoHttpWorld 1 _ _ _)
                   (list_byte_of_string "payload") []
                   (list_byte_of_string
                      "POST /v1/clusters UNKOWEN_USER payload") _ _));
    try reflexivity.
  left. reflexivity.
Defined.

(** After the response with status 400 the next handler still answers. *)
Lemma middleware_always_calls_next_witness :
  responses (@NewAuditLoggerMiddelware demoHttpUniverse demoHttpPackages
               demoNext (demoRequest "GET" [] ∅ "") demoHttpWorld)
  = [(400, "Contract version undefined: parameter contractVersion undefined");
     (200, "GET")].
Proof.
  rewrite (proj2 (@middleware_always_calls_next demoHttpUniverse
                    demoHttpPackages demoNext (demoRequest "GET" [] ∅ "")
                    demoHttpWorld)
             (New "parameter contractVersion undefined"));
    reflexivity.
Defined.

End MoreExamples.
